(** * MCP Universal Runtime: the stdio/HTTP bridge

    A shallow embedding of the two bridges of the repository,
    [bridge-compliant.js] (module [Compliant]) and [bridge.js] (module
    [Simple]), and the properties of their request correlation, line
    framing, child-exit handling and HTTP routing.

    Conventions of the embedding.
    - A JavaScript string is a [string]: a sequence of code units, of which
      the model keeps those below 256.
    - A JSON value is a [JValue]; numbers are the integers. [undefined] is
      [None] in [option JValue].
    - Every handler is a function from the bridge state to a new state and
      the list of effects it performed, in order.  Calls of a promise's
      [resolve]/[reject] are effects; the awaiting code runs afterwards, as
      the microtasks of the same turn of the event loop.
    - [JSON.parse], string conversion of non-string values and
      [crypto.randomUUID] belong to the platform and are parameters
      (class [Platform]). *)

From Stdlib Require Import ZArith String Ascii List Bool Lia.
From stdpp Require Import base option list gmap strings.
Import ListNotations.

Local Open Scope Z_scope.

(** ** JavaScript values and strings *)

Module JS.

#[local] Unset Elimination Schemes.
Inductive JValue : Type :=
| JNull
| JBool (b : bool)
| JNum (z : Z)
| JStr (s : string)
| JArr (items : list JValue)
| JObj (fields : list (string * JValue)).
#[local] Set Elimination Schemes.

(** ToBoolean: what [if (v)], [v && ...] and [!v] test. *)
Definition truthy (v : option JValue) : bool :=
  match v with
  | None => false
  | Some JNull => false
  | Some (JBool b) => b
  | Some (JNum z) => negb (Z.eqb z 0)
  | Some (JStr s) => negb (String.eqb s "")
  | Some (JArr _) => true
  | Some (JObj _) => true
  end.

Fixpoint assoc (k : string) (l : list (string * JValue)) : option JValue :=
  match l with
  | [] => None
  | (k', v) :: r => if String.eqb k k' then Some v else assoc k r
  end.

(** Reading a property of [null] or [undefined] throws a TypeError. *)
Definition nullish (v : option JValue) : bool :=
  match v with
  | None | Some JNull => true
  | Some _ => false
  end.

(** Property read [v.k] for a [v] that is neither [null] nor [undefined],
    and for the property names the bridges use, none of which is defined on
    a prototype: the value of the key in an object, [undefined] on anything
    else. *)
Definition field (k : string) (v : option JValue) : option JValue :=
  match v with
  | Some (JObj fields) => assoc k fields
  | _ => None
  end.

(** The key under which a JSON value is looked up in a [Map] whose keys
    are request numbers: only a number can be equal to one. *)
Definition numeric_key (id : option JValue) : option Z :=
  match id with
  | Some (JNum n) => Some n
  | _ => None
  end.

(** An object literal as [JSON.stringify] renders it: a property whose
    value is [undefined] is left out. *)
Fixpoint defined (l : list (string * option JValue)) : list (string * JValue) :=
  match l with
  | [] => []
  | (k, None) :: r => defined r
  | (k, Some v) :: r => (k, v) :: defined r
  end.

Definition object (l : list (string * option JValue)) : JValue :=
  JObj (defined l).

(** Truthiness of a header value or other optional string. *)
Definition nonempty (s : option string) : bool :=
  match s with
  | None => false
  | Some s => negb (String.eqb s "")
  end.

(** [s.split(sep)] for a one-character separator: the piece before the
    first separator, then the remaining pieces. *)
Fixpoint cut (sep : ascii) (s : string) : string * list string :=
  match s with
  | EmptyString => (EmptyString, [])
  | String c r =>
      let (h, t) := cut sep r in
      if Ascii.eqb c sep then (EmptyString, h :: t) else (String c h, t)
  end.

Definition split (sep : ascii) (s : string) : list string :=
  let (h, t) := cut sep s in h :: t.

(** [l.pop()] on a non-empty array: the array without its last element,
    and that element. *)
Fixpoint pop (h : string) (t : list string) : list string * string :=
  match t with
  | [] => ([], h)
  | h' :: t' => let (l, x) := pop h' t' in (h :: l, x)
  end.

(** White space and line terminators removed by [trim]. *)
Definition is_ws (c : ascii) : bool :=
  match N_of_ascii c with
  | 9%N | 10%N | 11%N | 12%N | 13%N | 32%N | 160%N => true
  | _ => false
  end.

Fixpoint ltrim (s : string) : string :=
  match s with
  | EmptyString => EmptyString
  | String c r => if is_ws c then ltrim r else s
  end.

Fixpoint rtrim (s : string) : string :=
  match s with
  | EmptyString => EmptyString
  | String c r =>
      match rtrim r with
      | EmptyString => if is_ws c then EmptyString else String c EmptyString
      | r' => String c r'
      end
  end.

Definition trim (s : string) : string := rtrim (ltrim s).

(** [hay.includes(needle)] *)
Fixpoint includes (needle hay : string) : bool :=
  String.prefix needle hay ||
  match hay with
  | EmptyString => false
  | String _ r => includes needle r
  end.

(** [s] without its prefix [p], when it has it. *)
Fixpoint strip_prefix (p s : string) : option string :=
  match p, s with
  | EmptyString, _ => Some s
  | String a p', String c s' => if Ascii.eqb a c then strip_prefix p' s' else None
  | String _ _, EmptyString => None
  end.

Definition is_digit (c : ascii) : bool :=
  (48 <=? N_of_ascii c)%N && (N_of_ascii c <=? 57)%N.

Fixpoint digits (s : string) : bool :=
  match s with
  | EmptyString => true
  | String c r => is_digit c && digits r
  end.

(** Thrown values. *)
Inductive JSError : Type :=
| Error (message : string)
| TypeError (message : string).

Definition message_of (e : JSError) : string :=
  match e with
  | Error m => m
  | TypeError m => m
  end.

(** [JSON.parse] ([None]: SyntaxError, with the message [syntax_error]
    gives for the text), ToString on a value that is not a string, and the
    successive results of [crypto.randomUUID]. *)
Class Platform : Type := {
  JSON_parse : string -> option JValue;
  syntax_error : string -> string;
  ToString : JValue -> string;
  randomUUID : nat -> string
}.

(** [new Error(v).message]: the empty string for [undefined], else the
    string conversion of [v]. *)
Definition Error_of `{Platform} (v : option JValue) : JSError :=
  match v with
  | None => Error ""
  | Some (JStr s) => Error s
  | Some other => Error (ToString other)
  end.

(** The TypeError of [base.k] on [null] or [undefined] (V8's text). *)
Definition cannot_read (base : option JValue) (k : string) : JSError :=
  TypeError ("Cannot read properties of "
             +:+ (match base with None => "undefined" | Some _ => "null" end)
             +:+ " (reading '" +:+ k +:+ "')").

End JS.

Import JS.

Definition newline : ascii := ascii_of_nat 10.

(** An HTTP response object, named by the exchange it belongs to. *)
Definition Res : Type := nat.

(** What is written to a response. *)
Inductive Chunk : Type :=
| Text (s : string)
| Json (v : JValue)             (* JSON.stringify(v) *)
| SseData (v : JValue).         (* `data: ${JSON.stringify(v)}\n\n` *)

Record Request : Type := {
  method : string;                        (* req.method *)
  pathname : string;                      (* new URL(req.url, ...).pathname *)
  origin : option string;                 (* req.headers.origin *)
  accept : option string;                 (* req.headers.accept *)
  mcp_protocol_version : option string;   (* req.headers['mcp-protocol-version'] *)
  mcp_session_id : option string;         (* req.headers['mcp-session-id'] *)
  body : string                           (* the body chunks, concatenated *)
}.

(** How a promise was settled. *)
Inductive Outcome : Type :=
| Fulfilled (value : option JValue)
| Rejected (e : JSError).

(** The child process as the bridge sees it. *)
Record Process : Type := { stdin_writable : bool }.

Definition json_headers : list (string * string) :=
  [("Content-Type", "application/json")].

(** The effects of a handler; [K] is the type of the code that awaits a
    call. *)
Inductive Effect (K : Type) : Type :=
| ConsoleLog (text : string)
| ConsoleError (text detail : string)
| StdinWrite (message : JValue)              (* stdin.write(JSON.stringify(message) + '\n') *)
| PendingSet (id : Z) (k : K)                (* this.pendingRequests.set(id, { resolve, reject }) *)
| Resolve (id : Z) (k : K) (value : option JValue)
| Reject (id : Z) (k : K) (e : JSError)
| Threw (k : K) (e : JSError)                (* an async function awaited by k threw *)
| SetHeader (res : Res) (name value : string)
| WriteHead (res : Res) (status : Z) (headers : list (string * string))
| Write (res : Res) (chunk : Chunk)
| End_ (res : Res) (chunk : option Chunk)
| Listen
| ProcessExit (code : Z).

Arguments ConsoleLog {K} text.
Arguments ConsoleError {K} text detail.
Arguments StdinWrite {K} message.
Arguments PendingSet {K} id k.
Arguments Resolve {K} id k value.
Arguments Reject {K} id k e.
Arguments Threw {K} k e.
Arguments SetHeader {K} res name value.
Arguments WriteHead {K} res status headers.
Arguments Write {K} res chunk.
Arguments End_ {K} res chunk.
Arguments Listen {K}.
Arguments ProcessExit {K} code.

(** The settlements among the effects of a handler, in order: the
    microtasks that follow it. *)
Definition settled {K : Type} (e : Effect K) : option (K * Outcome) :=
  match e with
  | Resolve _ k v => Some (k, Fulfilled v)
  | Reject _ k e => Some (k, Rejected e)
  | Threw k e => Some (k, Rejected e)
  | _ => None
  end.

Definition respond {K : Type} (res : Res) (status : Z) (body : JValue) : list (Effect K) :=
  [WriteHead res status json_headers; End_ res (Some (Json body))].

Definition error_body (message : string) : JValue :=
  JObj [("error", JStr message)].

Definition nl : string := String newline EmptyString.

(** A loop over [items] whose body changes the state and performs
    effects: [for (const x of items) body(x)]. *)
Fixpoint for_each {A S E : Type} (body : A -> S -> S * list E) (items : list A) (b : S)
  : S * list E :=
  match items with
  | [] => (b, [])
  | x :: rest =>
      let (b1, e1) := body x b in
      let (b2, e2) := for_each body rest b1 in
      (b2, (e1 ++ e2)%list)
  end.

(** The path after prefix stripping in [handleHTTPRequest]; [known] are the
    last segments that name a route. *)
Definition route (known : list string) (path : string) : string :=
  let pathParts := filter (fun p => negb (String.eqb p "")) (split "/" path) in
  if (2 <=? length pathParts)%nat then
    let lastPart := List.last pathParts "" in
    if existsb (String.eqb lastPart) known then "/" +:+ lastPart else path
  else path.

Definition jsonrpc_error (id : option JValue) (code : Z) (message : string) : JValue :=
  object [("jsonrpc", Some (JStr "2.0")); ("id", id);
          ("error", Some (object [("code", Some (JNum code));
                                  ("message", Some (JStr message))]))].

Definition jsonrpc_result (id result : option JValue) : JValue :=
  object [("jsonrpc", Some (JStr "2.0")); ("id", id); ("result", result)].

Definition jsonrpc_request (id : Z) (method params : option JValue) : JValue :=
  object [("jsonrpc", Some (JStr "2.0")); ("id", Some (JNum id));
          ("method", method); ("params", params)].

(** ** Vocabulary of the properties *)

(** The request ids registered among some effects, in order. *)
Definition registered {K : Type} (effects : list (Effect K)) : list Z :=
  omap (fun e => match e with PendingSet id _ => Some id | _ => None end) effects.

(** The status lines written among some effects, in order. *)
Definition statuses {K : Type} (effects : list (Effect K)) : list (Res * Z) :=
  omap (fun e => match e with WriteHead res status _ => Some (res, status) | _ => None end)
       effects.


(** The complete lines of a text and the fragment after its last newline:
    [split] then [pop], as the stdout handler does. *)
Definition framed (s : string) : list string * string :=
  let (h, t) := cut newline s in pop h t.


Fixpoint has_newline (s : string) : bool :=
  match s with
  | EmptyString => false
  | String c r => Ascii.eqb c newline || has_newline r
  end.

(** The chunks of a stream, put end to end. *)
Definition joined (chunks : list string) : string := foldr String.append "" chunks.


(** ** bridge-compliant.js *)

Module Compliant.

(** The code waiting on the promise of a call. *)
Inductive Cont : Type :=
| AwaitStart                                     (* startMCPProcess: await this.initializeMCP() *)
| AwaitInitialize (message : JValue) (res : Res) (* handleInitializeRequest: await this.proxyToMCP(..) *)
| AwaitPost (message : JValue) (res : Res).      (* handleMCPPost: await this.proxyToMCP(..) *)

(** A session's data; [createdAt] is the wall clock and is not kept. *)
Record Session : Type := { clientInfo : option JValue }.

Abbreviation Effect := (Effect Cont).

Record Bridge : Type := {
  mcpProcess : option Process;
  requestId : Z;
  pendingRequests : gmap Z Cont;
  isInitialized : bool;
  mcpCapabilities : option JValue;
  sessions : gmap string Session;
  sseConnections : gmap string Res;
  (* [let buffer] of the stdout handler *)
  buffer : string;
  (* the event loop: armed timeouts (request id, delay in ms), keep-alive
     intervals, whether the HTTP server listens, UUIDs drawn so far,
     whether process.exit was called *)
  timeouts : gmap Z Z;
  intervals : list (string * Res);
  listening : bool;
  uuids : nat;
  exited : bool
}.

Definition set_mcpProcess (x : option Process) (b : Bridge) : Bridge :=
  {| mcpProcess := x; requestId := requestId b; pendingRequests := pendingRequests b;
     isInitialized := isInitialized b; mcpCapabilities := mcpCapabilities b;
     sessions := sessions b; sseConnections := sseConnections b; buffer := buffer b;
     timeouts := timeouts b; intervals := intervals b; listening := listening b;
     uuids := uuids b; exited := exited b |}.

Definition set_requestId (x : Z) (b : Bridge) : Bridge :=
  {| mcpProcess := mcpProcess b; requestId := x; pendingRequests := pendingRequests b;
     isInitialized := isInitialized b; mcpCapabilities := mcpCapabilities b;
     sessions := sessions b; sseConnections := sseConnections b; buffer := buffer b;
     timeouts := timeouts b; intervals := intervals b; listening := listening b;
     uuids := uuids b; exited := exited b |}.

Definition set_pendingRequests (x : gmap Z Cont) (b : Bridge) : Bridge :=
  {| mcpProcess := mcpProcess b; requestId := requestId b; pendingRequests := x;
     isInitialized := isInitialized b; mcpCapabilities := mcpCapabilities b;
     sessions := sessions b; sseConnections := sseConnections b; buffer := buffer b;
     timeouts := timeouts b; intervals := intervals b; listening := listening b;
     uuids := uuids b; exited := exited b |}.

Definition set_isInitialized (x : bool) (b : Bridge) : Bridge :=
  {| mcpProcess := mcpProcess b; requestId := requestId b; pendingRequests := pendingRequests b;
     isInitialized := x; mcpCapabilities := mcpCapabilities b;
     sessions := sessions b; sseConnections := sseConnections b; buffer := buffer b;
     timeouts := timeouts b; intervals := intervals b; listening := listening b;
     uuids := uuids b; exited := exited b |}.

Definition set_mcpCapabilities (x : option JValue) (b : Bridge) : Bridge :=
  {| mcpProcess := mcpProcess b; requestId := requestId b; pendingRequests := pendingRequests b;
     isInitialized := isInitialized b; mcpCapabilities := x;
     sessions := sessions b; sseConnections := sseConnections b; buffer := buffer b;
     timeouts := timeouts b; intervals := intervals b; listening := listening b;
     uuids := uuids b; exited := exited b |}.

Definition set_sessions (x : gmap string Session) (b : Bridge) : Bridge :=
  {| mcpProcess := mcpProcess b; requestId := requestId b; pendingRequests := pendingRequests b;
     isInitialized := isInitialized b; mcpCapabilities := mcpCapabilities b;
     sessions := x; sseConnections := sseConnections b; buffer := buffer b;
     timeouts := timeouts b; intervals := intervals b; listening := listening b;
     uuids := uuids b; exited := exited b |}.

Definition set_sseConnections (x : gmap string Res) (b : Bridge) : Bridge :=
  {| mcpProcess := mcpProcess b; requestId := requestId b; pendingRequests := pendingRequests b;
     isInitialized := isInitialized b; mcpCapabilities := mcpCapabilities b;
     sessions := sessions b; sseConnections := x; buffer := buffer b;
     timeouts := timeouts b; intervals := intervals b; listening := listening b;
     uuids := uuids b; exited := exited b |}.

Definition set_buffer (x : string) (b : Bridge) : Bridge :=
  {| mcpProcess := mcpProcess b; requestId := requestId b; pendingRequests := pendingRequests b;
     isInitialized := isInitialized b; mcpCapabilities := mcpCapabilities b;
     sessions := sessions b; sseConnections := sseConnections b; buffer := x;
     timeouts := timeouts b; intervals := intervals b; listening := listening b;
     uuids := uuids b; exited := exited b |}.

Definition set_timeouts (x : gmap Z Z) (b : Bridge) : Bridge :=
  {| mcpProcess := mcpProcess b; requestId := requestId b; pendingRequests := pendingRequests b;
     isInitialized := isInitialized b; mcpCapabilities := mcpCapabilities b;
     sessions := sessions b; sseConnections := sseConnections b; buffer := buffer b;
     timeouts := x; intervals := intervals b; listening := listening b;
     uuids := uuids b; exited := exited b |}.

Definition set_intervals (x : list (string * Res)) (b : Bridge) : Bridge :=
  {| mcpProcess := mcpProcess b; requestId := requestId b; pendingRequests := pendingRequests b;
     isInitialized := isInitialized b; mcpCapabilities := mcpCapabilities b;
     sessions := sessions b; sseConnections := sseConnections b; buffer := buffer b;
     timeouts := timeouts b; intervals := x; listening := listening b;
     uuids := uuids b; exited := exited b |}.

Definition set_listening (x : bool) (b : Bridge) : Bridge :=
  {| mcpProcess := mcpProcess b; requestId := requestId b; pendingRequests := pendingRequests b;
     isInitialized := isInitialized b; mcpCapabilities := mcpCapabilities b;
     sessions := sessions b; sseConnections := sseConnections b; buffer := buffer b;
     timeouts := timeouts b; intervals := intervals b; listening := x;
     uuids := uuids b; exited := exited b |}.

Definition set_uuids (x : nat) (b : Bridge) : Bridge :=
  {| mcpProcess := mcpProcess b; requestId := requestId b; pendingRequests := pendingRequests b;
     isInitialized := isInitialized b; mcpCapabilities := mcpCapabilities b;
     sessions := sessions b; sseConnections := sseConnections b; buffer := buffer b;
     timeouts := timeouts b; intervals := intervals b; listening := listening b;
     uuids := x; exited := exited b |}.

Definition set_exited (x : bool) (b : Bridge) : Bridge :=
  {| mcpProcess := mcpProcess b; requestId := requestId b; pendingRequests := pendingRequests b;
     isInitialized := isInitialized b; mcpCapabilities := mcpCapabilities b;
     sessions := sessions b; sseConnections := sseConnections b; buffer := buffer b;
     timeouts := timeouts b; intervals := intervals b; listening := listening b;
     uuids := uuids b; exited := x |}.

(** [new MCPBridge()] *)
Definition constructor : Bridge :=
  {| mcpProcess := None; requestId := 1; pendingRequests := ∅;
     isInitialized := false; mcpCapabilities := None;
     sessions := ∅; sseConnections := ∅; buffer := "";
     timeouts := ∅; intervals := []; listening := false;
     uuids := 0%nat; exited := false |}.

Section WithPlatform.
Context `{Platform}.

(** [sendToMCP(message)]: the state is not changed. *)
Definition sendToMCP (message : JValue) (b : Bridge) : list Effect :=
  match mcpProcess b with
  | Some p =>
      if stdin_writable p then [StdinWrite message]
      else [ConsoleError "MCP process not available" ""]
  | None => [ConsoleError "MCP process not available" ""]
  end.

Definition initialize_params : JValue :=
  JObj [("protocolVersion", JStr "2025-06-18");
        ("capabilities", JObj [("experimental", JObj []); ("sampling", JObj [])]);
        ("clientInfo", JObj [("name", JStr "mcp-universal-runtime");
                             ("version", JStr "1.0.0")])].

(** [initializeMCP()], awaited by [k]. No timer is armed. *)
Definition initializeMCP (k : Cont) (b : Bridge) : Bridge * list Effect :=
  let id := requestId b in
  let b := set_requestId (id + 1) b in
  let request := jsonrpc_request id (Some (JStr "initialize")) (Some initialize_params) in
  let b := set_pendingRequests (<[id := k]> (pendingRequests b)) b in
  (b, PendingSet id k :: sendToMCP request b).

(** [this.pendingRequests.has(id)] with the entry it finds. *)
Definition pending_entry (id : option JValue) (b : Bridge) : option (Z * Cont) :=
  n ← numeric_key id; k ← pendingRequests b !! n; Some (n, k).

(** [handleMCPResponse(response)]. [None]: the TypeError of [response.id]
    on [null], thrown before anything is done. *)
Definition handleMCPResponse (response : JValue) (b : Bridge)
  : option (Bridge * list Effect) :=
  if nullish (Some response) then None
  else
    let id := field "id" (Some response) in
    match (if truthy id then pending_entry id b else None) with
    | None => Some (b, [])
    | Some (n, k) =>
        let b := set_pendingRequests (delete n (pendingRequests b)) b in
        let error := field "error" (Some response) in
        if truthy error then
          Some (b, [Reject n k (Error_of (field "message" error))])
        else
          let result := field "result" (Some response) in
          if truthy result && truthy (field "capabilities" result) then
            Some (set_isInitialized true (set_mcpCapabilities result b),
                  [ConsoleLog "MCP server initialized successfully";
                   Resolve n k result])
          else Some (b, [Resolve n k result])
    end.

(** [proxyToMCP(method, params)], awaited by [k]. *)
Definition proxyToMCP (method params : option JValue) (k : Cont) (b : Bridge)
  : Bridge * list Effect :=
  let id := requestId b in
  let b := set_requestId (id + 1) b in
  let request := jsonrpc_request id method params in
  let b := set_pendingRequests (<[id := k]> (pendingRequests b)) b in
  let sent := sendToMCP request b in
  let b := set_timeouts (<[id := 30000]> (timeouts b)) b in
  (b, PendingSet id k :: sent).

(** The callback of the timer armed by [proxyToMCP] for request [id]. *)
Definition onTimeout (id : Z) (b : Bridge) : Bridge * list Effect :=
  match pendingRequests b !! id with
  | Some k =>
      (set_pendingRequests (delete id (pendingRequests b)) b,
       [Reject id k (Error "Request timeout")])
  | None => (b, [])
  end.

(** The child's ['exit'] handler. *)
Definition onExit (b : Bridge) : Bridge * list Effect :=
  (set_isInitialized false (set_mcpProcess None b),
   [ConsoleLog "MCP Process exited"]).

(** The body of [for (const line of lines)] in the stdout handler. *)
Definition onLine (line : string) (b : Bridge) : Bridge * list Effect :=
  if String.eqb (trim line) "" then (b, [])
  else
    match JSON_parse line with
    | None => (b, [ConsoleError "Failed to parse MCP response:" line])
    | Some response =>
        match handleMCPResponse response b with
        | None => (b, [ConsoleError "Failed to parse MCP response:" line])
        | Some r => r
        end
    end.

Definition onLines (lines : list string) (b : Bridge) : Bridge * list Effect :=
  for_each onLine lines b.

(** The stdout ['data'] handler; [data] is [data.toString()]. *)
Definition onStdout (data : string) (b : Bridge) : Bridge * list Effect :=
  let buffer := buffer b +:+ data in
  let (h, t) := cut newline buffer in
  let (lines, buffer) := pop h t in
  onLines lines (set_buffer buffer b).

(** *** The HTTP gateway *)

(** [validateAcceptHeader(acceptHeader, required)] *)
Definition validateAcceptHeader (acceptHeader : option string) (required : list string) : bool :=
  match acceptHeader with
  | None => false
  | Some header =>
      if String.eqb header "" then false
      else
        let acceptTypes := map (fun t => fst (cut ";" (trim t))) (split "," header) in
        forallb (fun type => existsb (String.eqb type) acceptTypes) required
  end.

(** [validateProtocolVersion(versionHeader)]; [None] is [null]. *)
Definition validateProtocolVersion (versionHeader : option string) : option string :=
  match versionHeader with
  | None => Some "2025-03-26"
  | Some v =>
      if String.eqb v "" then Some "2025-03-26"
      else if existsb (String.eqb v) ["2025-06-18"; "2025-03-26"] then Some v
      else None
  end.

(** [(:\d+)?$] *)
Definition optional_port (s : string) : bool :=
  match s with
  | EmptyString => true
  | String c r => Ascii.eqb c ":" && negb (String.eqb r "") && digits r
  end.

(** [^https?:\/\/host(:\d+)?$], the dots of [host] escaped. *)
Definition http_origin (host origin : string) : bool :=
  existsb (fun scheme =>
             match strip_prefix (scheme +:+ host) origin with
             | Some r => optional_port r
             | None => false
             end) ["http://"; "https://"].

(** [.*suffix$]: the dot matches anything but a line terminator. *)
Fixpoint any_then (suffix s : string) : bool :=
  String.eqb s suffix ||
  match s with
  | EmptyString => false
  | String c r =>
      negb (Ascii.eqb c newline) && negb (Ascii.eqb c (ascii_of_nat 13))
      && any_then suffix r
  end.

(** [isAllowedOrigin(origin)] *)
Definition isAllowedOrigin (origin : string) : bool :=
  http_origin "localhost" origin
  || http_origin "127.0.0.1" origin
  || match strip_prefix "https://" origin with
     | Some r => any_then ".claude.ai" r
     | None => false
     end
  || String.eqb origin "https://claude.ai".

(** [handleHealth(req, res)]; the [timestamp] property is the wall clock
    and is left out. *)
Definition handleHealth (res : Res) (b : Bridge) : list Effect :=
  let serverInfo := field "serverInfo" (mcpCapabilities b) in
  respond res 200
    (object [("status", Some (JStr "healthy"));
             ("service", Some (JStr "mcp-universal-runtime"));
             ("version", Some (JStr "1.0.0"));
             ("mcp_initialized", Some (JBool (isInitialized b)));
             ("mcp_server", Some (if truthy serverInfo
                                  then default JNull serverInfo else JNull))]).

(** [this.sessions.has(sessionId)] guarded by [sessionId &&]. *)
Definition unknown_session (sessionId : option string) (b : Bridge) : bool :=
  match sessionId with
  | None => false
  | Some s => negb (String.eqb s "") && negb (bool_decide (is_Some (sessions b !! s)))
  end.

(** [handleInitializeRequest(message, res)] up to its [await]. *)
Definition handleInitializeRequest (message : JValue) (res : Res) (b : Bridge)
  : Bridge * list Effect :=
  proxyToMCP (field "method" (Some message)) (field "params" (Some message))
             (AwaitInitialize message res) b.

(** [handleMCPPost(req, res, sessionId, protocolVersion)], run when the
    body has been received. *)
Definition handleMCPPost (req : Request) (res : Res) (sessionId : option string)
    (b : Bridge) : Bridge * list Effect :=
  if negb (validateAcceptHeader (accept req) ["application/json"; "text/event-stream"]) then
    (b, respond res 400
          (jsonrpc_error (Some JNull) (-32600)
             "Accept header must include application/json and text/event-stream"))
  else
    let parse_error (detail : string) :=
      (ConsoleError "MCP POST error:" detail
       :: respond res 400 (jsonrpc_error (Some JNull) (-32700) "Parse error"))%list in
    match JSON_parse (body req) with
    | None => (b, parse_error (syntax_error (body req)))
    | Some message =>
        if nullish (Some message) then
          (b, parse_error (message_of (cannot_read (Some message) "method")))
        else if match field "method" (Some message) with
                | Some (JStr m) => String.eqb m "initialize"
                | _ => false
                end then
          handleInitializeRequest message res b
        else if unknown_session sessionId b then
          (b, respond res 404
                (jsonrpc_error (field "id" (Some message)) (-32001) "Session not found"))
        else if truthy (field "id" (Some message)) then
          proxyToMCP (field "method" (Some message)) (field "params" (Some message))
                     (AwaitPost message res) b
        else
          (b, ((if truthy (field "method" (Some message))
                then sendToMCP message b else [])
               ++ [WriteHead res 202 []; End_ res None])%list)
    end.

(** [handleMCPGet(req, res, sessionId, protocolVersion)] *)
Definition handleMCPGet (req : Request) (res : Res) (sessionId : option string)
    (b : Bridge) : Bridge * list Effect :=
  if negb (match accept req with
           | Some a => negb (String.eqb a "") && includes "text/event-stream" a
           | None => false
           end) then
    (b, respond res 400 (error_body "Accept header must include text/event-stream"))
  else if unknown_session sessionId b then
    (b, respond res 404 (error_body "Session not found"))
  else
    let head :=
      WriteHead res 200
        [("Content-Type", "text/event-stream"); ("Cache-Control", "no-cache");
         ("Connection", "keep-alive");
         ("Access-Control-Allow-Origin",
          if nonempty (origin req) then default "" (origin req) else "*")] in
    let connectionId := randomUUID (uuids b) in
    let b := set_uuids (S (uuids b)) b in
    let b := set_sseConnections (<[connectionId := res]> (sseConnections b)) b in
    let initial :=
      if isInitialized b && truthy (mcpCapabilities b) then
        [Write res (Text ("id: " +:+ connectionId +:+ "-1" +:+ nl));
         Write res (SseData
           (object [("jsonrpc", Some (JStr "2.0"));
                    ("method", Some (JStr "notification/capabilities"));
                    ("params", Some (object [("capabilities", mcpCapabilities b)]))]))]
      else [] in
    let b := set_intervals (intervals b ++ [(connectionId, res)])%list b in
    (b, head :: initial).

(** [handleMCPDelete(req, res, sessionId)] *)
Definition handleMCPDelete (res : Res) (sessionId : option string) (b : Bridge)
  : Bridge * list Effect :=
  match sessionId with
  | None => (b, respond res 400 (error_body "Session ID required"))
  | Some s =>
      if String.eqb s "" then (b, respond res 400 (error_body "Session ID required"))
      else
        match sessions b !! s with
        | Some _ =>
            (set_sessions (delete s (sessions b)) b,
             respond res 200 (JObj [("message", JStr "Session terminated")]))
        | None => (b, respond res 404 (error_body "Session not found"))
        end
  end.

(** [handleMCPEndpoint(req, res, protocolVersion)] *)
Definition handleMCPEndpoint (req : Request) (res : Res) (b : Bridge)
  : Bridge * list Effect :=
  let sessionId := mcp_session_id req in
  if String.eqb (method req) "POST" then handleMCPPost req res sessionId b
  else if String.eqb (method req) "GET" then handleMCPGet req res sessionId b
  else if String.eqb (method req) "DELETE" then handleMCPDelete res sessionId b
  else (b, respond res 405 (error_body "Method not allowed")).

(** [handleHTTPRequest(req, res)] *)
Definition handleHTTPRequest (req : Request) (res : Res) (b : Bridge)
  : Bridge * list Effect :=
  let path := route ["health"; "mcp"] (pathname req) in
  let protocolVersion := validateProtocolVersion (mcp_protocol_version req) in
  if nonempty (mcp_protocol_version req)
     && negb (bool_decide (is_Some protocolVersion)) then
    (b, respond res 400 (error_body "Invalid or unsupported MCP-Protocol-Version"))
  else if String.eqb path "/health" then (b, handleHealth res b)
  else if String.eqb path "/mcp" then handleMCPEndpoint req res b
  else (b, respond res 404 (error_body "Not Found")).

(** The CORS headers the request listener sets. *)
Definition cors (req : Request) (res : Res) : list Effect :=
  [SetHeader res "Access-Control-Allow-Origin"
     (if nonempty (origin req) then default "" (origin req) else "*");
   SetHeader res "Access-Control-Allow-Methods" "GET, POST, DELETE, OPTIONS";
   SetHeader res "Access-Control-Allow-Headers"
     "Content-Type, Accept, MCP-Protocol-Version, Mcp-Session-Id, Last-Event-ID"].

(** The request listener of [startHTTPServer]. *)
Definition onRequest (req : Request) (res : Res) (b : Bridge) : Bridge * list Effect :=
  if nonempty (origin req) && negb (isAllowedOrigin (default "" (origin req))) then
    (b, respond res 403 (error_body "Forbidden origin"))
  else if String.eqb (method req) "OPTIONS" then
    (b, (cors req res ++ [WriteHead res 200 []; End_ res None])%list)
  else
    let (b', effects) := handleHTTPRequest req res b in
    (b', (cors req res ++ effects)%list).

(** *** Awaiting code and the event loop *)

(** What the code awaiting a call does once the promise is settled. *)
Definition resume (k : Cont) (o : Outcome) (b : Bridge) : Bridge * list Effect :=
  match k, o with
  | AwaitStart, Fulfilled _ =>
      (* start: await this.startHTTPServer() *)
      (set_listening true b,
       [Listen;
        ConsoleLog "MCP Universal Runtime bridge started successfully (MCP HTTP Compliant)"])
  | AwaitStart, Rejected e =>
      (set_exited true b,
       [ConsoleError "Failed to start bridge:" (message_of e); ProcessExit 1])
  | AwaitPost message res, Fulfilled result =>
      (b, respond res 200 (jsonrpc_result (field "id" (Some message)) result))
  | AwaitPost message res, Rejected e =>
      (b, (ConsoleError "MCP POST error:" (message_of e)
           :: respond res 400 (jsonrpc_error (Some JNull) (-32700) "Parse error"))%list)
  | AwaitInitialize message res, Fulfilled result =>
      let sessionId := randomUUID (uuids b) in
      let b := set_uuids (S (uuids b)) b in
      let params := field "params" (Some message) in
      if nullish params then
        (b, respond res 500
              (jsonrpc_error (field "id" (Some message)) (-32603)
                 (message_of (cannot_read params "clientInfo"))))
      else
        (set_sessions (<[sessionId := {| clientInfo := field "clientInfo" params |}]>
                         (sessions b)) b,
         [WriteHead res 200 (json_headers ++ [("Mcp-Session-Id", sessionId)])%list;
          End_ res (Some (Json (jsonrpc_result (field "id" (Some message)) result)))])
  | AwaitInitialize message res, Rejected e =>
      (b, respond res 500
            (jsonrpc_error (field "id" (Some message)) (-32603) (message_of e)))
  end.

Definition runJobs (jobs : list (Cont * Outcome)) (b : Bridge) : Bridge * list Effect :=
  for_each (fun job => resume job.1 job.2) jobs b.

(** What the event loop delivers to the bridge.  A request that carries a
    body is one event, delivered when its body has been received: the
    checks the handlers make before they read the body look at the
    request's headers only and change nothing, so running them at that
    moment gives the same state and the same responses. *)
Inductive Event : Type :=
| EvRequest (req : Request) (res : Res)      (* an HTTP request, its body received *)
| EvStdout (data : string)                   (* a chunk of the child's stdout *)
| EvExit                                     (* the child exited *)
| EvStdinClosed                              (* the child's stdin stopped being writable *)
| EvTimeout (id : Z)                         (* the timer of request [id] fires *)
| EvKeepAlive (connectionId : string) (res : Res)   (* a keep-alive interval ticks *)
| EvClose (connectionId : string) (res : Res).      (* a streaming request closes *)

(** The handler an event runs; [None] when the event cannot occur in this
    state. *)
Definition handle (ev : Event) (b : Bridge) : option (Bridge * list Effect) :=
  if exited b then None
  else
    match ev with
    | EvRequest req res => if listening b then Some (onRequest req res b) else None
    | EvStdout data => Some (onStdout data b)
    | EvExit =>
        match mcpProcess b with
        | Some _ => Some (onExit b)
        | None => None
        end
    | EvStdinClosed =>
        match mcpProcess b with
        | Some _ => Some (set_mcpProcess (Some {| stdin_writable := false |}) b, [])
        | None => None
        end
    | EvTimeout id =>
        match timeouts b !! id with
        | Some _ => Some (onTimeout id (set_timeouts (delete id (timeouts b)) b))
        | None => None
        end
    | EvKeepAlive connectionId res =>
        if existsb (fun i => String.eqb (fst i) connectionId && Nat.eqb (snd i) res)
                   (intervals b) then
          match sseConnections b !! connectionId with
          | Some _ => Some (b, [Write res (Text (": keepalive" +:+ nl +:+ nl))])
          | None =>
              Some (set_intervals
                      (filter (fun i => negb (String.eqb (fst i) connectionId
                                              && Nat.eqb (snd i) res)) (intervals b)) b,
                    [])
          end
        else None
    | EvClose connectionId res =>
        Some (set_intervals
                (filter (fun i => negb (String.eqb (fst i) connectionId
                                        && Nat.eqb (snd i) res)) (intervals b))
                (set_sseConnections (delete connectionId (sseConnections b)) b),
              [])
    end.

(** One turn of the event loop: the handler, then its microtasks. *)
Definition turn (ev : Event) (b : Bridge) : option (Bridge * list Effect) :=
  match handle ev b with
  | None => None
  | Some (b1, e1) =>
      let (b2, e2) := runJobs (omap settled e1) b1 in
      Some (b2, (e1 ++ e2)%list)
  end.

Fixpoint run (evs : list Event) (b : Bridge) : option (Bridge * list Effect) :=
  match evs with
  | [] => Some (b, [])
  | ev :: rest =>
      match turn ev b with
      | None => None
      | Some (b1, e1) =>
          match run rest b1 with
          | None => None
          | Some (b2, e2) => Some (b2, (e1 ++ e2)%list)
          end
      end
  end.

(** [start()] up to its first [await]: [startMCPProcess] when the entry
    point exists and the child is spawned. *)
Definition start : Bridge * list Effect :=
  let b := set_mcpProcess (Some {| stdin_writable := true |}) constructor in
  let (b, effects) := initializeMCP AwaitStart b in
  (b, (ConsoleLog "Starting MCP process" :: effects)%list).

(** *** Vocabulary of the properties *)

(** The settlement a child response asks for: rejection with the message
    of its [error] when that is truthy, else fulfilment with its [result]. *)
Definition outcome_of (response : JValue) : Outcome :=
  let error := field "error" (Some response) in
  if truthy error then Rejected (Error_of (field "message" error))
  else Fulfilled (field "result" (Some response)).

(** Effects that register no request and settle no promise. *)
Definition quiet (effects : list Effect) : Prop :=
  registered effects = [] /\ omap settled effects = [].

(** How a handler moves the request counter: not at all, or by one
    request, registered under the old value with a 30 s timer.  It settles
    no promise. *)
Definition allocates (b b' : Bridge) (effects : list Effect) : Prop :=
  omap settled effects = []
  /\ mcpProcess b' = mcpProcess b
  /\ ((requestId b' = requestId b /\ pendingRequests b' = pendingRequests b
       /\ timeouts b' = timeouts b /\ registered effects = [])
      \/ (exists k, requestId b' = requestId b + 1
          /\ pendingRequests b' = <[requestId b := k]> (pendingRequests b)
          /\ timeouts b' = <[requestId b := 30000]> (timeouts b)
          /\ registered effects = [requestId b])).

(** What every handler keeps: the counter never decreases, the ids
    registered are the values the counter went through, and an entry of the
    pending map was there before or was registered meanwhile. *)
Definition counts (b b' : Bridge) (effects : list Effect) : Prop :=
  requestId b <= requestId b'
  /\ registered effects = seqZ (requestId b) (requestId b' - requestId b)
  /\ (forall n, is_Some (pendingRequests b' !! n) ->
                is_Some (pendingRequests b !! n) \/ requestId b <= n < requestId b')
  /\ (forall n, is_Some (timeouts b' !! n) ->
                is_Some (timeouts b !! n) \/ requestId b <= n < requestId b').

(** Handlers that only remove entries. *)
Definition shrinks (b b' : Bridge) (effects : list Effect) : Prop :=
  requestId b' = requestId b
  /\ pendingRequests b' ⊆ pendingRequests b
  /\ timeouts b' ⊆ timeouts b
  /\ registered effects = []
  /\ mcpProcess b' = mcpProcess b.

(** The request passes the origin and protocol-version checks and is
    routed to [/mcp] with method [m]. *)
Definition to_mcp (m : string) (req : Request) : bool :=
  negb (nonempty (origin req) && negb (isAllowedOrigin (default "" (origin req))))
  && negb (nonempty (mcp_protocol_version req)
           && negb (bool_decide (is_Some (validateProtocolVersion
                                            (mcp_protocol_version req)))))
  && String.eqb (route ["health"; "mcp"] (pathname req)) "/mcp"
  && String.eqb (method req) m.


End WithPlatform.

End Compliant.

(** ** bridge.js *)

Module Simple.

(** The code waiting on the promise of a call. *)
Inductive Cont : Type :=
| AwaitStart                                  (* startMCPProcess: await this.initializeMCP() *)
| AwaitMCP (request : JValue) (res : Res).    (* handleMCP: await this.proxyToMCP(..) *)

Abbreviation Effect := (Effect Cont).

(** A pending entry [{ resolve, reject }]: the code awaiting the promise,
    and whether the promise was already settled, in which case both
    functions do nothing. *)
Record Entry : Type := { awaiting : Cont; alreadyResolved : bool }.

Record Bridge : Type := {
  mcpProcess : option Process;
  requestId : Z;
  pendingRequests : gmap Z Entry;
  isInitialized : bool;
  mcpCapabilities : option JValue;
  (* [let buffer] of the stdout handler *)
  buffer : string;
  (* the event loop: armed timeouts (request id, delay in ms and message
     of the rejection), the responses with a ping interval, whether the
     HTTP server listens, whether process.exit was called *)
  timeouts : gmap Z (Z * string);
  intervals : list Res;
  listening : bool;
  exited : bool
}.

Definition set_mcpProcess (x : option Process) (b : Bridge) : Bridge :=
  {| mcpProcess := x; requestId := requestId b; pendingRequests := pendingRequests b;
     isInitialized := isInitialized b; mcpCapabilities := mcpCapabilities b;
     buffer := buffer b; timeouts := timeouts b; intervals := intervals b;
     listening := listening b; exited := exited b |}.

Definition set_requestId (x : Z) (b : Bridge) : Bridge :=
  {| mcpProcess := mcpProcess b; requestId := x; pendingRequests := pendingRequests b;
     isInitialized := isInitialized b; mcpCapabilities := mcpCapabilities b;
     buffer := buffer b; timeouts := timeouts b; intervals := intervals b;
     listening := listening b; exited := exited b |}.

Definition set_pendingRequests (x : gmap Z Entry) (b : Bridge) : Bridge :=
  {| mcpProcess := mcpProcess b; requestId := requestId b; pendingRequests := x;
     isInitialized := isInitialized b; mcpCapabilities := mcpCapabilities b;
     buffer := buffer b; timeouts := timeouts b; intervals := intervals b;
     listening := listening b; exited := exited b |}.

Definition set_isInitialized (x : bool) (b : Bridge) : Bridge :=
  {| mcpProcess := mcpProcess b; requestId := requestId b; pendingRequests := pendingRequests b;
     isInitialized := x; mcpCapabilities := mcpCapabilities b;
     buffer := buffer b; timeouts := timeouts b; intervals := intervals b;
     listening := listening b; exited := exited b |}.

Definition set_mcpCapabilities (x : option JValue) (b : Bridge) : Bridge :=
  {| mcpProcess := mcpProcess b; requestId := requestId b; pendingRequests := pendingRequests b;
     isInitialized := isInitialized b; mcpCapabilities := x;
     buffer := buffer b; timeouts := timeouts b; intervals := intervals b;
     listening := listening b; exited := exited b |}.

Definition set_buffer (x : string) (b : Bridge) : Bridge :=
  {| mcpProcess := mcpProcess b; requestId := requestId b; pendingRequests := pendingRequests b;
     isInitialized := isInitialized b; mcpCapabilities := mcpCapabilities b;
     buffer := x; timeouts := timeouts b; intervals := intervals b;
     listening := listening b; exited := exited b |}.

Definition set_timeouts (x : gmap Z (Z * string)) (b : Bridge) : Bridge :=
  {| mcpProcess := mcpProcess b; requestId := requestId b; pendingRequests := pendingRequests b;
     isInitialized := isInitialized b; mcpCapabilities := mcpCapabilities b;
     buffer := buffer b; timeouts := x; intervals := intervals b;
     listening := listening b; exited := exited b |}.

Definition set_intervals (x : list Res) (b : Bridge) : Bridge :=
  {| mcpProcess := mcpProcess b; requestId := requestId b; pendingRequests := pendingRequests b;
     isInitialized := isInitialized b; mcpCapabilities := mcpCapabilities b;
     buffer := buffer b; timeouts := timeouts b; intervals := x;
     listening := listening b; exited := exited b |}.

Definition set_listening (x : bool) (b : Bridge) : Bridge :=
  {| mcpProcess := mcpProcess b; requestId := requestId b; pendingRequests := pendingRequests b;
     isInitialized := isInitialized b; mcpCapabilities := mcpCapabilities b;
     buffer := buffer b; timeouts := timeouts b; intervals := intervals b;
     listening := x; exited := exited b |}.

Definition set_exited (x : bool) (b : Bridge) : Bridge :=
  {| mcpProcess := mcpProcess b; requestId := requestId b; pendingRequests := pendingRequests b;
     isInitialized := isInitialized b; mcpCapabilities := mcpCapabilities b;
     buffer := buffer b; timeouts := timeouts b; intervals := intervals b;
     listening := listening b; exited := x |}.

(** [new MCPBridge()] *)
Definition constructor : Bridge :=
  {| mcpProcess := None; requestId := 1; pendingRequests := ∅;
     isInitialized := false; mcpCapabilities := None; buffer := "";
     timeouts := ∅; intervals := []; listening := false; exited := false |}.

Section WithPlatform.
Context `{Platform}.

(** [sendToMCP(request)]: [inr] is the error thrown. *)
Definition sendToMCP (request : JValue) (b : Bridge) : list Effect + JSError :=
  match mcpProcess b with
  | Some p =>
      if stdin_writable p then inl [StdinWrite request]
      else inr (Error "MCP process not available")
  | None => inr (Error "MCP process not available")
  end.

(** The executor shared by [initializeMCP] and [proxyToMCP]: register the
    entry, send, arm the timer.  When [sendToMCP] throws, the promise is
    rejected at once, the entry stays in the map and no timer is armed. *)
Definition call (id : Z) (request : JValue) (delay : Z) (expired : string)
    (k : Cont) (b : Bridge) : Bridge * list Effect :=
  match sendToMCP request b with
  | inl sent =>
      (set_timeouts (<[id := (delay, expired)]> (timeouts b))
         (set_pendingRequests
            (<[id := {| awaiting := k; alreadyResolved := false |}]> (pendingRequests b)) b),
       PendingSet id k :: sent)
  | inr e =>
      (set_pendingRequests
         (<[id := {| awaiting := k; alreadyResolved := true |}]> (pendingRequests b)) b,
       [PendingSet id k; Reject id k e])
  end.

Definition initialize_params : JValue :=
  JObj [("protocolVersion", JStr "2024-11-05");
        ("capabilities", JObj [("roots", JObj [("listChanged", JBool true)]);
                               ("sampling", JObj [])]);
        ("clientInfo", JObj [("name", JStr "mcp-universal-runtime");
                             ("version", JStr "1.0.0")])].

(** [initializeMCP()], awaited by [k]. *)
Definition initializeMCP (k : Cont) (b : Bridge) : Bridge * list Effect :=
  let id := requestId b in
  let b := set_requestId (id + 1) b in
  let initRequest := jsonrpc_request id (Some (JStr "initialize")) (Some initialize_params) in
  call id initRequest 10000 "MCP initialization timeout" k b.

(** [resolve(value)] / [reject(e)] through a pending entry. *)
Definition settle (id : Z) (entry : Entry) (o : Outcome) : list Effect :=
  if alreadyResolved entry then []
  else
    match o with
    | Fulfilled v => [Resolve id (awaiting entry) v]
    | Rejected e => [Reject id (awaiting entry) e]
    end.

Definition pending_entry (id : option JValue) (b : Bridge) : option (Z * Entry) :=
  n ← numeric_key id; entry ← pendingRequests b !! n; Some (n, entry).

(** [handleMCPResponse(response)]. [None]: the TypeError of [response.id]
    on [null], thrown before anything is done. *)
Definition handleMCPResponse (response : JValue) (b : Bridge)
  : option (Bridge * list Effect) :=
  if nullish (Some response) then None
  else
    let id := field "id" (Some response) in
    match (if truthy id then pending_entry id b else None) with
    | None => Some (b, [])
    | Some (n, entry) =>
        let b := set_pendingRequests (delete n (pendingRequests b)) b in
        let error := field "error" (Some response) in
        if truthy error then
          let message := field "message" error in
          Some (b, settle n entry
                     (Rejected (if truthy message then Error_of message
                                else Error "MCP Error")))
        else
          let result := field "result" (Some response) in
          if truthy result && truthy (field "capabilities" result) then
            Some (set_isInitialized true (set_mcpCapabilities result b),
                  (ConsoleLog "MCP initialized:" :: settle n entry (Fulfilled result))%list)
          else Some (b, settle n entry (Fulfilled result))
    end.

(** [proxyToMCP(method, params = {})], awaited by [k]. *)
Definition proxyToMCP (method params : option JValue) (k : Cont) (b : Bridge)
  : Bridge * list Effect :=
  if negb (isInitialized b) then
    (* thrown before a request is made: no id, no entry *)
    (b, [Threw k (Error "MCP server not initialized")])
  else
    let params := match params with None => Some (JObj []) | Some _ => params end in
    let id := requestId b in
    let b := set_requestId (id + 1) b in
    let request := jsonrpc_request id method params in
    call id request 30000 "MCP request timeout" k b.

(** The callback of the timer armed for request [id], rejecting with the
    message [expired]. *)
Definition onTimeout (id : Z) (expired : string) (b : Bridge) : Bridge * list Effect :=
  match pendingRequests b !! id with
  | Some entry =>
      (set_pendingRequests (delete id (pendingRequests b)) b,
       settle id entry (Rejected (Error expired)))
  | None => (b, [])
  end.

(** The child's ['exit'] handler. *)
Definition onExit (b : Bridge) : Bridge * list Effect :=
  (set_isInitialized false (set_mcpProcess None b),
   [ConsoleLog "MCP Process exited"]).

(** The body of [for (const line of lines)] in the stdout handler. *)
Definition onLine (line : string) (b : Bridge) : Bridge * list Effect :=
  if String.eqb (trim line) "" then (b, [])
  else
    match JSON_parse line with
    | None => (b, [ConsoleError "Failed to parse MCP response:" line])
    | Some response =>
        match handleMCPResponse response b with
        | None => (b, [ConsoleError "Failed to parse MCP response:" line])
        | Some r => r
        end
    end.

Definition onLines (lines : list string) (b : Bridge) : Bridge * list Effect :=
  for_each onLine lines b.

(** The stdout ['data'] handler; [data] is [data.toString()]. *)
Definition onStdout (data : string) (b : Bridge) : Bridge * list Effect :=
  let buffer := buffer b +:+ data in
  let (h, t) := cut newline buffer in
  let (lines, buffer) := pop h t in
  onLines lines (set_buffer buffer b).

(** *** The HTTP endpoints *)

(** [handleHealth(req, res)]; the [timestamp] property is the wall clock
    and is left out. *)
Definition handleHealth (res : Res) (b : Bridge) : list Effect :=
  let serverInfo := field "serverInfo" (mcpCapabilities b) in
  respond res 200
    (object [("status", Some (JStr "healthy"));
             ("service", Some (JStr "mcp-universal-runtime"));
             ("version", Some (JStr "1.0.0"));
             ("mcp_initialized", Some (JBool (isInitialized b)));
             ("mcp_server", Some (if truthy serverInfo
                                  then default JNull serverInfo else JNull))]).

Definition internal_error (res : Res) (message : string) : list Effect :=
  respond res 500 (jsonrpc_error (Some JNull) (-32603) message).

(** [handleMCP(req, res)], run when the body has been received. *)
Definition handleMCP (req : Request) (res : Res) (b : Bridge) : Bridge * list Effect :=
  if negb (String.eqb (method req) "POST") then
    (b, respond res 405 (error_body "Method not allowed"))
  else
    match JSON_parse (body req) with
    | None => (b, internal_error res (syntax_error (body req)))
    | Some request =>
        if nullish (Some request) then
          (b, internal_error res (message_of (cannot_read (Some request) "method")))
        else
          proxyToMCP (field "method" (Some request)) (field "params" (Some request))
                     (AwaitMCP request res) b
    end.

(** [handleSSE(req, res)] *)
Definition handleSSE (res : Res) (b : Bridge) : Bridge * list Effect :=
  let head :=
    WriteHead res 200
      [("Content-Type", "text/event-stream"); ("Cache-Control", "no-cache");
       ("Connection", "keep-alive")] in
  let initial :=
    if isInitialized b && truthy (mcpCapabilities b) then
      [Write res (SseData (object [("type", Some (JStr "capabilities"));
                                   ("data", mcpCapabilities b)]))]
    else [] in
  (set_intervals (intervals b ++ [res])%list b, head :: initial).

(** [handleCapabilities(req, res)] *)
Definition handleCapabilities (res : Res) (b : Bridge) : list Effect :=
  if negb (isInitialized b) then
    respond res 503 (error_body "MCP server not initialized")
  else
    [WriteHead res 200 json_headers;
     End_ res (Some (Json (default JNull (mcpCapabilities b))))].

(** [handleHTTPRequest(req, res)] *)
Definition handleHTTPRequest (req : Request) (res : Res) (b : Bridge)
  : Bridge * list Effect :=
  let path := route ["health"; "mcp"; "sse"; "capabilities"] (pathname req) in
  if String.eqb path "/health" then (b, handleHealth res b)
  else if String.eqb path "/mcp" then handleMCP req res b
  else if String.eqb path "/sse" then handleSSE res b
  else if String.eqb path "/capabilities" then (b, handleCapabilities res b)
  else (b, respond res 404 (error_body "Not Found")).

(** The CORS headers the request listener sets. *)
Definition cors (res : Res) : list Effect :=
  [SetHeader res "Access-Control-Allow-Origin" "*";
   SetHeader res "Access-Control-Allow-Methods" "GET, POST, OPTIONS";
   SetHeader res "Access-Control-Allow-Headers" "Content-Type"].

(** The request listener of [startHTTPServer]. *)
Definition onRequest (req : Request) (res : Res) (b : Bridge) : Bridge * list Effect :=
  if String.eqb (method req) "OPTIONS" then
    (b, (cors res ++ [WriteHead res 200 []; End_ res None])%list)
  else
    let (b', effects) := handleHTTPRequest req res b in
    (b', (cors res ++ effects)%list).

(** *** Awaiting code and the event loop *)

Definition resume (k : Cont) (o : Outcome) (b : Bridge) : Bridge * list Effect :=
  match k, o with
  | AwaitStart, Fulfilled _ =>
      (set_listening true b,
       [Listen; ConsoleLog "MCP Universal Runtime bridge started successfully"])
  | AwaitStart, Rejected e =>
      (set_exited true b,
       [ConsoleError "Failed to start bridge:" (message_of e); ProcessExit 1])
  | AwaitMCP request res, Fulfilled result =>
      (b, respond res 200 (jsonrpc_result (field "id" (Some request)) result))
  | AwaitMCP request res, Rejected e =>
      (b, internal_error res (message_of e))
  end.

Definition runJobs (jobs : list (Cont * Outcome)) (b : Bridge) : Bridge * list Effect :=
  for_each (fun job => resume job.1 job.2) jobs b.

Inductive Event : Type :=
| EvRequest (req : Request) (res : Res)      (* an HTTP request, its body received *)
| EvStdout (data : string)                   (* a chunk of the child's stdout *)
| EvExit                                     (* the child exited *)
| EvStdinClosed                              (* the child's stdin stopped being writable *)
| EvTimeout (id : Z)                         (* the timer of request [id] fires *)
| EvPing (res : Res)                         (* a ping interval ticks *)
| EvClose (res : Res).                       (* a streaming request closes *)

(** The handler an event runs; [None] when the event cannot occur in this
    state. *)
Definition handle (ev : Event) (b : Bridge) : option (Bridge * list Effect) :=
  if exited b then None
  else
    match ev with
    | EvRequest req res => if listening b then Some (onRequest req res b) else None
    | EvStdout data => Some (onStdout data b)
    | EvExit =>
        match mcpProcess b with
        | Some _ => Some (onExit b)
        | None => None
        end
    | EvStdinClosed =>
        match mcpProcess b with
        | Some _ => Some (set_mcpProcess (Some {| stdin_writable := false |}) b, [])
        | None => None
        end
    | EvTimeout id =>
        match timeouts b !! id with
        | Some (_, expired) =>
            Some (onTimeout id expired (set_timeouts (delete id (timeouts b)) b))
        | None => None
        end
    | EvPing res =>
        if existsb (Nat.eqb res) (intervals b) then
          (* the frame is the text of data: {type: ping} as JSON *)
          Some (b, [Write res (SseData (JObj [("type", JStr "ping")]))])
        else None
    | EvClose res =>
        Some (set_intervals (filter (fun r => negb (Nat.eqb r res)) (intervals b)) b, [])
    end.

(** One turn of the event loop: the handler, then its microtasks. *)
Definition turn (ev : Event) (b : Bridge) : option (Bridge * list Effect) :=
  match handle ev b with
  | None => None
  | Some (b1, e1) =>
      let (b2, e2) := runJobs (omap settled e1) b1 in
      Some (b2, (e1 ++ e2)%list)
  end.

Fixpoint run (evs : list Event) (b : Bridge) : option (Bridge * list Effect) :=
  match evs with
  | [] => Some (b, [])
  | ev :: rest =>
      match turn ev b with
      | None => None
      | Some (b1, e1) =>
          match run rest b1 with
          | None => None
          | Some (b2, e2) => Some (b2, (e1 ++ e2)%list)
          end
      end
  end.

(** [start()] up to its first [await]: [startMCPProcess] when the entry
    point exists and the child is spawned. *)
Definition start : Bridge * list Effect :=
  let b := set_mcpProcess (Some {| stdin_writable := true |}) constructor in
  let (b, effects) := initializeMCP AwaitStart b in
  (b, (ConsoleLog "Starting MCP process" :: effects)%list).

(** *** Vocabulary of the properties *)

(** How a handler moves the request counter: not at all, or by one
    request, registered under the old value, with a timer unless the write
    failed. *)
Definition allocates (b b' : Bridge) (effects : list Effect) : Prop :=
  mcpProcess b' = mcpProcess b
  /\ ((requestId b' = requestId b /\ pendingRequests b' = pendingRequests b
       /\ timeouts b' = timeouts b /\ registered effects = [])
      \/ (exists entry, requestId b' = requestId b + 1
          /\ pendingRequests b' = <[requestId b := entry]> (pendingRequests b)
          /\ (timeouts b' = timeouts b
              \/ exists t, timeouts b' = <[requestId b := t]> (timeouts b))
          /\ registered effects = [requestId b])).

Definition counts (b b' : Bridge) (effects : list Effect) : Prop :=
  requestId b <= requestId b'
  /\ registered effects = seqZ (requestId b) (requestId b' - requestId b)
  /\ (forall n, is_Some (pendingRequests b' !! n) ->
                is_Some (pendingRequests b !! n) \/ requestId b <= n < requestId b')
  /\ (forall n, is_Some (timeouts b' !! n) ->
                is_Some (timeouts b !! n) \/ requestId b <= n < requestId b').

(** Handlers that only remove entries. *)
Definition shrinks (b b' : Bridge) (effects : list Effect) : Prop :=
  requestId b' = requestId b
  /\ pendingRequests b' ⊆ pendingRequests b
  /\ timeouts b' ⊆ timeouts b
  /\ registered effects = []
  /\ mcpProcess b' = mcpProcess b.

(** The settlement a child response asks for in this bridge: a rejection
    carries the message of [error], or [MCP Error] when that is falsy. *)
Definition outcome_of (response : JValue) : Outcome :=
  let error := field "error" (Some response) in
  if truthy error then
    Rejected (if truthy (field "message" error) then Error_of (field "message" error)
              else Error "MCP Error")
  else Fulfilled (field "result" (Some response)).

End WithPlatform.

End Simple.

(** ** health.js

    The script run on its own: [checkHealth()] and the exit code the
    script gives to its outcome. *)

Module Health.

(** What the promise of [checkHealth] is rejected with. *)
Inductive Reason : Type :=
| SyntaxError (message : string)           (* thrown by JSON.parse *)
| Thrown (e : JSError).

Inductive Settlement : Type :=
| Resolved (health : JValue)
| RejectedWith (reason : Reason).

(** What the check prints. *)
Inductive Print : Type :=
| Passed (health : JValue)                     (* console.log: Health check passed *)
| Failed (statusCode : Z) (health : JValue)    (* console.error: Health check failed *)
| ParseError (reason : Reason)                 (* console.error: Health check parse error *)
| ConnectionError (e : JSError).               (* console.error: Health check connection error *)

(** The request [http.get(healthEndpoint)] sends. *)
Definition request : Request :=
  {| method := "GET"; pathname := "/health"; origin := None; accept := None;
     mcp_protocol_version := None; mcp_session_id := None; body := "" |}.

(** The state of a check: the status code of the response once it has
    arrived, the body received so far, and how the promise was settled. *)
Record Check : Type := {
  response : option Z;
  data : string;
  settlement : option Settlement
}.

Definition initial : Check :=
  {| response := None; data := ""; settlement := None |}.

Inductive Event : Type :=
| EvResponse (statusCode : Z)      (* the callback of http.get *)
| EvData (chunk : string)          (* res.on('data'), the chunk as text *)
| EvEnd                            (* res.on('end') *)
| EvError (e : JSError)            (* req.on('error') *)
| EvTimeout.                       (* the callback of req.setTimeout(5000) *)

(** [process.exit] in the [then] and [catch] of the script. *)
Definition exit_code (c : Check) : option Z :=
  match settlement c with
  | Some (Resolved _) => Some 0
  | Some (RejectedWith _) => Some 1
  | None => None
  end.

Section WithPlatform.
Context `{Platform}.

(** The ['end'] handler of the response. *)
Definition onEnd (statusCode : Z) (data : string) : list Print * Settlement :=
  match JSON_parse data with
  | None =>
      let error := SyntaxError (syntax_error data) in
      ([ParseError error], RejectedWith error)
  | Some health =>
      let failed :=
        ([Failed statusCode health],
         RejectedWith
           (Thrown (Error ("Health check failed: " +:+ ToString (JNum statusCode))))) in
      if Z.eqb statusCode 200 then
        if nullish (Some health) then
          let error := Thrown (cannot_read (Some health) "status") in
          ([ParseError error], RejectedWith error)
        else
          match field "status" (Some health) with
          | Some (JStr s) =>
              if String.eqb s "healthy" then ([Passed health], Resolved health)
              else failed
          | _ => failed
          end
      else failed
  end.

(** The handler an event runs; [None] when the event cannot occur: the
    script exits as soon as the promise is settled. *)
Definition handle (ev : Event) (c : Check) : option (Check * list Print) :=
  match settlement c with
  | Some _ => None
  | None =>
      match ev, response c with
      | EvResponse statusCode, None =>
          Some ({| response := Some statusCode; data := ""; settlement := None |}, [])
      | EvResponse _, Some _ => None
      | EvData chunk, Some statusCode =>
          Some ({| response := Some statusCode; data := data c +:+ chunk;
                   settlement := None |}, [])
      | EvData _, None => None
      | EvEnd, Some statusCode =>
          let (prints, outcome) := onEnd statusCode (data c) in
          Some ({| response := Some statusCode; data := data c;
                   settlement := Some outcome |}, prints)
      | EvEnd, None => None
      | EvError e, _ =>
          Some ({| response := response c; data := data c;
                   settlement := Some (RejectedWith (Thrown e)) |},
                [ConnectionError e])
      | EvTimeout, _ =>
          Some ({| response := response c; data := data c;
                   settlement :=
                     Some (RejectedWith (Thrown (Error "Health check timeout"))) |},
                [])
      end
  end.

Fixpoint run (evs : list Event) (c : Check) : option (Check * list Print) :=
  match evs with
  | [] => Some (c, [])
  | ev :: rest =>
      match handle ev c with
      | None => None
      | Some (c1, p1) =>
          match run rest c1 with
          | None => None
          | Some (c2, p2) => Some (c2, (p1 ++ p2)%list)
          end
      end
  end.

End WithPlatform.

End Health.

(** ** Vocabulary of the further properties *)

Fixpoint mentions (c : ascii) (s : string) : bool :=
  match s with
  | EmptyString => false
  | String a r => Ascii.eqb a c || mentions c r
  end.

Fixpoint blank (s : string) : bool :=
  match s with
  | EmptyString => true
  | String c r => is_ws c && blank r
  end.

Definition segment (s : string) : bool :=
  negb (String.eqb s "") && negb (mentions "/" s).

Definition carriage_return : ascii := ascii_of_nat 13.

(** No line terminator: what [.*] of a regular expression runs over. *)
Definition one_line (s : string) : bool :=
  negb (mentions newline s) && negb (mentions carriage_return s).

(** The text [(:\d+)?] matches: nothing, or a colon and digits. *)
Definition port (s : string) : Prop :=
  s = "" \/ exists d, d <> "" /\ digits d = true /\ s = ":" +:+ d.

(** An entry of an Accept header: a media type, parameters after it, and
    white space around them. *)
Record AcceptEntry : Type := {
  before : string;
  media_type : string;
  parameters : string;
  after : string
}.

Definition listed (e : AcceptEntry) : string :=
  before e +:+ media_type e +:+ parameters e +:+ after e.

(** The media type has no white space at either end, no comma and no
    semicolon; the parameters are empty or start with a semicolon, and
    have no comma. *)
Definition well_formed (e : AcceptEntry) : bool :=
  blank (before e) && blank (after e)
  && String.eqb (trim (media_type e)) (media_type e)
  && negb (mentions "," (media_type e)) && negb (mentions ";" (media_type e))
  && match parameters e with
     | EmptyString => true
     | String c _ => Ascii.eqb c ";" && negb (mentions "," (parameters e))
     end.

(** The request gets past the origin check of the compliant listener: it
    has no Origin header, or an empty one, or an allowed one. *)
Definition origin_admitted (req : Request) : bool :=
  match origin req with
  | None => true
  | Some o => String.eqb o "" || Compliant.isAllowedOrigin o
  end.

(** The protocol-version header is absent, empty or a supported version. *)
Definition version_admitted (req : Request) : bool :=
  match mcp_protocol_version req with
  | None => true
  | Some v => existsb (String.eqb v) [""; "2025-06-18"; "2025-03-26"]
  end.

Definition preflight (req : Request) : bool := String.eqb (method req) "OPTIONS".

(** The response an effect writes to. *)
Definition response_of {K : Type} (e : Effect K) : option Res :=
  match e with
  | SetHeader res _ _ | WriteHead res _ _ | Write res _ | End_ res _ => Some res
  | _ => None
  end.

(** The effect leaves every response but [res] alone. *)
Definition concerns {K : Type} (res : Res) (e : Effect K) : bool :=
  match response_of e with
  | Some r => Nat.eqb r res
  | None => true
  end.

(** A result that [handleMCPResponse] takes for the answer to a
    handshake: it is truthy and so is its [capabilities] member. *)
Definition capable (result : option JValue) : bool :=
  truthy result && truthy (field "capabilities" result).

(** How a handler of the compliant bridge may change the stored
    capabilities and the readiness: not at all ([steady]), or by storing a
    capable result and becoming ready ([learns]).  [sound] is what every
    reachable state satisfies: nothing is stored and the bridge is not
    ready, or what is stored is capable. *)
Module CompliantReady.
Import Compliant.

Definition steady (b b' : Bridge) : Prop :=
  mcpCapabilities b' = mcpCapabilities b /\ isInitialized b' = isInitialized b.

Definition learns (b b' : Bridge) : Prop :=
  steady b b' \/ (capable (mcpCapabilities b') = true /\ isInitialized b' = true).

Definition sound (b : Bridge) : Prop :=
  (mcpCapabilities b = None /\ isInitialized b = false)
  \/ capable (mcpCapabilities b) = true.

End CompliantReady.

Module SimpleReady.
Import Simple.

Definition steady (b b' : Bridge) : Prop :=
  mcpCapabilities b' = mcpCapabilities b /\ isInitialized b' = isInitialized b.

Definition learns (b b' : Bridge) : Prop :=
  steady b b' \/ (capable (mcpCapabilities b') = true /\ isInitialized b' = true).

Definition sound (b : Bridge) : Prop :=
  (mcpCapabilities b = None /\ isInitialized b = false)
  \/ capable (mcpCapabilities b) = true.

End SimpleReady.

(** The session ids handed out among some effects: the values of the
    [Mcp-Session-Id] headers of the status lines written. *)
Definition issues {K : Type} (e : Effect K) : list string :=
  match e with
  | WriteHead _ _ headers =>
      omap (fun h : string * string =>
              if String.eqb h.1 "Mcp-Session-Id" then Some h.2 else None) headers
  | _ => []
  end.

Definition issued {K : Type} (effects : list (Effect K)) : list string :=
  flat_map issues effects.

(** The event is a DELETE request that names the session [sid]. *)
Definition terminates (sid : string) (ev : Compliant.Event) : bool :=
  match ev with
  | Compliant.EvRequest req _ =>
      String.eqb (method req) "DELETE"
      && match mcp_session_id req with
         | Some s => String.eqb s sid
         | None => false
         end
  | _ => false
  end.

(** The phases of the start of the compliant bridge, read off the state
    and the effects so far.  [handshake] picks the settlements of the call
    that [start] awaits.  While [waiting], the handshake is the only
    pending call, no timer is armed and nothing was answered; [serving],
    the server listens and the handshake was fulfilled; [stopped], the
    process has exited with code 1 on a rejected handshake. *)
Module CompliantStartup.
Import Compliant.

Definition start_job (job : Cont * Outcome) : option Outcome :=
  match job with
  | (AwaitStart, o) => Some o
  | _ => None
  end.

Definition handshake (effects : list Effect) : list Outcome :=
  omap start_job (omap settled effects).

Definition waiting (b : Bridge) (e : list Effect) : Prop :=
  listening b = false /\ exited b = false
  /\ pendingRequests b = {[1 := AwaitStart]}
  /\ timeouts b = ∅ /\ intervals b = []
  /\ handshake e = [] /\ statuses e = [].

Definition serving (b : Bridge) (e : list Effect) : Prop :=
  listening b = true /\ exited b = false
  /\ (forall n, pendingRequests b !! n <> Some AwaitStart)
  /\ (exists value, handshake e = [Fulfilled value])
  /\ Listen ∈ e.

Definition stopped (b : Bridge) (e : list Effect) : Prop :=
  listening b = false /\ exited b = true
  /\ (exists reason, handshake e = [Rejected reason])
  /\ statuses e = [] /\ ProcessExit 1 ∈ e.

(** What stays as it is while lines of the child are treated. *)
Definition startup_frame (b b' : Bridge) : Prop :=
  listening b' = listening b /\ exited b' = exited b
  /\ timeouts b' = timeouts b /\ intervals b' = intervals b.

End CompliantStartup.

(** The phases of the start of the simple bridge.  While [waiting], the
    handshake is the only pending call and its timer of 10 s is the only
    one armed; [serving] and [stopped] are as in the compliant bridge. *)
Module SimpleStartup.
Import Simple.

Definition start_job (job : Cont * Outcome) : option Outcome :=
  match job with
  | (AwaitStart, o) => Some o
  | _ => None
  end.

Definition handshake (effects : list Effect) : list Outcome :=
  omap start_job (omap settled effects).

Definition waiting (b : Bridge) (e : list Effect) : Prop :=
  listening b = false /\ exited b = false
  /\ pendingRequests b = {[1 := {| awaiting := AwaitStart; alreadyResolved := false |}]}
  /\ timeouts b = {[1 := (10000, "MCP initialization timeout")]}
  /\ intervals b = []
  /\ handshake e = [] /\ statuses e = [].

Definition serving (b : Bridge) (e : list Effect) : Prop :=
  listening b = true /\ exited b = false
  /\ (forall n entry, pendingRequests b !! n = Some entry -> awaiting entry <> AwaitStart)
  /\ (exists value, handshake e = [Fulfilled value])
  /\ Listen ∈ e.

Definition stopped (b : Bridge) (e : list Effect) : Prop :=
  listening b = false /\ exited b = true
  /\ (exists reason, handshake e = [Rejected reason])
  /\ statuses e = [] /\ ProcessExit 1 ∈ e.

(** What stays as it is while lines of the child are treated. *)
Definition startup_frame (b b' : Bridge) : Prop :=
  listening b' = listening b /\ exited b' = exited b
  /\ timeouts b' = timeouts b /\ intervals b' = intervals b.

(** What a handler does to the calls while the server serves: the flags
    stay, it settles no call of [start], and each entry pending afterwards
    was pending before or is no call of [start]. *)
Definition foreign (b b' : Bridge) (e : list Effect) : Prop :=
  listening b' = listening b /\ exited b' = exited b
  /\ (forall k o, (k, o) ∈ omap settled e -> k <> AwaitStart)
  /\ (forall n entry, pendingRequests b' !! n = Some entry ->
                      pendingRequests b !! n = Some entry \/ awaiting entry <> AwaitStart).

End SimpleStartup.

(** ** A platform for the examples

    A reader for JSON texts without string escapes, fractions or
    exponents (it rejects every other text), string conversion for [null],
    booleans and integers, and a counter in place of the random source.
    The theorems hold for every platform; the examples are run on this
    one. *)

Module Sample.

Definition quote : ascii := ascii_of_nat 34.
Definition q : string := String quote EmptyString.

Definition json_ws (c : ascii) : bool :=
  match N_of_ascii c with
  | 9%N | 10%N | 13%N | 32%N => true
  | _ => false
  end.

Fixpoint skip (s : string) : string :=
  match s with
  | EmptyString => EmptyString
  | String c r => if json_ws c then skip r else s
  end.

(** After the opening quote: the characters up to the closing quote. *)
Fixpoint chars (s : string) : option (string * string) :=
  match s with
  | EmptyString => None
  | String c r =>
      if Ascii.eqb c quote then Some (EmptyString, r)
      else if Ascii.eqb c (ascii_of_nat 92) || (N_of_ascii c <? 32)%N then None
      else match chars r with
           | Some (x, rest) => Some (String c x, rest)
           | None => None
           end
  end.

Fixpoint digits_value (acc : Z) (s : string) : Z * string :=
  match s with
  | String c r =>
      if is_digit c
      then digits_value (10 * acc + (Z.of_N (N_of_ascii c) - 48)) r
      else (acc, s)
  | EmptyString => (acc, s)
  end.

(** An integer without sign: no leading zero, no fraction, no exponent. *)
Definition natural (s : string) : option (Z * string) :=
  match s with
  | String c r =>
      if is_digit c then
        let (n, rest) := digits_value 0 s in
        let leading_zero :=
          Ascii.eqb c "0" && match r with
                             | String d _ => is_digit d
                             | EmptyString => false
                             end in
        let more :=
          match rest with
          | String d _ => Ascii.eqb d "." || Ascii.eqb d "e" || Ascii.eqb d "E"
          | EmptyString => false
          end in
        if leading_zero || more then None else Some (n, rest)
      else None
  | EmptyString => None
  end.

Definition literal (text : string) (v : JValue) (s : string) : option (JValue * string) :=
  match strip_prefix text s with
  | Some rest => Some (v, rest)
  | None => None
  end.

Fixpoint value (fuel : nat) (s : string) : option (JValue * string) :=
  match fuel with
  | O => None
  | S fuel =>
      match skip s with
      | EmptyString => None
      | String c r =>
          if Ascii.eqb c "{" then
            match skip r with
            | String "}" r' => Some (JObj [], r')
            | _ => match members fuel r with
                   | Some (fs, rest) => Some (JObj fs, rest)
                   | None => None
                   end
            end
          else if Ascii.eqb c "[" then
            match skip r with
            | String "]" r' => Some (JArr [], r')
            | _ => match elements fuel r with
                   | Some (vs, rest) => Some (JArr vs, rest)
                   | None => None
                   end
            end
          else if Ascii.eqb c quote then
            match chars r with
            | Some (x, rest) => Some (JStr x, rest)
            | None => None
            end
          else if Ascii.eqb c "-" then
            match natural r with
            | Some (n, rest) => Some (JNum (- n), rest)
            | None => None
            end
          else if is_digit c then
            match natural (String c r) with
            | Some (n, rest) => Some (JNum n, rest)
            | None => None
            end
          else if Ascii.eqb c "t" then literal "true" (JBool true) (String c r)
          else if Ascii.eqb c "f" then literal "false" (JBool false) (String c r)
          else if Ascii.eqb c "n" then literal "null" JNull (String c r)
          else None
      end
  end
with elements (fuel : nat) (s : string) : option (list JValue * string) :=
  match fuel with
  | O => None
  | S fuel =>
      match value fuel s with
      | Some (v, r) =>
          match skip r with
          | String "," r' =>
              match elements fuel r' with
              | Some (vs, rest) => Some (v :: vs, rest)
              | None => None
              end
          | String "]" r' => Some ([v], r')
          | _ => None
          end
      | None => None
      end
  end
with members (fuel : nat) (s : string) : option (list (string * JValue) * string) :=
  match fuel with
  | O => None
  | S fuel =>
      match skip s with
      | String c r =>
          if Ascii.eqb c quote then
            match chars r with
            | Some (k, r1) =>
                match skip r1 with
                | String ":" r2 =>
                    match value fuel r2 with
                    | Some (v, r3) =>
                        match skip r3 with
                        | String "," r4 =>
                            match members fuel r4 with
                            | Some (fs, rest) => Some ((k, v) :: fs, rest)
                            | None => None
                            end
                        | String "}" r4 => Some ([(k, v)], r4)
                        | _ => None
                        end
                    | None => None
                    end
                | _ => None
                end
            | None => None
            end
          else None
      | EmptyString => None
      end
  end.

Definition parse (text : string) : option JValue :=
  match value (S (String.length text)) text with
  | Some (v, rest) => if String.eqb (skip rest) "" then Some v else None
  | None => None
  end.

Fixpoint decimal (fuel : nat) (n : Z) (acc : string) : string :=
  match fuel with
  | O => acc
  | S fuel =>
      let acc := String (ascii_of_N (Z.to_N (48 + n mod 10))) acc in
      if n / 10 =? 0 then acc else decimal fuel (n / 10) acc
  end%Z.

Definition show (n : Z) : string :=
  if (n <? 0)%Z then "-" +:+ decimal (Z.to_nat (- n)) (- n) ""
  else decimal (S (Z.to_nat n)) n "".

#[export] Instance platform : Platform := {|
  JSON_parse := parse;
  syntax_error := fun _ => "Unexpected token";
  ToString := fun v =>
    match v with
    | JNull => "null"
    | JBool true => "true"
    | JBool false => "false"
    | JNum n => show n
    | JStr s => s
    | JArr _ => ""
    | JObj _ => "[object Object]"
    end;
  randomUUID := fun n => "00000000-0000-4000-8000-" +:+ show (Z.of_nat n)
|}.

(** A key [k] with the text [v] after it, as JSON: the quoted key, a
    colon, [v]. *)
Definition kv (k v : string) : string := q +:+ k +:+ q +:+ ":" +:+ v.
Definition str (s : string) : string := q +:+ s +:+ q.

(** The texts and requests of the examples. *)

Definition obj (fields : list string) : string :=
  "{" +:+ foldr (fun f acc => match acc with
                              | EmptyString => f
                              | _ => f +:+ "," +:+ acc
                              end) "" fields +:+ "}".

(** What a child answers to [initialize]: a result with capabilities. *)
Definition init_result : JValue :=
  JObj [("capabilities", JObj []); ("serverInfo", JObj [("name", JStr "t")])].

Definition initialized (id : Z) : string :=
  obj [kv "jsonrpc" (str "2.0"); kv "id" (show id);
       kv "result" (obj [kv "capabilities" (obj []);
                         kv "serverInfo" (obj [kv "name" (str "t")])])].

(** A child response with a result, and one with an error. *)
Definition answer (id : Z) (tools : string) : string :=
  obj [kv "jsonrpc" (str "2.0"); kv "id" (show id);
       kv "result" (obj [kv "tools" tools])].


(** A JSON-RPC message of a client. *)
Definition message (id method : string) : string :=
  obj [kv "jsonrpc" (str "2.0"); kv "id" id; kv "method" (str method);
       kv "params" (obj [])].

Definition request (method path : string) (accept session : option string)
    (body : string) : Request :=
  {| method := method; pathname := path; origin := None; accept := accept;
     mcp_protocol_version := None; mcp_session_id := session; body := body |}.

Definition post (session : option string) (body : string) : Request :=
  request "POST" "/mcp" (Some "application/json, text/event-stream") session body.

End Sample.

(** ** Scenarios of the examples *)

Module Scenario.
Import Sample.

Definition state_after {B E : Type} (fallback : B) (r : option (B * list E)) : B :=
  match r with
  | Some (b, _) => b
  | None => fallback
  end.

Definition list5 : JValue := Eval vm_compute in default JNull (parse (message "5" "tools/list")).
Definition list6 : JValue := Eval vm_compute in default JNull (parse (message "6" "tools/list")).

(** The compliant bridge, started and initialized, with two requests in
    flight: ids 2 and 3, awaited by the exchanges 1 and 2. *)
Definition two_in_flight : list Compliant.Event :=
  [Compliant.EvStdout (initialized 1 +:+ nl);
   Compliant.EvRequest (post None (message "5" "tools/list")) 1%nat;
   Compliant.EvRequest (post None (message "6" "tools/list")) 2%nat].

Definition compliant_busy : Compliant.Bridge :=
  state_after Compliant.constructor (Compliant.run two_in_flight Compliant.start.1).




(** The bridges after the handshake and the exit of the child. *)
Definition exit_after_handshake : Compliant.Bridge :=
  state_after Compliant.constructor
    (Compliant.run [Compliant.EvStdout (initialized 1 +:+ nl); Compliant.EvExit]
       Compliant.start.1).

Definition simple_exit_after_handshake : Simple.Bridge :=
  state_after Simple.constructor
    (Simple.run [Simple.EvStdout (initialized 1 +:+ nl); Simple.EvExit] Simple.start.1).

(** The simple bridge whose child answered the handshake and exited, the
    exit being reported before the answer was read: the bridge is
    initialized, it listens, and it has no child. *)
Definition simple_unwritable : Simple.Bridge :=
  state_after Simple.constructor
    (Simple.run [Simple.EvExit; Simple.EvStdout (initialized 1 +:+ nl)]
       Simple.start.1).

Definition simple_post : Request :=
  request "POST" "/mcp" None None (message "5" "tools/list").

Definition simple_failed : Simple.Bridge :=
  state_after Simple.constructor
    (Simple.turn (Simple.EvRequest simple_post 1%nat) simple_unwritable).

Definition list_tools : Request := post None (message "5" "tools/list").

Definition get_json_only : Request := request "GET" "/mcp" (Some "application/json") None "".

(** The simple bridge, started and initialized. *)
Definition simple_ready : Simple.Bridge :=
  state_after Simple.constructor
    (Simple.run [Simple.EvStdout (initialized 1 +:+ nl)] Simple.start.1).

Definition get_sse : Request := request "GET" "/sse" None None "".

(** The compliant bridge after a client's handshake: [initialize] was
    posted by exchange 1 and answered by the child under id 2, which
    created a session. *)
Definition with_session : Compliant.Bridge :=
  state_after Compliant.constructor
    (Compliant.run
       [Compliant.EvStdout (initialized 1 +:+ nl);
        Compliant.EvRequest (post None (message "1" "initialize")) 1%nat;
        Compliant.EvStdout (initialized 2 +:+ nl)]
       Compliant.start.1).

Definition session0 : string := randomUUID 0.

Definition delete_mcp (session : option string) : Request :=
  request "DELETE" "/mcp" None session "".

Definition notify : Request := post None (message "0" "notifications/test").
Definition notification : JValue := Eval vm_compute in default JNull (parse (body notify)).

Definition initialize0 : Request := post None (message "0" "initialize").
Definition initialize0_message : JValue :=
  Eval vm_compute in default JNull (parse (body initialize0)).

Definition initialize_bogus : Request := post (Some "bogus") (message "1" "initialize").
Definition initialize_message : JValue :=
  Eval vm_compute in default JNull (parse (body initialize_bogus)).

(** An [initialize] request without params, under a session id that is
    not registered. *)
Definition initialize_bare : Request :=
  post (Some "bogus")
       (obj [kv "jsonrpc" (str "2.0"); kv "id" "1"; kv "method" (str "initialize")]).
Definition initialize_bare_message : JValue :=
  Eval vm_compute in default JNull (parse (body initialize_bare)).

End Scenario.

(** ** Further scenarios *)

Module Cases.
Import Sample Scenario.

(** A request as a browser page of [site] sends it. *)
Definition from_origin (site : string) (req : Request) : Request :=
  {| method := method req; pathname := pathname req; origin := Some site;
     accept := accept req; mcp_protocol_version := mcp_protocol_version req;
     mcp_session_id := mcp_session_id req; body := body req |}.

Definition foreign : Request := from_origin "https://evil.example" list_tools.

(** An Accept header with a parameter and a space. *)
Definition accept_entries : list AcceptEntry :=
  [{| before := ""; media_type := "application/json"; parameters := ";q=0.9"; after := "" |};
   {| before := " "; media_type := "text/event-stream"; parameters := ""; after := " " |}].

Definition nowhere : Request := request "GET" "/nowhere" None None "".
Definition any_health : Request := request "DELETE" "/proxy/health" None None "".
Definition json_only : Request :=
  request "POST" "/mcp" (Some "application/json") None (message "5" "tools/list").
Definition stale : Request := post (Some "bogus") (message "7" "tools/list").
Definition stale_message : JValue := Eval vm_compute in default JNull (parse (body stale)).
Definition get_capabilities : Request := request "GET" "/capabilities" None None "".
Definition get_stream : Request := request "GET" "/mcp" (Some "text/event-stream") None "".

(** The child's answers to the requests 4 and 2. *)
Definition answer4 : JValue := Eval vm_compute in default JNull (parse (answer 4 "[]")).
Definition answer2 : JValue := Eval vm_compute in default JNull (parse (answer 2 "[]")).

(** The compliant bridge with the [initialize] of exchange 3 in flight. *)
Definition initializing : Compliant.Bridge :=
  state_after Compliant.constructor
    (Compliant.turn (Compliant.EvRequest initialize_bogus 3%nat) compliant_busy).

(** What a bridge answers on [/health], as text, in two chunks. *)
Definition health_text : string :=
  obj [kv "status" (str "healthy"); kv "service" (str "mcp-universal-runtime");
       kv "version" (str "1.0.0"); kv "timestamp" (str "2025-01-01T00:00:00.000Z");
       kv "mcp_initialized" "false"; kv "mcp_server" "null"].
Definition health_chunks : list string :=
  [String.substring 0 12 health_text;
   String.substring 12 (String.length health_text - 12) health_text].
Definition health_value : JValue := Eval vm_compute in default JNull (parse health_text).

End Cases.

(** * Properties *)

(** ** Line framing *)

Lemma append_nil s : "" +:+ s = s.
Proof. reflexivity. Qed.

Lemma append_cons c r s : String c r +:+ s = String c (r +:+ s).
Proof. reflexivity. Qed.

Lemma append_empty s : s +:+ "" = s.
Proof. induction s as [|c r IH]; [reflexivity|]. rewrite append_cons, IH. reflexivity. Qed.

Lemma append_assoc a b c : a +:+ b +:+ c = (a +:+ b) +:+ c.
Proof. induction a as [|x r IH]; [reflexivity|]. rewrite !append_cons, IH. reflexivity. Qed.

Lemma framed_empty : framed "" = ([], "").
Proof. reflexivity. Qed.

Lemma framed_cons c r :
  framed (String c r) =
  let (l, f) := framed r in
  if Ascii.eqb c newline then ("" :: l, f)
  else match l with
       | [] => ([], String c f)
       | x :: l' => (String c x :: l', f)
       end.
Proof.
  unfold framed. cbn [cut].
  destruct (cut newline r) as [h t].
  destruct (Ascii.eqb c newline).
  - cbn [pop]. destruct t as [|h' t']; cbn [pop]; [reflexivity|].
    destruct (pop h' t'); reflexivity.
  - destruct t as [|h' t']; cbn [pop]; [reflexivity|].
    destruct (pop h' t'); reflexivity.
Qed.



Lemma has_newline_app a b : has_newline (a +:+ b) = has_newline a || has_newline b.
Proof.
  induction a as [|c r IH]; [reflexivity|].
  rewrite append_cons. cbn [has_newline]. rewrite IH. apply orb_assoc.
Qed.

(** The lines and the fragment contain no newline, and together they are
    the text. *)
Lemma framed_line l s :
  has_newline l = false ->
  framed (l +:+ nl +:+ s) = let (ls, f) := framed s in (l :: ls, f).
Proof.
  induction l as [|c r IH]; intros Hn.
  - rewrite append_nil. unfold nl. rewrite append_cons, append_nil, framed_cons.
    rewrite Ascii.eqb_refl. reflexivity.
  - cbn [has_newline] in Hn. apply orb_false_iff in Hn as [Hc Hr].
    rewrite append_cons, framed_cons, (IH Hr), Hc.
    destruct (framed s); reflexivity.
Qed.





(** The reader over any state with a buffer and any treatment of a line
    that leaves the buffer alone. *)
Section Reader.

Context {S E : Type}.
Variable buffer : S -> string.
Variable set_buffer : string -> S -> S.
Variable onLine : string -> S -> S * list E.

Hypothesis set_buffer_same : forall b, set_buffer (buffer b) b = b.
Hypothesis set_buffer_twice : forall x y b, set_buffer x (set_buffer y b) = set_buffer x b.
Hypothesis buffer_set : forall x b, buffer (set_buffer x b) = x.
Hypothesis onLine_set_buffer : forall line x b,
  onLine line (set_buffer x b) = (set_buffer x (onLine line b).1, (onLine line b).2).



End Reader.

(** ** The compliant bridge *)

Module CompliantFacts.
Import Compliant.

Section WithPlatform.
Context `{Platform}.





Ltac break_match :=
  match goal with
  | |- context [match ?x with _ => _ end] =>
      lazymatch type of x with
      | Bridge => fail
      | _ => destruct x eqn:?
      end
  end.

Lemma quiet_app e1 e2 : quiet e1 -> quiet e2 -> quiet (e1 ++ e2).
Proof.
  intros [Hr1 Hs1] [Hr2 Hs2]. unfold quiet, registered in *.
  rewrite !omap_app, Hr1, Hr2, Hs1, Hs2. split; reflexivity.
Qed.

Lemma sendToMCP_quiet message b : quiet (sendToMCP message b).
Proof. unfold sendToMCP. repeat break_match; split; reflexivity. Qed.

Lemma registered_app (e1 e2 : list Effect) :
  registered (e1 ++ e2) = registered e1 ++ registered e2.
Proof. apply omap_app. Qed.

Lemma registered_cons (x : Effect) l : registered (x :: l) = registered [x] ++ registered l.
Proof. apply (omap_app _ [x] l). Qed.

Lemma settled_cons (x : Effect) l : omap settled (x :: l) = omap settled [x] ++ omap settled l.
Proof. apply (omap_app _ [x] l). Qed.

Lemma proxyToMCP_allocates method params k b :
  allocates b (proxyToMCP method params k b).1 (proxyToMCP method params k b).2.
Proof.
  unfold proxyToMCP. cbn [fst snd].
  match goal with
  | |- context [sendToMCP ?m ?b'] => destruct (sendToMCP_quiet m b') as [Hr Hs]
  end.
  split; [|split].
  - rewrite settled_cons, Hs. reflexivity.
  - reflexivity.
  - right. exists k. rewrite registered_cons, Hr. auto.
Qed.

Lemma allocates_same b (e : list Effect) : quiet e -> allocates b b e.
Proof. intros [Hr Hs]. split; [exact Hs|]. split; [reflexivity|]. left. auto. Qed.

Lemma allocates_quiet b b' (e e' : list Effect) :
  quiet e' -> allocates b b' e -> allocates b b' (e' ++ e).
Proof.
  intros [Hr Hs] (Hs' & Hm & Ha). unfold allocates. unfold registered in *.
  rewrite !omap_app, Hr, Hs, Hs'. auto.
Qed.

Ltac quiet := first [ split; reflexivity | apply sendToMCP_quiet ].

Lemma handleMCPPost_allocates req res sessionId b :
  allocates b (handleMCPPost req res sessionId b).1 (handleMCPPost req res sessionId b).2.
Proof.
  unfold handleMCPPost, handleInitializeRequest.
  destruct (negb (validateAcceptHeader _ _)); [apply allocates_same; quiet|].
  destruct (JSON_parse (body req)) as [message|]; [|apply allocates_same; quiet].
  destruct (nullish (Some message)); [apply allocates_same; quiet|].
  destruct (match field "method" (Some message) with
            | Some (JStr m) => String.eqb m "initialize"
            | _ => false
            end); [apply proxyToMCP_allocates|].
  destruct (unknown_session sessionId b); [apply allocates_same; quiet|].
  destruct (truthy (field "id" (Some message))); [apply proxyToMCP_allocates|].
  apply allocates_same. cbn [snd]. apply quiet_app; [|quiet].
  destruct (truthy (field "method" (Some message))); quiet.
Qed.

Lemma handleMCPGet_allocates req res sessionId b :
  allocates b (handleMCPGet req res sessionId b).1 (handleMCPGet req res sessionId b).2.
Proof.
  unfold handleMCPGet.
  destruct (negb _); [apply allocates_same; quiet|].
  destruct (unknown_session sessionId b); [apply allocates_same; quiet|].
  cbn [fst snd requestId pendingRequests timeouts set_intervals set_sseConnections
           set_uuids isInitialized mcpCapabilities].
  destruct (isInitialized b && truthy (mcpCapabilities b));
    (split; [reflexivity|]; split; [reflexivity|]; left; repeat split; reflexivity).
Qed.

Lemma handleMCPDelete_allocates res sessionId b :
  allocates b (handleMCPDelete res sessionId b).1 (handleMCPDelete res sessionId b).2.
Proof.
  unfold handleMCPDelete.
  destruct sessionId as [s|]; [|apply allocates_same; quiet].
  destruct (String.eqb s ""); [apply allocates_same; quiet|].
  destruct (sessions b !! s); [|apply allocates_same; quiet].
  split; [reflexivity|]. split; [reflexivity|]. left. cbn. auto.
Qed.

Lemma handleHTTPRequest_allocates req res b :
  allocates b (handleHTTPRequest req res b).1 (handleHTTPRequest req res b).2.
Proof.
  unfold handleHTTPRequest, handleMCPEndpoint.
  destruct (nonempty (mcp_protocol_version req) && _); [apply allocates_same; quiet|].
  destruct (String.eqb (route _ _) "/health"); [apply allocates_same; quiet|].
  destruct (String.eqb (route _ _) "/mcp"); [|apply allocates_same; quiet].
  destruct (String.eqb (method req) "POST"); [apply handleMCPPost_allocates|].
  destruct (String.eqb (method req) "GET"); [apply handleMCPGet_allocates|].
  destruct (String.eqb (method req) "DELETE"); [apply handleMCPDelete_allocates|].
  apply allocates_same; quiet.
Qed.

Lemma onRequest_allocates req res b :
  allocates b (onRequest req res b).1 (onRequest req res b).2.
Proof.
  unfold onRequest.
  destruct (nonempty (origin req) && negb (isAllowedOrigin (default "" (origin req))));
    [apply allocates_same; quiet|].
  destruct (String.eqb (method req) "OPTIONS"); [apply allocates_same; quiet|].
  pose proof (handleHTTPRequest_allocates req res b) as Ha.
  destruct (handleHTTPRequest req res b) as [b' e]. cbn [fst snd] in *.
  apply allocates_quiet; [quiet | exact Ha].
Qed.

Lemma counts_allocates b b' e : allocates b b' e -> counts b b' e.
Proof.
  intros (_ & _ & [(Hr & Hp & Ht & He) | (k & Hr & Hp & Ht & He)]); unfold counts;
    rewrite Hr, Hp, Ht, He.
  - rewrite Z.sub_diag. split; [lia|]. split; [reflexivity|]. split; auto.
  - replace (requestId b + 1 - requestId b) with 1 by lia.
    split; [lia|]. split; [reflexivity|]. split.
    + intros n Hn. destruct (decide (requestId b = n)) as [<-|Hne]; [right; lia|].
      rewrite lookup_insert_ne in Hn by done. auto.
    + intros n Hn. destruct (decide (requestId b = n)) as [<-|Hne]; [right; lia|].
      rewrite lookup_insert_ne in Hn by done. auto.
Qed.

Lemma counts_shrinks b b' e : shrinks b b' e -> counts b b' e.
Proof.
  intros (Hr & Hp & Ht & He & _). unfold counts. rewrite Hr, He, Z.sub_diag.
  split; [lia|]. split; [reflexivity|]. split.
  - intros n [k Hn]. left. exists k. eapply lookup_weaken; eauto.
  - intros n [k Hn]. left. exists k. eapply lookup_weaken; eauto.
Qed.

Lemma counts_trans b b1 b2 e1 e2 :
  counts b b1 e1 -> counts b1 b2 e2 -> counts b b2 (e1 ++ e2).
Proof.
  intros (Hr1 & He1 & Hp1 & Ht1) (Hr2 & He2 & Hp2 & Ht2). unfold counts.
  rewrite registered_app, He1, He2.
  split; [lia|]. split; [|split].
  - replace (requestId b2 - requestId b)
      with ((requestId b1 - requestId b) + (requestId b2 - requestId b1)) by lia.
    rewrite seqZ_app by lia. do 2 f_equal. lia.
  - intros n Hn. destruct (Hp2 n Hn) as [Hn1|]; [|right; lia].
    destruct (Hp1 n Hn1); [auto | right; lia].
  - intros n Hn. destruct (Ht2 n Hn) as [Hn1|]; [|right; lia].
    destruct (Ht1 n Hn1); [auto | right; lia].
Qed.

Lemma shrinks_refl b : shrinks b b [].
Proof. repeat split; reflexivity. Qed.

Lemma shrinks_trans b b1 b2 e1 e2 :
  shrinks b b1 e1 -> shrinks b1 b2 e2 -> shrinks b b2 (e1 ++ e2).
Proof.
  intros (Hr1 & Hp1 & Ht1 & He1 & Hm1) (Hr2 & Hp2 & Ht2 & He2 & Hm2).
  split; [congruence|]. split; [etrans; eauto|]. split; [etrans; eauto|].
  split; [|congruence]. rewrite registered_app, He1, He2. reflexivity.
Qed.

Lemma for_each_shrinks {A : Type} (body : A -> Bridge -> Bridge * list Effect) :
  (forall x b, shrinks b (body x b).1 (body x b).2) ->
  forall xs b, shrinks b (for_each body xs b).1 (for_each body xs b).2.
Proof.
  intros Hbody xs. induction xs as [|x xs IH]; intros b; cbn [for_each].
  - apply shrinks_refl.
  - pose proof (Hbody x b) as H1. destruct (body x b) as [b1 e1].
    pose proof (IH b1) as H2. destruct (for_each body xs b1) as [b2 e2].
    cbn [fst snd] in *. eapply shrinks_trans; eauto.
Qed.

Lemma handleMCPResponse_shrinks response b b' e :
  handleMCPResponse response b = Some (b', e) -> shrinks b b' e.
Proof.
  unfold handleMCPResponse.
  destruct (nullish (Some response)); [discriminate|].
  destruct (if truthy (field "id" (Some response)) then _ else None) as [[n k]|].
  2: { intros [= <- <-]. apply shrinks_refl. }
  assert (delete n (pendingRequests b) ⊆ pendingRequests b) by apply delete_subseteq.
  destruct (truthy (field "error" (Some response))).
  { intros [= <- <-]. repeat split; auto. }
  destruct (truthy (field "result" (Some response)) && _);
    intros [= <- <-]; repeat split; auto.
Qed.

Lemma onLine_shrinks line b : shrinks b (onLine line b).1 (onLine line b).2.
Proof.
  unfold onLine.
  destruct (String.eqb (trim line) ""); [apply shrinks_refl|].
  destruct (JSON_parse line) as [response|]; [|repeat split; reflexivity].
  destruct (handleMCPResponse response b) as [[b' e]|] eqn:E;
    [|repeat split; reflexivity].
  eapply handleMCPResponse_shrinks; eauto.
Qed.

Lemma onStdout_shrinks data b : shrinks b (onStdout data b).1 (onStdout data b).2.
Proof.
  unfold onStdout.
  destruct (cut newline (buffer b +:+ data)) as [h t].
  destruct (pop h t) as [lines rest]. unfold onLines.
  pose proof (for_each_shrinks onLine onLine_shrinks lines (set_buffer rest b)) as Hs.
  destruct (for_each onLine lines (set_buffer rest b)) as [b' e].
  exact Hs.
Qed.

Lemma onTimeout_shrinks id b : shrinks b (onTimeout id b).1 (onTimeout id b).2.
Proof.
  unfold onTimeout. destruct (pendingRequests b !! id); [|apply shrinks_refl].
  split; [reflexivity|]. split; [apply delete_subseteq|]. repeat split; reflexivity.
Qed.

Lemma resume_shrinks k o b : shrinks b (resume k o b).1 (resume k o b).2.
Proof.
  destruct k, o; cbn [resume]; try (repeat split; reflexivity).
  destruct (nullish (field "params" (Some message))); repeat split; reflexivity.
Qed.

Lemma runJobs_shrinks jobs b : shrinks b (runJobs jobs b).1 (runJobs jobs b).2.
Proof.
  unfold runJobs. apply for_each_shrinks. intros [k o] b'. apply resume_shrinks.
Qed.

Lemma handle_counts ev b b' e : handle ev b = Some (b', e) -> counts b b' e.
Proof.
  unfold handle. destruct (exited b); [discriminate|].
  destruct ev as [req res|data| | |id|c res|c res].
  - destruct (listening b); [|discriminate]. intros [= Heq].
    pose proof (onRequest_allocates req res b) as Ha.
    rewrite Heq in Ha. apply counts_allocates, Ha.
  - intros [= Heq]. pose proof (onStdout_shrinks data b) as Hs.
    rewrite Heq in Hs. apply counts_shrinks, Hs.
  - destruct (mcpProcess b); [|discriminate]. unfold onExit. intros [= <- <-].
    unfold counts. cbn. rewrite Z.sub_diag. split; [lia|]. repeat split; auto.
  - destruct (mcpProcess b); [|discriminate]. intros [= <- <-].
    unfold counts. cbn. rewrite Z.sub_diag. split; [lia|]. repeat split; auto.
  - destruct (timeouts b !! id); [|discriminate]. intros [= Heq].
    revert Heq.
    pose proof (onTimeout_shrinks id (set_timeouts (delete id (timeouts b)) b)) as Hs.
    intros Heq. rewrite Heq in Hs. cbn [fst snd] in Hs.
    apply counts_shrinks. destruct Hs as (Hr & Hp & Ht & He & Hm).
    split; [exact Hr|]. split; [exact Hp|]. split; [|split; [exact He|exact Hm]].
    etrans; [exact Ht|]. apply delete_subseteq.
  - destruct (existsb _ _); [|discriminate].
    destruct (sseConnections b !! c); intros [= <- <-];
      apply counts_shrinks; repeat split; reflexivity.
  - intros [= <- <-]. apply counts_shrinks; repeat split; reflexivity.
Qed.

Lemma turn_counts ev b b' e : turn ev b = Some (b', e) -> counts b b' e.
Proof.
  unfold turn. destruct (handle ev b) as [[b1 e1]|] eqn:Hh; [|discriminate].
  pose proof (runJobs_shrinks (omap settled e1) b1) as Hs.
  destruct (runJobs (omap settled e1) b1) as [b2 e2]. intros [= <- <-].
  eapply counts_trans; [eapply handle_counts; eauto | apply counts_shrinks, Hs].
Qed.

Lemma run_counts evs b b' e : run evs b = Some (b', e) -> counts b b' e.
Proof.
  revert b b' e. induction evs as [|ev evs IH]; intros b b' e; cbn [run].
  - intros [= <- <-]. apply counts_shrinks, shrinks_refl.
  - destruct (turn ev b) as [[b1 e1]|] eqn:Ht; [|discriminate].
    destruct (run evs b1) as [[b2 e2]|] eqn:Hr; [|discriminate].
    intros [= <- <-]. eapply counts_trans; [eapply turn_counts | eapply IH]; eauto.
Qed.

(** The ids registered from the start are 1, 2, 3, ... and every pending
    id is one of them. *)
Lemma run_registered evs b e :
  run evs start.1 = Some (b, e) ->
  registered (start.2 ++ e) = seqZ 1 (requestId b - 1)
  /\ (forall n, is_Some (pendingRequests b !! n) -> 1 <= n < requestId b).
Proof.
  intros Hrun. apply run_counts in Hrun as (Hr & He & Hp & _).
  change (requestId start.1) with 2 in *. split.
  - rewrite registered_app, He.
    change (registered start.2) with (seqZ 1 1).
    replace (requestId b - 1) with (1 + (requestId b - 2)) by lia.
    rewrite seqZ_app by lia. reflexivity.
  - intros n Hn. destruct (Hp n Hn) as [[k Hk]|]; [|lia].
    change (pendingRequests start.1) with (<[1 := AwaitStart]> (∅ : gmap Z Cont)) in Hk.
    destruct (decide (1 = n)) as [<-|Hne]; [lia|].
    rewrite lookup_insert_ne, lookup_empty in Hk by done. discriminate.
Qed.

(** *** Correlation *)




(** A response whose id is not a pending request number is discarded. *)
Lemma handleMCPResponse_unmatched response b :
  nullish (Some response) = false ->
  (forall n, field "id" (Some response) = Some (JNum n) -> pendingRequests b !! n = None) ->
  handleMCPResponse response b = Some (b, []).
Proof.
  intros Hnull Hid. unfold handleMCPResponse, pending_entry. rewrite Hnull.
  destruct (truthy (field "id" (Some response))); [|reflexivity].
  destruct (field "id" (Some response)) as [[| | n | | |]|]; try reflexivity.
  cbn [numeric_key mbind option_bind]. rewrite (Hid n eq_refl). reflexivity.
Qed.




Lemma for_each_quiet {A : Type} (body : A -> Bridge -> Bridge * list Effect) :
  (forall x b, omap settled (body x b).2 = []) ->
  forall xs b, omap settled (for_each body xs b).2 = [].
Proof.
  intros Hbody xs. induction xs as [|x xs IH]; intros b; cbn [for_each]; [reflexivity|].
  pose proof (Hbody x b) as H1. destruct (body x b) as [b1 e1].
  pose proof (IH b1) as H2. destruct (for_each body xs b1) as [b2 e2].
  cbn [snd] in *. rewrite omap_app, H1, H2. reflexivity.
Qed.

Lemma resume_quiet k o b : omap settled (resume k o b).2 = [].
Proof.
  destruct k, o; cbn [resume]; try reflexivity.
  destruct (nullish (field "params" (Some message))); reflexivity.
Qed.

Lemma runJobs_quiet jobs b : omap settled (runJobs jobs b).2 = [].
Proof. unfold runJobs. apply for_each_quiet. intros [k o] b'. apply resume_quiet. Qed.


(** *** Child exit *)

(** The exit handler drops the process handle and the readiness flag and
    touches nothing else: the capabilities, the pending entries and their
    timers stay, and no promise is settled. *)
Lemma onExit_frame b :
  mcpProcess (onExit b).1 = None
  /\ isInitialized (onExit b).1 = false
  /\ mcpCapabilities (onExit b).1 = mcpCapabilities b
  /\ pendingRequests (onExit b).1 = pendingRequests b
  /\ timeouts (onExit b).1 = timeouts b
  /\ omap settled (onExit b).2 = [].
Proof. repeat split; reflexivity. Qed.

Lemma turn_exit b :
  exited b = false -> is_Some (mcpProcess b) ->
  turn EvExit b = Some (onExit b).
Proof.
  intros He [p Hp]. unfold turn, handle. rewrite He, Hp. reflexivity.
Qed.

Lemma handle_no_process ev b b' e :
  handle ev b = Some (b', e) -> mcpProcess b = None -> mcpProcess b' = None.
Proof.
  unfold handle. destruct (exited b); [discriminate|]. intros Hh Hnone.
  destruct ev as [req res|data| | |id|c res|c res].
  - destruct (listening b); [|discriminate]. injection Hh as Hh.
    pose proof (onRequest_allocates req res b) as (_ & Hm & _). rewrite Hh in Hm.
    cbn [fst] in Hm. congruence.
  - injection Hh as Hh. pose proof (onStdout_shrinks data b) as (_ & _ & _ & _ & Hm).
    rewrite Hh in Hm. cbn [fst] in Hm. congruence.
  - rewrite Hnone in Hh. discriminate.
  - rewrite Hnone in Hh. discriminate.
  - destruct (timeouts b !! id); [|discriminate]. injection Hh as Hh.
    pose proof (onTimeout_shrinks id (set_timeouts (delete id (timeouts b)) b))
      as (_ & _ & _ & _ & Hm).
    rewrite Hh in Hm. cbn [fst] in Hm. cbn [mcpProcess set_timeouts] in Hm. congruence.
  - destruct (existsb _ _); [|discriminate].
    destruct (sseConnections b !! c); injection Hh as <- <-; exact Hnone.
  - injection Hh as <- <-. exact Hnone.
Qed.

Lemma turn_no_process ev b b' e :
  turn ev b = Some (b', e) -> mcpProcess b = None -> mcpProcess b' = None.
Proof.
  unfold turn. destruct (handle ev b) as [[b1 e1]|] eqn:Hh; [|discriminate].
  pose proof (runJobs_shrinks (omap settled e1) b1) as (_ & _ & _ & _ & Hm).
  destruct (runJobs (omap settled e1) b1) as [b2 e2]. intros [= <- <-] Hnone.
  cbn [fst] in Hm. rewrite Hm. eapply handle_no_process; eauto.
Qed.

(** Once the child is gone no event brings one back. *)
Lemma run_no_process evs b b' e :
  run evs b = Some (b', e) -> mcpProcess b = None -> mcpProcess b' = None.
Proof.
  revert b b' e. induction evs as [|ev evs IH]; intros b b' e; cbn [run].
  - intros [= <- <-]. auto.
  - destruct (turn ev b) as [[b1 e1]|] eqn:Ht; [|discriminate].
    destruct (run evs b1) as [[b2 e2]|] eqn:Hr; [|discriminate].
    intros [= <- <-] Hnone. eapply IH; eauto. eapply turn_no_process; eauto.
Qed.

(** *** Timeouts *)

(** A proxied call is registered under the current counter with a 30 s
    timer. *)
Lemma proxyToMCP_arms method params k b :
  pendingRequests (proxyToMCP method params k b).1 !! requestId b = Some k
  /\ timeouts (proxyToMCP method params k b).1 !! requestId b = Some 30000
  /\ requestId (proxyToMCP method params k b).1 = requestId b + 1.
Proof.
  unfold proxyToMCP. cbn. rewrite !lookup_insert_eq. auto.
Qed.

(** The timer of a request that is still pending removes the entry and
    rejects the caller with the timeout error. *)
Lemma timeout_rejects n k d b :
  exited b = false ->
  timeouts b !! n = Some d ->
  pendingRequests b !! n = Some k ->
  exists b',
    handle (EvTimeout n) b = Some (b', [Reject n k (Error "Request timeout")])
    /\ pendingRequests b' = delete n (pendingRequests b)
    /\ timeouts b' = delete n (timeouts b).
Proof.
  intros He Ht Hk. unfold handle, onTimeout. rewrite He, Ht.
  cbn [pendingRequests set_timeouts]. rewrite Hk.
  eexists. split; [reflexivity|]. split; reflexivity.
Qed.

(** The timer of a request that was answered does nothing. *)
Lemma timeout_after_response n d b :
  exited b = false ->
  timeouts b !! n = Some d ->
  pendingRequests b !! n = None ->
  turn (EvTimeout n) b = Some (set_timeouts (delete n (timeouts b)) b, []).
Proof.
  intros He Ht Hk. unfold turn, handle, onTimeout. rewrite He, Ht.
  cbn [pendingRequests set_timeouts]. rewrite Hk. reflexivity.
Qed.

(** A line carrying a response for a request that is no longer pending
    changes nothing and has no effect. *)
Lemma late_response line response n b :
  JSON_parse line = Some response ->
  field "id" (Some response) = Some (JNum n) ->
  pendingRequests b !! n = None ->
  onLine line b = (b, []).
Proof.
  intros Hp Hid Hk. unfold onLine.
  destruct (String.eqb (trim line) ""); [reflexivity|]. rewrite Hp.
  rewrite handleMCPResponse_unmatched; [reflexivity| |].
  - destruct response; try reflexivity. discriminate.
  - intros m Hm. rewrite Hid in Hm. injection Hm as <-. exact Hk.
Qed.

Lemma resume_pending k o b :
  pendingRequests (resume k o b).1 = pendingRequests b
  /\ timeouts (resume k o b).1 = timeouts b.
Proof.
  destruct k, o; cbn [resume]; try (split; reflexivity).
  destruct (nullish (field "params" (Some message))); split; reflexivity.
Qed.

(** The whole turn of a timer that finds its request pending: the entry
    is removed, the caller is rejected with the timeout error and nobody
    else is settled; a response with that id that comes later is
    discarded. *)
Lemma timeout_turn n k d b :
  exited b = false ->
  timeouts b !! n = Some d ->
  pendingRequests b !! n = Some k ->
  exists b' e,
    turn (EvTimeout n) b = Some (b', Reject n k (Error "Request timeout") :: e)
    /\ pendingRequests b' = delete n (pendingRequests b)
    /\ timeouts b' = delete n (timeouts b)
    /\ omap settled e = []
    /\ (forall line response,
          JSON_parse line = Some response ->
          field "id" (Some response) = Some (JNum n) ->
          onLine line b' = (b', [])).
Proof.
  intros He Ht Hk. destruct (timeout_rejects n k d b He Ht Hk) as (b1 & Hh & Hp & Htm).
  unfold turn. rewrite Hh. cbn [omap list_omap settled]. unfold runJobs. cbn [for_each fst snd].
  pose proof (resume_pending k (Rejected (Error "Request timeout")) b1) as [Hp2 Ht2].
  pose proof (resume_quiet k (Rejected (Error "Request timeout")) b1) as Hq.
  destruct (resume k (Rejected (Error "Request timeout")) b1) as [b2 e2].
  cbn [fst snd] in *. exists b2, (e2 ++ []).
  split; [reflexivity|]. split; [congruence|]. split; [congruence|].
  split; [rewrite app_nil_r; exact Hq|].
  intros line response Hparse Hid. eapply late_response; eauto.
  rewrite Hp2, Hp. apply lookup_delete_eq.
Qed.

(** *** The gateway *)

Lemma onRequest_to_mcp m req res b :
  to_mcp m req = true -> m <> "OPTIONS" ->
  onRequest req res b =
  ((handleMCPEndpoint req res b).1, cors req res ++ (handleMCPEndpoint req res b).2).
Proof.
  unfold to_mcp. intros Hto Hm.
  apply andb_prop in Hto as [Hto Hmeth]. apply andb_prop in Hto as [Hto Hroute].
  apply andb_prop in Hto as [Horigin Hversion].
  apply negb_true_iff in Horigin, Hversion.
  apply String.eqb_eq in Hmeth, Hroute.
  unfold onRequest, handleHTTPRequest. rewrite Horigin, Hversion, Hroute, Hmeth.
  destruct (String.eqb m "OPTIONS") eqn:E; [apply String.eqb_eq in E; contradiction|].
  change (String.eqb "/mcp" "/health") with false.
  change (String.eqb "/mcp" "/mcp") with true. cbn iota.
  destruct (handleMCPEndpoint req res b); reflexivity.
Qed.

Lemma onRequest_post req res b :
  to_mcp "POST" req = true ->
  onRequest req res b =
  ((handleMCPPost req res (mcp_session_id req) b).1,
   cors req res ++ (handleMCPPost req res (mcp_session_id req) b).2).
Proof.
  intros Hto. rewrite (onRequest_to_mcp "POST") by (exact Hto || discriminate).
  unfold handleMCPEndpoint.
  apply andb_prop in Hto as [_ Hmeth]. rewrite Hmeth. reflexivity.
Qed.

Lemma onRequest_get req res b :
  to_mcp "GET" req = true ->
  onRequest req res b =
  ((handleMCPGet req res (mcp_session_id req) b).1,
   cors req res ++ (handleMCPGet req res (mcp_session_id req) b).2).
Proof.
  intros Hto. rewrite (onRequest_to_mcp "GET") by (exact Hto || discriminate).
  unfold handleMCPEndpoint.
  apply andb_prop in Hto as [_ Hmeth]. apply String.eqb_eq in Hmeth. rewrite Hmeth.
  reflexivity.
Qed.


(** A streaming GET whose Accept header is absent or does not contain
    [text/event-stream] is answered 400 and changes nothing: no connection
    entry, no interval. *)
Lemma get_without_event_stream req res b :
  to_mcp "GET" req = true ->
  (forall a, accept req = Some a -> includes "text/event-stream" a = false) ->
  onRequest req res b =
  (b, cors req res
      ++ respond res 400 (error_body "Accept header must include text/event-stream")).
Proof.
  intros Hto Hacc. rewrite onRequest_get by exact Hto. unfold handleMCPGet.
  destruct (accept req) as [a|]; [|reflexivity].
  rewrite (Hacc a eq_refl), andb_false_r. reflexivity.
Qed.




(** POST on [/mcp]: a message whose [id] is falsy and whose method is not
    [initialize] is forwarded as it is when it has a method, and answered
    202 with no body; the state is unchanged. *)
Lemma post_notification req res b message :
  to_mcp "POST" req = true ->
  validateAcceptHeader (accept req) ["application/json"; "text/event-stream"] = true ->
  JSON_parse (body req) = Some message ->
  nullish (Some message) = false ->
  field "method" (Some message) <> Some (JStr "initialize") ->
  unknown_session (mcp_session_id req) b = false ->
  truthy (field "id" (Some message)) = false ->
  onRequest req res b =
  (b, cors req res
      ++ (if truthy (field "method" (Some message)) then sendToMCP message b else [])
      ++ [WriteHead res 202 []; End_ res None]).
Proof.
  intros Hto Hacc Hparse Hnull Hmeth Hsess Hid.
  rewrite onRequest_post by exact Hto. unfold handleMCPPost.
  rewrite Hacc, Hparse, Hnull, Hsess, Hid. cbn [negb].
  destruct (field "method" (Some message)) as [[| | |m| |]|]; try reflexivity.
  destruct (String.eqb m "initialize") eqn:E; [|reflexivity].
  apply String.eqb_eq in E. subst m. contradiction.
Qed.

(** POST on [/mcp]: an [initialize] message is proxied whatever the
    session header says. *)
Lemma post_initialize req res b message :
  to_mcp "POST" req = true ->
  validateAcceptHeader (accept req) ["application/json"; "text/event-stream"] = true ->
  JSON_parse (body req) = Some message ->
  field "method" (Some message) = Some (JStr "initialize") ->
  onRequest req res b =
  ((proxyToMCP (Some (JStr "initialize")) (field "params" (Some message))
      (AwaitInitialize message res) b).1,
   cors req res
   ++ (proxyToMCP (Some (JStr "initialize")) (field "params" (Some message))
         (AwaitInitialize message res) b).2).
Proof.
  intros Hto Hacc Hparse Hmeth.
  rewrite onRequest_post by exact Hto. unfold handleMCPPost, handleInitializeRequest.
  rewrite Hacc, Hparse, Hmeth. cbn [negb].
  destruct message; try discriminate. reflexivity.
Qed.

(** A write while the child is absent or its stdin is not writable: an
    error is logged, nothing is written, nothing is thrown. *)
Lemma sendToMCP_unavailable message b :
  mcpProcess b = None \/ mcpProcess b = Some {| stdin_writable := false |} ->
  sendToMCP message b = [ConsoleError "MCP process not available" ""].
Proof. unfold sendToMCP. intros [-> | ->]; reflexivity. Qed.

(** A request while the server listens: its handler runs, and settles no
    promise. *)
Lemma turn_request req res b :
  listening b = true -> exited b = false ->
  turn (EvRequest req res) b = Some (onRequest req res b).
Proof.
  intros Hl He. unfold turn, handle. rewrite He, Hl.
  pose proof (onRequest_allocates req res b) as (Hs & _).
  destruct (onRequest req res b) as [b1 e1]. cbn [snd] in Hs. rewrite Hs.
  unfold runJobs. cbn [for_each]. rewrite app_nil_r. reflexivity.
Qed.

(** A line whose response has a falsy id settles nobody and changes
    nothing. *)
Lemma falsy_id_response line response b :
  JSON_parse line = Some response ->
  truthy (field "id" (Some response)) = false ->
  (onLine line b).1 = b /\ omap settled (onLine line b).2 = [].
Proof.
  intros Hp Hid. unfold onLine, handleMCPResponse.
  destruct (String.eqb (trim line) ""); [split; reflexivity|].
  rewrite Hp, Hid. destruct (nullish (Some response)); split; reflexivity.
Qed.

(** *** Sessions *)















End WithPlatform.
End CompliantFacts.

(** ** The simple bridge *)

Module SimpleFacts.
Import Simple.

Section WithPlatform.
Context `{Platform}.





Lemma simple_registered_app (e1 e2 : list Effect) :
  registered (e1 ++ e2) = registered e1 ++ registered e2.
Proof. apply omap_app. Qed.

(** *** Request identifiers *)

Lemma call_allocates request delay expired k b :
  allocates b (call (requestId b) request delay expired k (set_requestId (requestId b + 1) b)).1
              (call (requestId b) request delay expired k (set_requestId (requestId b + 1) b)).2.
Proof.
  unfold call, sendToMCP. cbn [mcpProcess set_requestId].
  destruct (mcpProcess b) as [[[|]]|]; cbn [fst snd]; (split; [reflexivity|]); right;
    eexists; (split; [reflexivity|]); (split; [reflexivity|]); split;
    solve [reflexivity | left; reflexivity | right; eexists; reflexivity].
Qed.

Lemma simple_allocates_same b (e : list Effect) : registered e = [] -> allocates b b e.
Proof. intros He. split; [reflexivity|]. left. auto. Qed.

Lemma allocates_prefix b b' (e e' : list Effect) :
  registered e' = [] -> allocates b b' e -> allocates b b' (e' ++ e).
Proof.
  intros He' (Hm & Ha). unfold allocates. rewrite simple_registered_app, He'. auto.
Qed.

Lemma simple_proxyToMCP_allocates method params k b :
  allocates b (proxyToMCP method params k b).1 (proxyToMCP method params k b).2.
Proof.
  unfold proxyToMCP. destruct (negb (isInitialized b)); [apply simple_allocates_same; reflexivity|].
  apply call_allocates.
Qed.

Lemma handleMCP_allocates req res b :
  allocates b (handleMCP req res b).1 (handleMCP req res b).2.
Proof.
  unfold handleMCP.
  destruct (negb (String.eqb (method req) "POST")); [apply simple_allocates_same; reflexivity|].
  destruct (JSON_parse (body req)) as [request|]; [|apply simple_allocates_same; reflexivity].
  destruct (nullish (Some request)); [apply simple_allocates_same; reflexivity|].
  apply simple_proxyToMCP_allocates.
Qed.

Lemma simple_handleHTTPRequest_allocates req res b :
  allocates b (handleHTTPRequest req res b).1 (handleHTTPRequest req res b).2.
Proof.
  unfold handleHTTPRequest, handleSSE, handleCapabilities.
  destruct (String.eqb (route _ _) "/health"); [apply simple_allocates_same; reflexivity|].
  destruct (String.eqb (route _ _) "/mcp"); [apply handleMCP_allocates|].
  destruct (String.eqb (route _ _) "/sse").
  { split; [reflexivity|]. left. cbn [fst snd requestId pendingRequests timeouts set_intervals].
    repeat split. destruct (isInitialized b && truthy (mcpCapabilities b)); reflexivity. }
  destruct (String.eqb (route _ _) "/capabilities"); [|apply simple_allocates_same; reflexivity].
  apply simple_allocates_same. cbn [snd]. destruct (negb (isInitialized b)); reflexivity.
Qed.

Lemma simple_onRequest_allocates req res b :
  allocates b (onRequest req res b).1 (onRequest req res b).2.
Proof.
  unfold onRequest.
  destruct (String.eqb (method req) "OPTIONS"); [apply simple_allocates_same; reflexivity|].
  pose proof (simple_handleHTTPRequest_allocates req res b) as Ha.
  destruct (handleHTTPRequest req res b) as [b' e]. cbn [fst snd] in *.
  apply allocates_prefix; [reflexivity | exact Ha].
Qed.

Lemma simple_counts_allocates b b' e : allocates b b' e -> counts b b' e.
Proof.
  intros (_ & [(Hr & Hp & Ht & He) | (entry & Hr & Hp & Ht & He)]); unfold counts;
    rewrite Hr, Hp, He.
  - rewrite Ht, Z.sub_diag. split; [lia|]. split; [reflexivity|]. split; auto.
  - replace (requestId b + 1 - requestId b) with 1 by lia.
    split; [lia|]. split; [reflexivity|]. split.
    + intros n Hn. destruct (decide (requestId b = n)) as [<-|Hne]; [right; lia|].
      rewrite lookup_insert_ne in Hn by done. auto.
    + intros n Hn. destruct Ht as [Ht | [t Ht]]; rewrite Ht in Hn; [auto|].
      destruct (decide (requestId b = n)) as [<-|Hne]; [right; lia|].
      rewrite lookup_insert_ne in Hn by done. auto.
Qed.

Lemma simple_counts_shrinks b b' e : shrinks b b' e -> counts b b' e.
Proof.
  intros (Hr & Hp & Ht & He & _). unfold counts. rewrite Hr, He, Z.sub_diag.
  split; [lia|]. split; [reflexivity|]. split.
  - intros n [k Hn]. left. exists k. eapply lookup_weaken; eauto.
  - intros n [k Hn]. left. exists k. eapply lookup_weaken; eauto.
Qed.

Lemma simple_counts_trans b b1 b2 e1 e2 :
  counts b b1 e1 -> counts b1 b2 e2 -> counts b b2 (e1 ++ e2).
Proof.
  intros (Hr1 & He1 & Hp1 & Ht1) (Hr2 & He2 & Hp2 & Ht2). unfold counts.
  rewrite simple_registered_app, He1, He2.
  split; [lia|]. split; [|split].
  - replace (requestId b2 - requestId b)
      with ((requestId b1 - requestId b) + (requestId b2 - requestId b1)) by lia.
    rewrite seqZ_app by lia. do 2 f_equal. lia.
  - intros n Hn. destruct (Hp2 n Hn) as [Hn1|]; [|right; lia].
    destruct (Hp1 n Hn1); [auto | right; lia].
  - intros n Hn. destruct (Ht2 n Hn) as [Hn1|]; [|right; lia].
    destruct (Ht1 n Hn1); [auto | right; lia].
Qed.

Lemma simple_shrinks_refl b : shrinks b b [].
Proof. repeat split; reflexivity. Qed.

Lemma simple_shrinks_trans b b1 b2 e1 e2 :
  shrinks b b1 e1 -> shrinks b1 b2 e2 -> shrinks b b2 (e1 ++ e2).
Proof.
  intros (Hr1 & Hp1 & Ht1 & He1 & Hm1) (Hr2 & Hp2 & Ht2 & He2 & Hm2).
  split; [congruence|]. split; [etrans; eauto|]. split; [etrans; eauto|].
  split; [|congruence]. rewrite simple_registered_app, He1, He2. reflexivity.
Qed.

Lemma simple_for_each_shrinks {A : Type} (body : A -> Bridge -> Bridge * list Effect) :
  (forall x b, shrinks b (body x b).1 (body x b).2) ->
  forall xs b, shrinks b (for_each body xs b).1 (for_each body xs b).2.
Proof.
  intros Hbody xs. induction xs as [|x xs IH]; intros b; cbn [for_each].
  - apply simple_shrinks_refl.
  - pose proof (Hbody x b) as H1. destruct (body x b) as [b1 e1].
    pose proof (IH b1) as H2. destruct (for_each body xs b1) as [b2 e2].
    cbn [fst snd] in *. eapply simple_shrinks_trans; eauto.
Qed.

Lemma settle_registered n entry o : registered (settle n entry o) = [].
Proof. unfold settle. destruct (alreadyResolved entry), o; reflexivity. Qed.

Lemma simple_handleMCPResponse_shrinks response b b' e :
  handleMCPResponse response b = Some (b', e) -> shrinks b b' e.
Proof.
  unfold handleMCPResponse.
  destruct (nullish (Some response)); [discriminate|].
  destruct (if truthy (field "id" (Some response)) then _ else None) as [[n entry]|].
  2: { intros [= <- <-]. apply simple_shrinks_refl. }
  assert (delete n (pendingRequests b) ⊆ pendingRequests b) by apply delete_subseteq.
  destruct (truthy (field "error" (Some response))).
  { intros [= <- <-]. split; [reflexivity|]. split; [assumption|].
    split; [reflexivity|]. split; [apply settle_registered | reflexivity]. }
  destruct (truthy (field "result" (Some response)) && _); intros [= <- <-].
  - split; [reflexivity|]. split; [assumption|]. split; [reflexivity|].
    split; [|reflexivity].
    change (registered (settle n entry (Fulfilled (field "result" (Some response)))) = []).
    apply settle_registered.
  - split; [reflexivity|]. split; [assumption|].
    split; [reflexivity|]. split; [apply settle_registered | reflexivity].
Qed.

Lemma simple_onLine_shrinks line b : shrinks b (onLine line b).1 (onLine line b).2.
Proof.
  unfold onLine.
  destruct (String.eqb (trim line) ""); [apply simple_shrinks_refl|].
  destruct (JSON_parse line) as [response|]; [|repeat split; reflexivity].
  destruct (handleMCPResponse response b) as [[b' e]|] eqn:E;
    [|repeat split; reflexivity].
  eapply simple_handleMCPResponse_shrinks; eauto.
Qed.

Lemma simple_onStdout_shrinks data b : shrinks b (onStdout data b).1 (onStdout data b).2.
Proof.
  unfold onStdout.
  destruct (cut newline (buffer b +:+ data)) as [h t].
  destruct (pop h t) as [lines rest]. unfold onLines.
  pose proof (simple_for_each_shrinks onLine simple_onLine_shrinks lines (set_buffer rest b)) as Hs.
  destruct (for_each onLine lines (set_buffer rest b)) as [b' e].
  exact Hs.
Qed.

Lemma simple_onTimeout_shrinks id expired b :
  shrinks b (onTimeout id expired b).1 (onTimeout id expired b).2.
Proof.
  unfold onTimeout. destruct (pendingRequests b !! id); [|apply simple_shrinks_refl].
  split; [reflexivity|]. split; [apply delete_subseteq|]. split; [reflexivity|].
  split; [apply settle_registered | reflexivity].
Qed.

Lemma simple_resume_shrinks k o b : shrinks b (resume k o b).1 (resume k o b).2.
Proof. destruct k, o; cbn [resume]; repeat split; reflexivity. Qed.

Lemma simple_runJobs_shrinks jobs b : shrinks b (runJobs jobs b).1 (runJobs jobs b).2.
Proof.
  unfold runJobs. apply simple_for_each_shrinks. intros [k o] b'. apply simple_resume_shrinks.
Qed.

Lemma simple_handle_counts ev b b' e : handle ev b = Some (b', e) -> counts b b' e.
Proof.
  unfold handle. destruct (exited b); [discriminate|].
  destruct ev as [req res|data| | |id|res|res].
  - destruct (listening b); [|discriminate]. intros [= Heq].
    pose proof (simple_onRequest_allocates req res b) as Ha.
    rewrite Heq in Ha. apply simple_counts_allocates, Ha.
  - intros [= Heq]. pose proof (simple_onStdout_shrinks data b) as Hs.
    rewrite Heq in Hs. apply simple_counts_shrinks, Hs.
  - destruct (mcpProcess b); [|discriminate]. unfold onExit. intros [= <- <-].
    unfold counts. cbn. rewrite Z.sub_diag. split; [lia|]. repeat split; auto.
  - destruct (mcpProcess b); [|discriminate]. intros [= <- <-].
    unfold counts. cbn. rewrite Z.sub_diag. split; [lia|]. repeat split; auto.
  - destruct (timeouts b !! id) as [[d expired]|]; [|discriminate]. intros [= Heq].
    pose proof (simple_onTimeout_shrinks id expired (set_timeouts (delete id (timeouts b)) b)) as Hs.
    rewrite Heq in Hs. cbn [fst snd] in Hs.
    apply simple_counts_shrinks. destruct Hs as (Hr & Hp & Ht & He & Hm).
    split; [exact Hr|]. split; [exact Hp|]. split; [|split; [exact He|exact Hm]].
    etrans; [exact Ht|]. apply delete_subseteq.
  - destruct (existsb _ _); [|discriminate]. intros [= <- <-].
    apply simple_counts_shrinks; repeat split; reflexivity.
  - intros [= <- <-]. apply simple_counts_shrinks; repeat split; reflexivity.
Qed.

Lemma simple_turn_counts ev b b' e : turn ev b = Some (b', e) -> counts b b' e.
Proof.
  unfold turn. destruct (handle ev b) as [[b1 e1]|] eqn:Hh; [|discriminate].
  pose proof (simple_runJobs_shrinks (omap settled e1) b1) as Hs.
  destruct (runJobs (omap settled e1) b1) as [b2 e2]. intros [= <- <-].
  eapply simple_counts_trans; [eapply simple_handle_counts; eauto | apply simple_counts_shrinks, Hs].
Qed.

Lemma simple_run_counts evs b b' e : run evs b = Some (b', e) -> counts b b' e.
Proof.
  revert b b' e. induction evs as [|ev evs IH]; intros b b' e; cbn [run].
  - intros [= <- <-]. apply simple_counts_shrinks, simple_shrinks_refl.
  - destruct (turn ev b) as [[b1 e1]|] eqn:Ht; [|discriminate].
    destruct (run evs b1) as [[b2 e2]|] eqn:Hr; [|discriminate].
    intros [= <- <-]. eapply simple_counts_trans; [eapply simple_turn_counts | eapply IH]; eauto.
Qed.

(** The ids registered from the start are 1, 2, 3, ... and every pending
    id is one of them. *)
Lemma simple_run_registered evs b e :
  run evs start.1 = Some (b, e) ->
  registered (start.2 ++ e) = seqZ 1 (requestId b - 1)
  /\ (forall n, is_Some (pendingRequests b !! n) -> 1 <= n < requestId b).
Proof.
  intros Hrun. apply simple_run_counts in Hrun as (Hr & He & Hp & _).
  change (requestId start.1) with 2 in *. split.
  - rewrite simple_registered_app, He.
    change (registered start.2) with (seqZ 1 1).
    replace (requestId b - 1) with (1 + (requestId b - 2)) by lia.
    rewrite seqZ_app by lia. reflexivity.
  - intros n Hn. destruct (Hp n Hn) as [[k Hk]|]; [|lia].
    change (pendingRequests start.1)
      with (<[1 := {| awaiting := AwaitStart; alreadyResolved := false |}]>
              (∅ : gmap Z Entry)) in Hk.
    destruct (decide (1 = n)) as [<-|Hne]; [lia|].
    rewrite lookup_insert_ne, lookup_empty in Hk by done. discriminate.
Qed.

(** *** Correlation *)






(** A response whose id is not a pending request number is discarded. *)
Lemma simple_handleMCPResponse_unmatched response b :
  nullish (Some response) = false ->
  (forall n, field "id" (Some response) = Some (JNum n) -> pendingRequests b !! n = None) ->
  handleMCPResponse response b = Some (b, []).
Proof.
  intros Hnull Hid. unfold handleMCPResponse, pending_entry. rewrite Hnull.
  destruct (truthy (field "id" (Some response))); [|reflexivity].
  destruct (field "id" (Some response)) as [[| | n | | |]|]; try reflexivity.
  cbn [numeric_key mbind option_bind]. rewrite (Hid n eq_refl). reflexivity.
Qed.






Lemma simple_for_each_quiet {A : Type} (body : A -> Bridge -> Bridge * list Effect) :
  (forall x b, omap settled (body x b).2 = []) ->
  forall xs b, omap settled (for_each body xs b).2 = [].
Proof.
  intros Hbody xs. induction xs as [|x xs IH]; intros b; cbn [for_each]; [reflexivity|].
  pose proof (Hbody x b) as H1. destruct (body x b) as [b1 e1].
  pose proof (IH b1) as H2. destruct (for_each body xs b1) as [b2 e2].
  cbn [snd] in *. rewrite omap_app, H1, H2. reflexivity.
Qed.

Lemma simple_resume_quiet k o b : omap settled (resume k o b).2 = [].
Proof. destruct k, o; reflexivity. Qed.

Lemma simple_runJobs_quiet jobs b : omap settled (runJobs jobs b).2 = [].
Proof. unfold runJobs. apply simple_for_each_quiet. intros [k o] b'. apply simple_resume_quiet. Qed.


(** *** Child exit *)

Lemma simple_onExit_frame b :
  mcpProcess (onExit b).1 = None
  /\ isInitialized (onExit b).1 = false
  /\ mcpCapabilities (onExit b).1 = mcpCapabilities b
  /\ pendingRequests (onExit b).1 = pendingRequests b
  /\ timeouts (onExit b).1 = timeouts b
  /\ omap settled (onExit b).2 = [].
Proof. repeat split; reflexivity. Qed.

Lemma simple_turn_exit b :
  exited b = false -> is_Some (mcpProcess b) ->
  turn EvExit b = Some (onExit b).
Proof.
  intros He [p Hp]. unfold turn, handle. rewrite He, Hp. reflexivity.
Qed.

Lemma simple_handle_no_process ev b b' e :
  handle ev b = Some (b', e) -> mcpProcess b = None -> mcpProcess b' = None.
Proof.
  unfold handle. destruct (exited b); [discriminate|]. intros Hh Hnone.
  destruct ev as [req res|data| | |id|res|res].
  - destruct (listening b); [|discriminate]. injection Hh as Hh.
    pose proof (simple_onRequest_allocates req res b) as (Hm & _). rewrite Hh in Hm.
    cbn [fst] in Hm. congruence.
  - injection Hh as Hh. pose proof (simple_onStdout_shrinks data b) as (_ & _ & _ & _ & Hm).
    rewrite Hh in Hm. cbn [fst] in Hm. congruence.
  - rewrite Hnone in Hh. discriminate.
  - rewrite Hnone in Hh. discriminate.
  - destruct (timeouts b !! id) as [[d expired]|]; [|discriminate]. injection Hh as Hh.
    pose proof (simple_onTimeout_shrinks id expired (set_timeouts (delete id (timeouts b)) b))
      as (_ & _ & _ & _ & Hm).
    rewrite Hh in Hm. cbn [fst] in Hm. cbn [mcpProcess set_timeouts] in Hm. congruence.
  - destruct (existsb _ _); [|discriminate]. injection Hh as <- <-; exact Hnone.
  - injection Hh as <- <-. exact Hnone.
Qed.

Lemma simple_turn_no_process ev b b' e :
  turn ev b = Some (b', e) -> mcpProcess b = None -> mcpProcess b' = None.
Proof.
  unfold turn. destruct (handle ev b) as [[b1 e1]|] eqn:Hh; [|discriminate].
  pose proof (simple_runJobs_shrinks (omap settled e1) b1) as (_ & _ & _ & _ & Hm).
  destruct (runJobs (omap settled e1) b1) as [b2 e2]. intros [= <- <-] Hnone.
  cbn [fst] in Hm. rewrite Hm. eapply simple_handle_no_process; eauto.
Qed.

(** Once the child is gone no event brings one back. *)
Lemma simple_run_no_process evs b b' e :
  run evs b = Some (b', e) -> mcpProcess b = None -> mcpProcess b' = None.
Proof.
  revert b b' e. induction evs as [|ev evs IH]; intros b b' e; cbn [run].
  - intros [= <- <-]. auto.
  - destruct (turn ev b) as [[b1 e1]|] eqn:Ht; [|discriminate].
    destruct (run evs b1) as [[b2 e2]|] eqn:Hr; [|discriminate].
    intros [= <- <-] Hnone. eapply IH; eauto. eapply simple_turn_no_process; eauto.
Qed.

(** *** Timeouts and failed writes *)

(** A call whose write succeeds is registered with a timer. *)
Lemma call_arms id request delay expired k b :
  mcpProcess b = Some {| stdin_writable := true |} ->
  call id request delay expired k b =
  (set_timeouts (<[id := (delay, expired)]> (timeouts b))
     (set_pendingRequests
        (<[id := {| awaiting := k; alreadyResolved := false |}]> (pendingRequests b)) b),
   [PendingSet id k; StdinWrite request]).
Proof. intros Hp. unfold call, sendToMCP. rewrite Hp. reflexivity. Qed.

(** A call whose write throws is rejected at once with the error of the
    write; its entry stays in the map and no timer is armed. *)
Lemma call_unavailable id request delay expired k b :
  mcpProcess b = None \/ mcpProcess b = Some {| stdin_writable := false |} ->
  call id request delay expired k b =
  (set_pendingRequests
     (<[id := {| awaiting := k; alreadyResolved := true |}]> (pendingRequests b)) b,
   [PendingSet id k; Reject id k (Error "MCP process not available")]).
Proof. intros [Hp|Hp]; unfold call, sendToMCP; rewrite Hp; reflexivity. Qed.

(** The timer of a request that is still pending removes the entry and
    rejects the caller with the timer's message. *)
Lemma simple_timeout_rejects n k d expired b :
  exited b = false ->
  timeouts b !! n = Some (d, expired) ->
  pendingRequests b !! n = Some {| awaiting := k; alreadyResolved := false |} ->
  exists b',
    handle (EvTimeout n) b = Some (b', [Reject n k (Error expired)])
    /\ pendingRequests b' = delete n (pendingRequests b)
    /\ timeouts b' = delete n (timeouts b).
Proof.
  intros He Ht Hk. unfold handle, onTimeout. rewrite He, Ht.
  cbn [pendingRequests set_timeouts]. rewrite Hk.
  eexists. split; [reflexivity|]. split; reflexivity.
Qed.

Lemma simple_late_response line response n b :
  JSON_parse line = Some response ->
  field "id" (Some response) = Some (JNum n) ->
  pendingRequests b !! n = None ->
  onLine line b = (b, []).
Proof.
  intros Hp Hid Hk. unfold onLine.
  destruct (String.eqb (trim line) ""); [reflexivity|]. rewrite Hp.
  rewrite simple_handleMCPResponse_unmatched; [reflexivity| |].
  - destruct response; try reflexivity. discriminate.
  - intros m Hm. rewrite Hid in Hm. injection Hm as <-. exact Hk.
Qed.

Lemma simple_resume_pending k o b :
  pendingRequests (resume k o b).1 = pendingRequests b
  /\ timeouts (resume k o b).1 = timeouts b.
Proof. destruct k, o; split; reflexivity. Qed.

(** The whole turn of a timer that finds its request pending: the entry
    is removed, the caller is rejected with the timer's message and nobody
    else is settled; a response with that id that comes later is
    discarded. *)
Lemma simple_timeout_turn n k d expired b :
  exited b = false ->
  timeouts b !! n = Some (d, expired) ->
  pendingRequests b !! n = Some {| awaiting := k; alreadyResolved := false |} ->
  exists b' e,
    turn (EvTimeout n) b = Some (b', Reject n k (Error expired) :: e)
    /\ pendingRequests b' = delete n (pendingRequests b)
    /\ timeouts b' = delete n (timeouts b)
    /\ omap settled e = []
    /\ (forall line response,
          JSON_parse line = Some response ->
          field "id" (Some response) = Some (JNum n) ->
          onLine line b' = (b', [])).
Proof.
  intros He Ht Hk.
  destruct (simple_timeout_rejects n k d expired b He Ht Hk) as (b1 & Hh & Hp & Htm).
  unfold turn. rewrite Hh. cbn [omap list_omap settled]. unfold runJobs. cbn [for_each fst snd].
  pose proof (simple_resume_pending k (Rejected (Error expired)) b1) as [Hp2 Ht2].
  pose proof (simple_resume_quiet k (Rejected (Error expired)) b1) as Hq.
  destruct (resume k (Rejected (Error expired)) b1) as [b2 e2].
  cbn [fst snd] in *. exists b2, (e2 ++ []).
  split; [reflexivity|]. split; [congruence|]. split; [congruence|].
  split; [rewrite app_nil_r; exact Hq|].
  intros line response Hparse Hid. eapply simple_late_response; eauto.
  rewrite Hp2, Hp. apply lookup_delete_eq.
Qed.

(** A proxied call and the handshake while the child can be written to. *)
Lemma simple_proxyToMCP_arms method params k b :
  isInitialized b = true ->
  mcpProcess b = Some {| stdin_writable := true |} ->
  pendingRequests (proxyToMCP method params k b).1 !! requestId b
  = Some {| awaiting := k; alreadyResolved := false |}
  /\ timeouts (proxyToMCP method params k b).1 !! requestId b
     = Some (30000, "MCP request timeout").
Proof.
  intros Hi Hp. unfold proxyToMCP. rewrite Hi. cbn [negb].
  rewrite call_arms by exact Hp. cbn. rewrite !lookup_insert_eq. auto.
Qed.

Lemma initializeMCP_arms k b :
  mcpProcess b = Some {| stdin_writable := true |} ->
  pendingRequests (initializeMCP k b).1 !! requestId b
  = Some {| awaiting := k; alreadyResolved := false |}
  /\ timeouts (initializeMCP k b).1 !! requestId b
     = Some (10000, "MCP initialization timeout").
Proof.
  intros Hp. unfold initializeMCP.
  rewrite call_arms by exact Hp. cbn. rewrite !lookup_insert_eq. auto.
Qed.

(** A proxied call while the child cannot be written to: the caller is
    rejected at once with the error of the write and no timer is armed. *)
Lemma proxyToMCP_unavailable method params k b :
  isInitialized b = true ->
  mcpProcess b = None \/ mcpProcess b = Some {| stdin_writable := false |} ->
  (proxyToMCP method params k b).2
  = [PendingSet (requestId b) k;
     Reject (requestId b) k (Error "MCP process not available")]
  /\ timeouts (proxyToMCP method params k b).1 = timeouts b.
Proof.
  intros Hi Hp. unfold proxyToMCP. rewrite Hi. cbn [negb].
  rewrite call_unavailable by exact Hp. split; reflexivity.
Qed.

(** *** The gateway *)

(** A POST on [/mcp] while the bridge is initialized but the child is
    absent or its stdin is not writable: the call is registered, its write
    throws, and this caller alone is answered, 500 with code -32603 and
    the message of the error. *)
Lemma post_unavailable req res b request :
  String.eqb (method req) "POST" = true ->
  route ["health"; "mcp"; "sse"; "capabilities"] (pathname req) = "/mcp" ->
  JSON_parse (body req) = Some request ->
  nullish (Some request) = false ->
  isInitialized b = true -> listening b = true -> exited b = false ->
  mcpProcess b = None \/ mcpProcess b = Some {| stdin_writable := false |} ->
  turn (EvRequest req res) b =
  Some (set_pendingRequests
          (<[requestId b := {| awaiting := AwaitMCP request res; alreadyResolved := true |}]>
             (pendingRequests b))
          (set_requestId (requestId b + 1) b),
        cors res
        ++ [PendingSet (requestId b) (AwaitMCP request res);
            Reject (requestId b) (AwaitMCP request res) (Error "MCP process not available")]
        ++ internal_error res "MCP process not available").
Proof.
  intros Hmeth Hroute Hparse Hnull Hinit Hlisten Hexit Hproc.
  unfold turn, handle, onRequest, handleHTTPRequest, handleMCP, proxyToMCP.
  rewrite Hexit, Hlisten, Hroute, Hmeth, Hparse, Hnull, Hinit.
  apply String.eqb_eq in Hmeth. rewrite Hmeth.
  change (String.eqb "POST" "OPTIONS") with false.
  change (String.eqb "/mcp" "/health") with false.
  change (String.eqb "/mcp" "/mcp") with true. cbn [negb].
  rewrite call_unavailable by exact Hproc. reflexivity.
Qed.

(** The streaming endpoint does not look at the Accept header. *)
Lemma handleSSE_opens req res b :
  String.eqb (method req) "OPTIONS" = false ->
  route ["health"; "mcp"; "sse"; "capabilities"] (pathname req) = "/sse" ->
  onRequest req res b = ((handleSSE res b).1, cors res ++ (handleSSE res b).2)
  /\ statuses (handleSSE res b).2 = [(res, 200)]
  /\ intervals (handleSSE res b).1 = intervals b ++ [res].
Proof.
  intros Hmeth Hroute. unfold onRequest, handleHTTPRequest. rewrite Hmeth, Hroute.
  split; [reflexivity|]. unfold handleSSE. cbn [fst snd intervals set_intervals].
  destruct (isInitialized b && truthy (mcpCapabilities b)); split; reflexivity.
Qed.

End WithPlatform.
End SimpleFacts.

(** * The claims *)

Section Claims.
Context `{Platform}.

(** C7. Request identifiers are allocated from a counter that starts at 1
    and grows by one with every registration: along every run of either
    bridge from its start, the ids registered so far are exactly
    1, 2, ..., [requestId - 1] in this order (so none is used twice), every
    id in the pending map is one of them, and the ids in the pending map
    are pairwise distinct. *)
Theorem request_ids_are_sequential :
  (Compliant.requestId Compliant.constructor = 1
   /\ forall evs b e,
        Compliant.run evs Compliant.start.1 = Some (b, e) ->
        registered (Compliant.start.2 ++ e) = seqZ 1 (Compliant.requestId b - 1)
        /\ NoDup (registered (Compliant.start.2 ++ e))
        /\ (forall n, is_Some (Compliant.pendingRequests b !! n) ->
                      1 <= n < Compliant.requestId b)
        /\ NoDup (map_to_list (Compliant.pendingRequests b)).*1)
  /\ (Simple.requestId Simple.constructor = 1
      /\ forall evs b e,
           Simple.run evs Simple.start.1 = Some (b, e) ->
           registered (Simple.start.2 ++ e) = seqZ 1 (Simple.requestId b - 1)
           /\ NoDup (registered (Simple.start.2 ++ e))
           /\ (forall n, is_Some (Simple.pendingRequests b !! n) ->
                         1 <= n < Simple.requestId b)
           /\ NoDup (map_to_list (Simple.pendingRequests b)).*1).
Proof.
  split; (split; [reflexivity|]); intros evs b e Hrun.
  - destruct (CompliantFacts.run_registered evs b e Hrun) as [Hr Hp].
    split; [exact Hr|]. split; [rewrite Hr; apply NoDup_seqZ|].
    split; [exact Hp|]. apply NoDup_fst_map_to_list.
  - destruct (SimpleFacts.simple_run_registered evs b e Hrun) as [Hr Hp].
    split; [exact Hr|]. split; [rewrite Hr; apply NoDup_seqZ|].
    split; [exact Hp|]. apply NoDup_fst_map_to_list.
Qed.



(** C4 (amended). When the child exits, the exit handler of either bridge
    drops the process handle and sets readiness to false; it leaves the
    stored capabilities as they are, leaves every pending entry and every
    armed timer untouched and settles no promise; and no later event
    brings a child process back. *)
Theorem child_exit_frame :
  (forall b,
     Compliant.exited b = false -> is_Some (Compliant.mcpProcess b) ->
     exists b' e,
       Compliant.turn Compliant.EvExit b = Some (b', e)
       /\ Compliant.mcpProcess b' = None
       /\ Compliant.isInitialized b' = false
       /\ Compliant.mcpCapabilities b' = Compliant.mcpCapabilities b
       /\ Compliant.pendingRequests b' = Compliant.pendingRequests b
       /\ Compliant.timeouts b' = Compliant.timeouts b
       /\ omap settled e = [])
  /\ (forall evs b b' e,
        Compliant.run evs b = Some (b', e) ->
        Compliant.mcpProcess b = None -> Compliant.mcpProcess b' = None)
  /\ (forall b,
        Simple.exited b = false -> is_Some (Simple.mcpProcess b) ->
        exists b' e,
          Simple.turn Simple.EvExit b = Some (b', e)
          /\ Simple.mcpProcess b' = None
          /\ Simple.isInitialized b' = false
          /\ Simple.mcpCapabilities b' = Simple.mcpCapabilities b
          /\ Simple.pendingRequests b' = Simple.pendingRequests b
          /\ Simple.timeouts b' = Simple.timeouts b
          /\ omap settled e = [])
  /\ (forall evs b b' e,
        Simple.run evs b = Some (b', e) ->
        Simple.mcpProcess b = None -> Simple.mcpProcess b' = None).
Proof.
  split; [|split; [|split]].
  - intros b He Hp. exists (Compliant.onExit b).1, (Compliant.onExit b).2.
    split; [rewrite CompliantFacts.turn_exit by assumption; reflexivity|].
    apply CompliantFacts.onExit_frame.
  - apply CompliantFacts.run_no_process.
  - intros b He Hp. exists (Simple.onExit b).1, (Simple.onExit b).2.
    split; [rewrite SimpleFacts.simple_turn_exit by assumption; reflexivity|].
    apply SimpleFacts.simple_onExit_frame.
  - apply SimpleFacts.simple_run_no_process.
Qed.

(** C2 (amended). For every call for which a timer is armed -- every
    proxied call of the compliant bridge (30 000 ms), and in the simple
    bridge every proxied call (30 000 ms) and the handshake (10 000 ms)
    whose write to the child succeeds -- when the timer fires and the
    request is still pending, the entry is removed from the pending map and
    the caller, and nobody else, is rejected with the timeout error; a
    child response with that id that arrives afterwards is discarded with
    no effect.  In the simple bridge a call whose write to the child fails
    is rejected at once with the error of the write and arms no timer. *)
Theorem armed_call_times_out :
  ((forall method params k b,
      Compliant.pendingRequests (Compliant.proxyToMCP method params k b).1
        !! Compliant.requestId b = Some k
      /\ Compliant.timeouts (Compliant.proxyToMCP method params k b).1
           !! Compliant.requestId b = Some 30000)
   /\ (forall n k d b,
         Compliant.exited b = false ->
         Compliant.timeouts b !! n = Some d ->
         Compliant.pendingRequests b !! n = Some k ->
         exists b' e,
           Compliant.turn (Compliant.EvTimeout n) b
           = Some (b', Reject n k (Error "Request timeout") :: e)
           /\ Compliant.pendingRequests b' = delete n (Compliant.pendingRequests b)
           /\ Compliant.timeouts b' = delete n (Compliant.timeouts b)
           /\ omap settled e = []
           /\ (forall line response,
                 JSON_parse line = Some response ->
                 field "id" (Some response) = Some (JNum n) ->
                 Compliant.onLine line b' = (b', []))))
  /\ ((forall method params k b,
         Simple.isInitialized b = true ->
         Simple.mcpProcess b = Some {| stdin_writable := true |} ->
         Simple.pendingRequests (Simple.proxyToMCP method params k b).1
           !! Simple.requestId b
         = Some {| Simple.awaiting := k; Simple.alreadyResolved := false |}
         /\ Simple.timeouts (Simple.proxyToMCP method params k b).1
              !! Simple.requestId b = Some (30000, "MCP request timeout"))
      /\ (forall k b,
            Simple.mcpProcess b = Some {| stdin_writable := true |} ->
            Simple.pendingRequests (Simple.initializeMCP k b).1 !! Simple.requestId b
            = Some {| Simple.awaiting := k; Simple.alreadyResolved := false |}
            /\ Simple.timeouts (Simple.initializeMCP k b).1 !! Simple.requestId b
               = Some (10000, "MCP initialization timeout"))
      /\ (forall n k d expired b,
            Simple.exited b = false ->
            Simple.timeouts b !! n = Some (d, expired) ->
            Simple.pendingRequests b !! n
            = Some {| Simple.awaiting := k; Simple.alreadyResolved := false |} ->
            exists b' e,
              Simple.turn (Simple.EvTimeout n) b
              = Some (b', Reject n k (Error expired) :: e)
              /\ Simple.pendingRequests b' = delete n (Simple.pendingRequests b)
              /\ Simple.timeouts b' = delete n (Simple.timeouts b)
              /\ omap settled e = []
              /\ (forall line response,
                    JSON_parse line = Some response ->
                    field "id" (Some response) = Some (JNum n) ->
                    Simple.onLine line b' = (b', [])))
      /\ (forall method params k b,
            Simple.isInitialized b = true ->
            Simple.mcpProcess b = None
            \/ Simple.mcpProcess b = Some {| stdin_writable := false |} ->
            (Simple.proxyToMCP method params k b).2
            = [PendingSet (Simple.requestId b) k;
               Reject (Simple.requestId b) k (Error "MCP process not available")]
            /\ Simple.timeouts (Simple.proxyToMCP method params k b).1
               = Simple.timeouts b)).
Proof.
  split; [split|split; [|split; [|split]]].
  - intros method params k b.
    destruct (CompliantFacts.proxyToMCP_arms method params k b) as (? & ? & _). auto.
  - apply CompliantFacts.timeout_turn.
  - apply SimpleFacts.simple_proxyToMCP_arms.
  - apply SimpleFacts.initializeMCP_arms.
  - apply SimpleFacts.simple_timeout_turn.
  - apply SimpleFacts.proxyToMCP_unavailable.
Qed.

(** C5 (amended). In the simple bridge a write attempted while the child
    is absent or its stdin is not writable throws [MCP process not
    available]: a POST on [/mcp] in that state registers its call, the
    write throws, and the caller of this call, and nobody else, is rejected
    and answered 500 with JSON-RPC code -32603 and that message.  In the
    compliant bridge the write is not performed and the message is logged,
    nothing is thrown and the failed write settles nobody: the call stays
    pending with its timer armed. *)
Theorem unavailable_child_write :
  (forall req res b request,
     String.eqb (method req) "POST" = true ->
     route ["health"; "mcp"; "sse"; "capabilities"] (pathname req) = "/mcp" ->
     JSON_parse (body req) = Some request ->
     nullish (Some request) = false ->
     Simple.isInitialized b = true ->
     Simple.listening b = true ->
     Simple.exited b = false ->
     Simple.mcpProcess b = None
     \/ Simple.mcpProcess b = Some {| stdin_writable := false |} ->
     exists b',
       Simple.turn (Simple.EvRequest req res) b =
       Some (b',
             Simple.cors res
             ++ [PendingSet (Simple.requestId b) (Simple.AwaitMCP request res);
                 Reject (Simple.requestId b) (Simple.AwaitMCP request res)
                   (Error "MCP process not available")]
             ++ respond res 500
                  (jsonrpc_error (Some JNull) (-32603) "MCP process not available"))
       /\ (forall n, n <> Simple.requestId b ->
                     Simple.pendingRequests b' !! n = Simple.pendingRequests b !! n))
  /\ (forall method params k b,
        Compliant.mcpProcess b = None
        \/ Compliant.mcpProcess b = Some {| stdin_writable := false |} ->
        (Compliant.proxyToMCP method params k b).2
        = [PendingSet (Compliant.requestId b) k;
           ConsoleError "MCP process not available" ""]
        /\ Compliant.pendingRequests (Compliant.proxyToMCP method params k b).1
             !! Compliant.requestId b = Some k
        /\ Compliant.timeouts (Compliant.proxyToMCP method params k b).1
             !! Compliant.requestId b = Some 30000).
Proof.
  split.
  - intros req res b request Hm Hr Hp Hn Hi Hl He Hproc.
    eexists. split.
    + apply SimpleFacts.post_unavailable; assumption.
    + intros n Hne. cbn. apply lookup_insert_ne. congruence.
  - intros method params k b Hproc.
    destruct (CompliantFacts.proxyToMCP_arms method params k b) as (Hk & Ht & _).
    split; [|split; assumption].
    unfold Compliant.proxyToMCP. cbn [snd].
    rewrite CompliantFacts.sendToMCP_unavailable by exact Hproc. reflexivity.
Qed.

(** C6 (amended). In the compliant bridge every GET that passes the
    origin and protocol-version checks and is routed to [/mcp], and whose
    Accept header is absent or does not contain [text/event-stream], is
    answered 400 and leaves the bridge as it was: no connection entry, no
    keep-alive interval, nothing else written to the response. *)
Theorem streaming_get_needs_event_stream req res b :
  Compliant.to_mcp "GET" req = true ->
  (forall a, accept req = Some a -> includes "text/event-stream" a = false) ->
  Compliant.listening b = true ->
  Compliant.exited b = false ->
  Compliant.turn (Compliant.EvRequest req res) b =
  Some (b, Compliant.cors req res
           ++ respond res 400 (error_body "Accept header must include text/event-stream")).
Proof.
  intros Hto Hacc Hl He. unfold Compliant.turn, Compliant.handle. rewrite He, Hl.
  rewrite CompliantFacts.get_without_event_stream by assumption.
  unfold Compliant.cors, respond, Compliant.runJobs. cbn [app omap list_omap settled for_each].
  reflexivity.
Qed.


(** C9 (amended). In the compliant bridge a POST on [/mcp] that passes
    the header checks, whose body parses to a message other than [null],
    whose method is not [initialize], whose session header is absent or
    known, and whose [id] is falsy (absent, [null], [false], [0], the
    empty string) is handled as a notification: the message is forwarded
    to the child as it is when its method is truthy, the answer is 202
    with no body, and the bridge is unchanged, so no id is allocated and
    no entry becomes pending.  Symmetrically a child response whose [id]
    is falsy settles nobody and changes nothing. *)
Theorem falsy_id_is_a_notification :
  (forall req res b message,
     Compliant.listening b = true ->
     Compliant.exited b = false ->
     Compliant.to_mcp "POST" req = true ->
     Compliant.validateAcceptHeader (accept req)
       ["application/json"; "text/event-stream"] = true ->
     JSON_parse (body req) = Some message ->
     nullish (Some message) = false ->
     field "method" (Some message) <> Some (JStr "initialize") ->
     Compliant.unknown_session (mcp_session_id req) b = false ->
     truthy (field "id" (Some message)) = false ->
     Compliant.turn (Compliant.EvRequest req res) b =
     Some (b, Compliant.cors req res
              ++ (if truthy (field "method" (Some message))
                  then Compliant.sendToMCP message b else [])
              ++ [WriteHead res 202 []; End_ res None]))
  /\ (forall line response b,
        JSON_parse line = Some response ->
        truthy (field "id" (Some response)) = false ->
        (Compliant.onLine line b).1 = b
        /\ omap settled (Compliant.onLine line b).2 = []).
Proof.
  split.
  - intros req res b message Hl He Hto Hacc Hp Hn Hm Hs Hid.
    rewrite CompliantFacts.turn_request by assumption.
    rewrite (CompliantFacts.post_notification req res b message) by assumption.
    reflexivity.
  - apply CompliantFacts.falsy_id_response.
Qed.

(** X26. In the compliant bridge the session check does not apply to
    [initialize]: a POST on [/mcp] that passes the header checks and whose
    method is [initialize] is proxied whatever its [Mcp-Session-Id] header
    says, known, unknown or absent -- the call is registered under the next
    request id, awaited by this exchange, the request is written to the
    child under that id when the child is writable (and the failure logged
    when it is not), and nothing is answered yet, in particular no 404.
    When the call is fulfilled and the message has params, a session is
    stored under a newly generated id and the answer is 200 with that id in
    the [Mcp-Session-Id] header and the result in the body. *)
Theorem initialize_skips_session_check req res b message :
  Compliant.listening b = true ->
  Compliant.exited b = false ->
  Compliant.to_mcp "POST" req = true ->
  Compliant.validateAcceptHeader (accept req)
    ["application/json"; "text/event-stream"] = true ->
  JSON_parse (body req) = Some message ->
  field "method" (Some message) = Some (JStr "initialize") ->
  (exists b',
     Compliant.turn (Compliant.EvRequest req res) b =
     Some (b', Compliant.cors req res
               ++ [PendingSet (Compliant.requestId b)
                     (Compliant.AwaitInitialize message res);
                   match Compliant.mcpProcess b with
                   | Some {| stdin_writable := true |} =>
                       StdinWrite
                         (jsonrpc_request (Compliant.requestId b)
                            (Some (JStr "initialize")) (field "params" (Some message)))
                   | _ => ConsoleError "MCP process not available" ""
                   end])
     /\ Compliant.pendingRequests b' !! Compliant.requestId b
        = Some (Compliant.AwaitInitialize message res)
     /\ Compliant.sessions b' = Compliant.sessions b)
  /\ (forall result b1,
        nullish (field "params" (Some message)) = false ->
        Compliant.resume (Compliant.AwaitInitialize message res) (Fulfilled result) b1 =
        (Compliant.set_sessions
           (<[randomUUID (Compliant.uuids b1) :=
                {| Compliant.clientInfo :=
                     field "clientInfo" (field "params" (Some message)) |}]>
              (Compliant.sessions b1))
           (Compliant.set_uuids (S (Compliant.uuids b1)) b1),
         [WriteHead res 200
            (json_headers ++ [("Mcp-Session-Id", randomUUID (Compliant.uuids b1))]);
          End_ res (Some (Json (jsonrpc_result (field "id" (Some message)) result)))])).
Proof.
  intros Hl He Hto Hacc Hp Hm. split.
  - rewrite CompliantFacts.turn_request by assumption.
    rewrite (CompliantFacts.post_initialize req res b message) by assumption.
    exists (Compliant.proxyToMCP (Some (JStr "initialize")) (field "params" (Some message))
              (Compliant.AwaitInitialize message res) b).1.
    split; [|cbn; rewrite lookup_insert_eq; split; reflexivity].
    unfold Compliant.proxyToMCP, Compliant.sendToMCP. cbn [fst snd].
    change (Compliant.mcpProcess (Compliant.set_pendingRequests _ _))
      with (Compliant.mcpProcess b).
    destruct (Compliant.mcpProcess b) as [[[]]|]; reflexivity.
  - intros result b1 Hn. cbn [Compliant.resume]. rewrite Hn. reflexivity.
Qed.

End Claims.

(** * The claims on the example platform *)

Module Examples.
Import Sample Scenario.

Example parse_response :
  parse ("{" +:+ kv "jsonrpc" (str "2.0") +:+ "," +:+ kv "id" "7" +:+ ","
         +:+ kv "result" ("{" +:+ kv "tools" "[]" +:+ "}") +:+ "}")
  = Some (JObj [("jsonrpc", JStr "2.0"); ("id", JNum 7);
                ("result", JObj [("tools", JArr [])])]).
Proof. reflexivity. Qed.

Example parse_rejects : parse "{oops" = None /\ parse " " = None /\ parse "1 2" = None.
Proof. repeat split; reflexivity. Qed.

Example parse_atoms :
  parse " -12 " = Some (JNum (-12)) /\ parse "null" = Some JNull
  /\ parse "[true, false]" = Some (JArr [JBool true; JBool false])
  /\ parse "01" = None /\ parse "1.5" = None.
Proof. repeat split; reflexivity. Qed.

Example show_numbers : show 0 = "0" /\ show 120 = "120" /\ show (-7) = "-7".
Proof. repeat split; reflexivity. Qed.

Lemma request_ids_witness :
  registered (Compliant.start.2
              ++ (default (Compliant.constructor, [])
                    (Compliant.run two_in_flight Compliant.start.1)).2) = [1; 2; 3]
  /\ Compliant.pendingRequests compliant_busy !! 2
     = Some (Compliant.AwaitPost list5 1%nat)
  /\ Compliant.pendingRequests compliant_busy !! 3
     = Some (Compliant.AwaitPost list6 2%nat).
Proof.
  destruct (proj2 (proj1 request_ids_are_sequential) two_in_flight compliant_busy
              (default (Compliant.constructor, [])
                 (Compliant.run two_in_flight Compliant.start.1)).2)
    as (Hr & _ & _ & _).
  - vm_compute. reflexivity.
  - split; [rewrite Hr|split]; vm_compute; reflexivity.
Defined.




(** C4 as stated fails: the capabilities learned at the handshake are
    still stored after the child has exited. *)
Lemma exit_keeps_capabilities :
  Compliant.mcpCapabilities exit_after_handshake = Some init_result
  /\ Compliant.isInitialized exit_after_handshake = false
  /\ Compliant.mcpProcess exit_after_handshake = None
  /\ Simple.mcpCapabilities simple_exit_after_handshake = Some init_result
  /\ Simple.isInitialized simple_exit_after_handshake = false.
Proof. repeat split; vm_compute; reflexivity. Qed.

Lemma child_exit_witness :
  exists b' e,
    Compliant.turn Compliant.EvExit compliant_busy = Some (b', e)
    /\ Compliant.mcpProcess b' = None
    /\ Compliant.isInitialized b' = false
    /\ Compliant.mcpCapabilities b' = Some init_result
    /\ Compliant.pendingRequests b' = Compliant.pendingRequests compliant_busy
    /\ Compliant.timeouts b' = Compliant.timeouts compliant_busy
    /\ omap settled e = [].
Proof.
  apply (proj1 child_exit_frame compliant_busy).
  - reflexivity.
  - vm_compute. eexists. reflexivity.
Defined.

Lemma armed_call_witness :
  exists b' e,
    Compliant.turn (Compliant.EvTimeout 2) compliant_busy
    = Some (b', Reject 2 (Compliant.AwaitPost list5 1%nat) (Error "Request timeout") :: e)
    /\ Compliant.pendingRequests b' = delete 2 (Compliant.pendingRequests compliant_busy)
    /\ Compliant.timeouts b' = delete 2 (Compliant.timeouts compliant_busy)
    /\ omap settled e = []
    /\ (forall line response,
          JSON_parse line = Some response ->
          field "id" (Some response) = Some (JNum 2) ->
          Compliant.onLine line b' = (b', [])).
Proof.
  apply (proj2 (proj1 armed_call_times_out) 2 (Compliant.AwaitPost list5 1%nat) 30000
           compliant_busy); vm_compute; reflexivity.
Defined.

(** What the timed-out caller of the compliant bridge is answered. *)
Example timeout_reply :
  (default (Compliant.constructor, [])
     (Compliant.turn (Compliant.EvTimeout 2) compliant_busy)).2
  = [Reject 2 (Compliant.AwaitPost list5 1%nat) (Error "Request timeout");
     ConsoleError "MCP POST error:" "Request timeout";
     WriteHead 1%nat 400 json_headers;
     End_ 1%nat (Some (Json (jsonrpc_error (Some JNull) (-32700) "Parse error")))].
Proof. vm_compute. reflexivity. Qed.

(** C2 as stated fails on a call of the simple bridge whose write fails:
    the caller is rejected with the error of the write, not with a timeout
    error; no timer is armed for the request, so none can fire; and the
    entry is still in the pending map. *)
Lemma failed_write_is_not_a_timeout :
  (default (Simple.constructor, [])
     (Simple.turn (Simple.EvRequest simple_post 1%nat) simple_unwritable)).2
  = Simple.cors 1%nat
    ++ [PendingSet 2 (Simple.AwaitMCP list5 1%nat);
        Reject 2 (Simple.AwaitMCP list5 1%nat) (Error "MCP process not available")]
    ++ Simple.internal_error 1%nat "MCP process not available"
  /\ Simple.timeouts simple_failed !! 2 = None
  /\ Simple.handle (Simple.EvTimeout 2) simple_failed = None
  /\ Simple.pendingRequests simple_failed !! 2
     = Some {| Simple.awaiting := Simple.AwaitMCP list5 1%nat;
               Simple.alreadyResolved := true |}.
Proof. repeat split; vm_compute; reflexivity. Qed.

(** The handshake of the compliant bridge is registered without a timer. *)
Example compliant_handshake_has_no_timer :
  Compliant.pendingRequests Compliant.start.1 !! 1 = Some Compliant.AwaitStart
  /\ Compliant.timeouts Compliant.start.1 = ∅
  /\ Compliant.handle (Compliant.EvTimeout 1) Compliant.start.1 = None.
Proof. repeat split; vm_compute; reflexivity. Qed.

Lemma unavailable_write_witness :
  exists b',
    Simple.turn (Simple.EvRequest simple_post 1%nat) simple_unwritable =
    Some (b',
          Simple.cors 1%nat
          ++ [PendingSet 2 (Simple.AwaitMCP list5 1%nat);
              Reject 2 (Simple.AwaitMCP list5 1%nat) (Error "MCP process not available")]
          ++ respond 1%nat 500
               (jsonrpc_error (Some JNull) (-32603) "MCP process not available"))
    /\ (forall n, n <> 2 ->
                  Simple.pendingRequests b' !! n
                  = Simple.pendingRequests simple_unwritable !! n).
Proof.
  apply (proj1 unavailable_child_write simple_post 1%nat simple_unwritable list5);
    try reflexivity.
  left. reflexivity.
Defined.

(** C5 as stated fails in the compliant bridge: after the child has
    exited, a proxied request is registered, the write is dropped with a
    log line, nothing is thrown and nothing is answered; when the timer
    fires, the caller is answered 400 with code -32700, not an internal
    error. *)
Lemma compliant_write_is_dropped :
  Compliant.mcpProcess exit_after_handshake = None
  /\ (default (Compliant.constructor, [])
        (Compliant.turn (Compliant.EvRequest list_tools 1%nat) exit_after_handshake)).2
     = Compliant.cors list_tools 1%nat
       ++ [PendingSet 2 (Compliant.AwaitPost list5 1%nat);
           ConsoleError "MCP process not available" ""]
  /\ statuses
       (default (Compliant.constructor, [])
          (Compliant.run [Compliant.EvRequest list_tools 1%nat; Compliant.EvTimeout 2]
             exit_after_handshake)).2
     = [(1%nat, 400)]
  /\ (default (Compliant.constructor, [])
        (Compliant.run [Compliant.EvRequest list_tools 1%nat; Compliant.EvTimeout 2]
           exit_after_handshake)).2
     !! 8%nat
     = Some (End_ 1%nat (Some (Json (jsonrpc_error (Some JNull) (-32700) "Parse error")))).
Proof. repeat split; vm_compute; reflexivity. Qed.

Lemma streaming_get_witness :
  Compliant.turn (Compliant.EvRequest get_json_only 3%nat) compliant_busy =
  Some (compliant_busy,
        Compliant.cors get_json_only 3%nat
        ++ respond 3%nat 400 (error_body "Accept header must include text/event-stream")).
Proof.
  apply streaming_get_needs_event_stream; try reflexivity.
  intros a [= <-]. reflexivity.
Defined.

(** C6 as stated fails: a GET on [/sse] without an Accept header is
    answered 200 by the simple bridge, which starts the stream and its
    ping interval, and 404 by the compliant bridge, which has no such
    route. *)
Lemma sse_ignores_accept :
  (default (Simple.constructor, [])
     (Simple.turn (Simple.EvRequest get_sse 1%nat) simple_ready)).2
  = Simple.cors 1%nat
    ++ [WriteHead 1%nat 200
          [("Content-Type", "text/event-stream"); ("Cache-Control", "no-cache");
           ("Connection", "keep-alive")];
        Write 1%nat (SseData (JObj [("type", JStr "capabilities");
                                    ("data", init_result)]))]
  /\ Simple.intervals
       (state_after Simple.constructor
          (Simple.turn (Simple.EvRequest get_sse 1%nat) simple_ready)) = [1%nat]
  /\ statuses
       (default (Compliant.constructor, [])
          (Compliant.turn (Compliant.EvRequest get_sse 3%nat) compliant_busy)).2
     = [(3%nat, 404)].
Proof. repeat split; vm_compute; reflexivity. Qed.

Example handshake_creates_session :
  Compliant.sessions with_session !! session0
  = Some {| Compliant.clientInfo := None |}
  /\ Compliant.uuids with_session = 1%nat.
Proof. split; vm_compute; reflexivity. Qed.


(** DELETE without a session id, then twice with the id of the session. *)
Example delete_twice :
  statuses
    (default (Compliant.constructor, [])
       (Compliant.run
          [Compliant.EvRequest (delete_mcp None) 2%nat;
           Compliant.EvRequest (delete_mcp (Some session0)) 3%nat;
           Compliant.EvRequest (delete_mcp (Some session0)) 4%nat]
          with_session)).2
  = [(2%nat, 400); (3%nat, 200); (4%nat, 404)].
Proof. vm_compute. reflexivity. Qed.

Lemma falsy_id_witness :
  Compliant.turn (Compliant.EvRequest notify 3%nat) compliant_busy =
  Some (compliant_busy,
        Compliant.cors notify 3%nat
        ++ [StdinWrite notification]
        ++ [WriteHead 3%nat 202 []; End_ 3%nat None]).
Proof.
  apply (proj1 falsy_id_is_a_notification notify 3%nat compliant_busy notification);
    try reflexivity.
  discriminate.
Defined.

(** C9 as stated fails on an [initialize] message: with [id] 0 it is
    still proxied as a request, a new id is allocated and an entry becomes
    pending, and nothing is answered in this turn. *)
Lemma initialize_with_falsy_id_is_proxied :
  truthy (field "id" (Some initialize0_message)) = false
  /\ (default (Compliant.constructor, [])
        (Compliant.turn (Compliant.EvRequest initialize0 3%nat) compliant_busy)).2
     = Compliant.cors initialize0 3%nat
       ++ [PendingSet 4 (Compliant.AwaitInitialize initialize0_message 3%nat);
           StdinWrite (jsonrpc_request 4 (Some (JStr "initialize")) (Some (JObj [])))]
  /\ Compliant.pendingRequests
       (state_after Compliant.constructor
          (Compliant.turn (Compliant.EvRequest initialize0 3%nat) compliant_busy)) !! 4
     = Some (Compliant.AwaitInitialize initialize0_message 3%nat).
Proof. repeat split; vm_compute; reflexivity. Qed.

Lemma initialize_witness :
  Compliant.unknown_session (Some "bogus") compliant_busy = true
  /\ exists b',
       Compliant.turn (Compliant.EvRequest initialize_bogus 3%nat) compliant_busy =
       Some (b', Compliant.cors initialize_bogus 3%nat
                 ++ [PendingSet 4 (Compliant.AwaitInitialize initialize_message 3%nat);
                     StdinWrite
                       (jsonrpc_request 4 (Some (JStr "initialize")) (Some (JObj [])))])
       /\ Compliant.pendingRequests b' !! 4
          = Some (Compliant.AwaitInitialize initialize_message 3%nat)
       /\ Compliant.sessions b' = Compliant.sessions compliant_busy.
Proof.
  split; [vm_compute; reflexivity|].
  refine (proj1 (initialize_skips_session_check initialize_bogus 3%nat compliant_busy
                   initialize_message _ _ _ _ _ _)); vm_compute; reflexivity.
Defined.

(** The same exchange to its end: the child answers under id 4, a session
    is created and its id is returned in the header. *)
Example initialize_with_unknown_session :
  (default (Compliant.constructor, [])
     (Compliant.run
        [Compliant.EvRequest initialize_bogus 3%nat;
         Compliant.EvStdout (initialized 4 +:+ nl)]
        compliant_busy)).2
  = Compliant.cors initialize_bogus 3%nat
    ++ [PendingSet 4 (Compliant.AwaitInitialize initialize_message 3%nat);
        StdinWrite (jsonrpc_request 4 (Some (JStr "initialize")) (Some (JObj [])));
        ConsoleLog "MCP server initialized successfully";
        Resolve 4 (Compliant.AwaitInitialize initialize_message 3%nat) (Some init_result);
        WriteHead 3%nat 200 (json_headers ++ [("Mcp-Session-Id", session0)]);
        End_ 3%nat (Some (Json (jsonrpc_result (Some (JNum 1)) (Some init_result))))].
Proof. vm_compute. reflexivity. Qed.

(** With a session header that is unknown, any other request is refused. *)
Example unknown_session_is_refused :
  statuses
    (default (Compliant.constructor, [])
       (Compliant.turn
          (Compliant.EvRequest (post (Some "bogus") (message "7" "tools/list")) 3%nat)
          compliant_busy)).2
  = [(3%nat, 404)].
Proof. vm_compute. reflexivity. Qed.

(** An [initialize] message without params: the call is proxied, and when
    it is fulfilled the handler fails on [message.params.clientInfo], no
    session is stored and the answer is 500. *)
Example initialize_without_params :
  Compliant.resume (Compliant.AwaitInitialize (JObj [("method", JStr "initialize")]) 3%nat)
    (Fulfilled (Some init_result)) compliant_busy
  = (Compliant.set_uuids 1 compliant_busy,
     respond 3%nat 500
       (jsonrpc_error None (-32603)
          "Cannot read properties of undefined (reading 'clientInfo')")).
Proof. vm_compute. reflexivity. Qed.

(** C10 (the code at the failing input). An [initialize] message without
    params is posted under the session id [bogus], which is not registered,
    while the child is writable.  The session check is skipped: the call is
    registered under id 4 and the request is written to the child, which
    answers with a result.  The handler then fails on
    [message.params.clientInfo]: the client is answered 500 with code
    -32603, with no [Mcp-Session-Id] header, and no session is stored,
    although the handshake with the child succeeded. *)
Theorem initialize_without_params_gets_no_session :
  Compliant.unknown_session (mcp_session_id initialize_bare) compliant_busy = true
  /\ Compliant.mcpProcess compliant_busy = Some {| stdin_writable := true |}
  /\ exists b',
       Compliant.run
         [Compliant.EvRequest initialize_bare 3%nat;
          Compliant.EvStdout (initialized 4 +:+ nl)]
         compliant_busy
       = Some (b',
               Compliant.cors initialize_bare 3%nat
               ++ [PendingSet 4 (Compliant.AwaitInitialize initialize_bare_message 3%nat);
                   StdinWrite (jsonrpc_request 4 (Some (JStr "initialize")) None);
                   ConsoleLog "MCP server initialized successfully";
                   Resolve 4 (Compliant.AwaitInitialize initialize_bare_message 3%nat)
                     (Some init_result);
                   WriteHead 3%nat 500 json_headers;
                   End_ 3%nat
                     (Some (Json (jsonrpc_error (Some (JNum 1)) (-32603)
                                    "Cannot read properties of undefined (reading 'clientInfo')")))])
       /\ Compliant.sessions b' = ∅.
Proof.
  split; [vm_compute; reflexivity|]. split; [vm_compute; reflexivity|].
  eexists. split; vm_compute; reflexivity.
Qed.

End Examples.

(** * Further properties *)

(** ** Routing, origins and the Accept header *)

Lemma cut_fst_no_sep sep s : mentions sep (cut sep s).1 = false.
Proof.
  induction s as [|c r IH]; [reflexivity|].
  cbn [cut]. destruct (cut sep r) as [h t]. cbn [fst] in IH.
  destruct (Ascii.eqb c sep) eqn:E; cbn [fst mentions]; [reflexivity|].
  rewrite E, IH. reflexivity.
Qed.

Lemma cut_snd_no_sep sep s : Forall (fun x => mentions sep x = false) (cut sep s).2.
Proof.
  induction s as [|c r IH]; [constructor|].
  cbn [cut]. pose proof (cut_fst_no_sep sep r) as Hf.
  destruct (cut sep r) as [h t]. cbn [fst snd] in *.
  destruct (Ascii.eqb c sep); cbn [snd]; [constructor; assumption|assumption].
Qed.

Lemma split_no_sep sep s : Forall (fun x => mentions sep x = false) (split sep s).
Proof.
  unfold split. pose proof (cut_fst_no_sep sep s). pose proof (cut_snd_no_sep sep s).
  destruct (cut sep s). constructor; assumption.
Qed.

Lemma cut_no_sep sep s : mentions sep s = false -> cut sep s = (s, []).
Proof.
  induction s as [|c r IH]; [reflexivity|].
  cbn [mentions cut]. intros [E M]%orb_false_elim.
  rewrite (IH M), E. reflexivity.
Qed.

Lemma cut_app sep a r :
  mentions sep a = false ->
  cut sep (a +:+ String sep r) = (a, split sep r).
Proof.
  induction a as [|c a IH]; intros M.
  - rewrite append_nil. cbn [cut]. unfold split. destruct (cut sep r).
    rewrite Ascii.eqb_refl. reflexivity.
  - cbn [mentions] in M. apply orb_false_elim in M as [E M].
    rewrite append_cons. cbn [cut]. rewrite (IH M), E. reflexivity.
Qed.

Lemma split_app sep a r :
  mentions sep a = false -> split sep (a +:+ String sep r) = a :: split sep r.
Proof. intros M. unfold split at 1. rewrite (cut_app _ _ _ M). reflexivity. Qed.

Lemma split_single sep a : mentions sep a = false -> split sep a = [a].
Proof. intros M. unfold split. rewrite (cut_no_sep _ _ M). reflexivity. Qed.

Lemma split_concat sep l :
  l <> [] -> Forall (fun x => mentions sep x = false) l ->
  split sep (String.concat (String sep "") l) = l.
Proof.
  induction l as [|x l IH]; [congruence|]. intros _ Hl.
  apply Forall_cons in Hl as [Hx Hl].
  destruct l as [|y l].
  - cbn. apply split_single; assumption.
  - change (String.concat (String sep "") (x :: y :: l))
      with (x +:+ String sep "" +:+ String.concat (String sep "") (y :: l)).
    rewrite append_cons, append_nil.
    rewrite split_app by assumption. f_equal. apply IH; [congruence|assumption].
Qed.

Lemma filter_segments l :
  Forall (fun s => segment s = true) l ->
  filter (fun p => negb (String.eqb p "")) l = l.
Proof.
  induction 1 as [|x l Hx _ IH]; [reflexivity|].
  rewrite filter_cons_True, IH; [reflexivity|].
  unfold segment in Hx. apply andb_prop in Hx as [Hx _].
  apply Is_true_true. exact Hx.
Qed.

Lemma segment_no_slash s : segment s = true -> mentions "/" s = false.
Proof. unfold segment. intros [_ H]%andb_prop. apply negb_true_iff in H. exact H. Qed.

Lemma route_segments known path segs :
  filter (fun p => negb (String.eqb p "")) (split "/" path) = segs ->
  route known path =
  if (2 <=? length segs)%nat && existsb (String.eqb (List.last segs "")) known
  then "/" +:+ List.last segs "" else path.
Proof.
  intros <-. unfold route.
  destruct (2 <=? _)%nat; [|reflexivity].
  cbn [andb]. reflexivity.
Qed.

Lemma route_short known path :
  (length (filter (fun p => negb (String.eqb p "")) (split "/" path)) < 2)%nat ->
  route known path = path.
Proof.
  intros Hl. rewrite (route_segments known path _ eq_refl).
  apply Nat.leb_gt in Hl. rewrite Hl. reflexivity.
Qed.

Lemma split_slash_segment s :
  segment s = true ->
  filter (fun p => negb (String.eqb p "")) (split "/" ("/" +:+ s)) = [s].
Proof.
  intros Hs.
  change ("/" +:+ s) with ("" +:+ String "/" s).
  rewrite split_app by reflexivity.
  rewrite split_single by (apply segment_no_slash; assumption).
  rewrite filter_cons_False by (intros Hf; exact Hf).
  rewrite filter_cons_True; [reflexivity|].
  unfold segment in Hs. apply andb_prop in Hs as [Hs _].
  apply Is_true_true. exact Hs.
Qed.

Lemma last_in {A : Type} (l : list A) d : l <> [] -> In (List.last l d) l.
Proof.
  induction l as [|x l IH]; [congruence|]. intros _.
  destruct l as [|y l]; [left; reflexivity|].
  right. apply IH. congruence.
Qed.

(** X1. Stripping the prefix of a path is idempotent: the path a request is
    routed by is a fixed point of the stripping, for every list of route
    names and every path. *)
Theorem route_idempotent known path :
  route known (route known path) = route known path.
Proof.
  pose proof (route_segments known path _ eq_refl) as Hr.
  set (segs := filter _ (split "/" path)) in Hr.
  destruct ((2 <=? length segs)%nat && _) eqn:E; rewrite Hr.
  - apply andb_prop in E as [El _]. apply Nat.leb_le in El.
    assert (Hin : In (List.last segs "") segs).
    { apply last_in. intros Heq. rewrite Heq in El. cbn in El. lia. }
    assert (Hseg : segment (List.last segs "") = true).
    { set (x := List.last segs "") in *. unfold segs in Hin. apply list_elem_of_In, list_elem_of_filter in Hin as [Hne Hin].
      unfold segment. apply Is_true_true in Hne. rewrite Hne. cbn [andb].
      pose proof (split_no_sep "/" path) as Hall.
      rewrite Forall_forall in Hall.
      rewrite (Hall _ Hin). reflexivity. }
    apply route_short. rewrite (split_slash_segment _ Hseg). cbn. lia.
  - exact Hr.
Qed.

Lemma last_snoc {A : Type} (l : list A) x d : List.last (l ++ [x]) d = x.
Proof. apply List.last_last. Qed.

(** X2. What prefix stripping does to a path of one or more non-empty
    segments: when the path has at least two segments and the last one is a
    route name, the path becomes that route, whatever the segments before
    it; otherwise, with a single segment or a last segment that is no
    route name, the path is left as it is. *)
Theorem route_strips_prefix known pre last :
  Forall (fun s => segment s = true) pre ->
  segment last = true ->
  route known ("/" +:+ String.concat "/" (pre ++ [last])) =
  if negb (Nat.eqb (length pre) 0) && existsb (String.eqb last) known
  then "/" +:+ last
  else "/" +:+ String.concat "/" (pre ++ [last]).
Proof.
  intros Hpre Hlast.
  assert (Hall : Forall (fun s => segment s = true) (pre ++ [last])).
  { apply Forall_app. split; [assumption|]. constructor; [assumption|constructor]. }
  assert (Hsegs : filter (fun p => negb (String.eqb p ""))
                    (split "/" ("/" +:+ String.concat "/" (pre ++ [last])))
                  = pre ++ [last]).
  { change ("/" +:+ ?s) with ("" +:+ String "/" s).
    rewrite split_app by reflexivity.
    rewrite split_concat.
    - rewrite filter_cons_False by (intros Hf; exact Hf).
      apply filter_segments. assumption.
    - destruct pre; discriminate.
    - eapply Forall_impl; [exact Hall|]. intros s. apply segment_no_slash. }
  rewrite (route_segments known _ _ Hsegs).
  rewrite last_snoc, length_app. cbn [length].
  destruct pre as [|p pre]; cbn [length Nat.eqb negb andb]; [reflexivity|].
  replace (2 <=? S (length pre) + 1)%nat with true by (symmetry; apply Nat.leb_le; lia).
  reflexivity.
Qed.


(** ** Strings *)

Lemma strip_prefix_spec p s r : strip_prefix p s = Some r <-> s = p +:+ r.
Proof.
  revert s. induction p as [|a p IH]; intros s.
  - cbn [strip_prefix]. rewrite append_nil. split; [intros [= ->]|intros ->]; reflexivity.
  - rewrite append_cons. destruct s as [|c s]; cbn [strip_prefix].
    + split; discriminate.
    + destruct (Ascii.eqb a c) eqn:E.
      * apply Ascii.eqb_eq in E as ->. rewrite IH. split; [intros ->; reflexivity|intros [= ->]; reflexivity].
      * split; [discriminate|]. intros [= -> _]. rewrite Ascii.eqb_refl in E. discriminate.
Qed.

Lemma mentions_app c a b : mentions c (a +:+ b) = mentions c a || mentions c b.
Proof.
  induction a as [|x a IH]; [rewrite append_nil; reflexivity|].
  rewrite append_cons. cbn [mentions]. rewrite IH, orb_assoc. reflexivity.
Qed.

Lemma any_then_spec suffix s :
  Compliant.any_then suffix s = true <->
  exists pre, one_line pre = true /\ s = pre +:+ suffix.
Proof.
  split.
  - induction s as [|c r IH]; cbn [Compliant.any_then].
    + rewrite orb_false_r. intros ->%String.eqb_eq. exists "". split; reflexivity.
    + intros [->%String.eqb_eq|Hr]%orb_prop.
      * exists "". split; reflexivity.
      * apply andb_prop in Hr as [Hc Hr]. apply andb_prop in Hc as [Hn Hc].
        destruct (IH Hr) as (pre & Hpre & ->).
        exists (String c pre). split; [|rewrite append_cons; reflexivity].
        unfold one_line in *. cbn [mentions].
        apply andb_prop in Hpre as [H1 H2].
        apply negb_true_iff in Hn, Hc, H1, H2.
        fold carriage_return in Hc. rewrite Hn, Hc, H1, H2. reflexivity.
  - intros (pre & Hpre & ->). induction pre as [|c pre IH].
    + rewrite append_nil. destruct suffix; cbn [Compliant.any_then];
        rewrite String.eqb_refl; reflexivity.
    + rewrite append_cons. cbn [Compliant.any_then].
      unfold one_line in Hpre. cbn [mentions] in Hpre.
      apply andb_prop in Hpre as [H1 H2].
      apply negb_true_iff, orb_false_elim in H1 as [H1 H1'].
      apply negb_true_iff, orb_false_elim in H2 as [H2 H2'].
      fold carriage_return. rewrite H1, H2. cbn [negb andb].
      rewrite IH; [apply orb_true_r|].
      unfold one_line. rewrite H1', H2'. reflexivity.
Qed.

Lemma optional_port_spec s : Compliant.optional_port s = true <-> port s.
Proof.
  unfold port. destruct s as [|c r]; cbn [Compliant.optional_port].
  - split; [left; reflexivity|reflexivity].
  - split.
    + intros [[Hc Hr] Hd]%andb_prop%(fun H => conj (andb_prop _ _ (proj1 H)) (proj2 H)).
      right. exists r. apply Ascii.eqb_eq in Hc as ->.
      split; [|split; [assumption|reflexivity]].
      intros ->. discriminate.
    + intros [|(d & Hd & Hds & Heq)]; [discriminate|].
      change (":" +:+ d) with (String ":" d) in Heq. injection Heq as -> ->.
      rewrite Hds. destruct d; [congruence|reflexivity].
Qed.

Lemma http_origin_spec host o :
  Compliant.http_origin host o = true <->
  exists scheme p, (scheme = "http://" \/ scheme = "https://") /\ port p
                   /\ o = scheme +:+ host +:+ p.
Proof.
  unfold Compliant.http_origin. cbn [existsb]. rewrite orb_false_r. split.
  - intros [Hs|Hs]%orb_prop;
      [exists "http://"|exists "https://"];
      (destruct (strip_prefix _ o) as [r|] eqn:E; [|discriminate]);
      apply strip_prefix_spec in E; apply optional_port_spec in Hs;
      exists r; rewrite append_assoc; auto.
  - intros (scheme & p & Hsc & Hp & ->). rewrite append_assoc.
    apply optional_port_spec in Hp.
    destruct Hsc as [-> | ->].
    + rewrite (proj2 (strip_prefix_spec _ _ p) eq_refl), Hp. reflexivity.
    + rewrite (proj2 (strip_prefix_spec ("https://" +:+ host) _ p) eq_refl), Hp.
      apply orb_true_r.
Qed.

(** X3. The origins the compliant bridge admits are exactly: [localhost] or
    [127.0.0.1] under [http] or [https] with an optional port of digits;
    [https://] followed by any text without line terminator that ends in
    [.claude.ai]; and [https://claude.ai]. *)
Theorem allowed_origins o :
  Compliant.isAllowedOrigin o = true <->
  (exists scheme host p,
     (scheme = "http://" \/ scheme = "https://")
     /\ (host = "localhost" \/ host = "127.0.0.1")
     /\ port p /\ o = scheme +:+ host +:+ p)
  \/ (exists sub, one_line sub = true /\ o = "https://" +:+ sub +:+ ".claude.ai")
  \/ o = "https://claude.ai".
Proof.
  unfold Compliant.isAllowedOrigin. split.
  - intros [[[H1|H2]%orb_prop|H3]%orb_prop|H4]%orb_prop.
    + apply http_origin_spec in H1 as (scheme & p & Hs & Hp & ->).
      left. exists scheme, "localhost", p. auto.
    + apply http_origin_spec in H2 as (scheme & p & Hs & Hp & ->).
      left. exists scheme, "127.0.0.1", p. auto.
    + destruct (strip_prefix "https://" o) as [r|] eqn:E; [|discriminate].
      apply strip_prefix_spec in E as ->.
      apply any_then_spec in H3 as (sub & Hsub & ->).
      right. left. exists sub. auto.
    + apply String.eqb_eq in H4. auto.
  - intros [(scheme & host & p & Hs & Hh & Hp & ->)|[(sub & Hsub & ->)| ->]].
    + assert (Ho : Compliant.http_origin host (scheme +:+ host +:+ p) = true).
      { apply http_origin_spec. exists scheme, p. auto. }
      destruct Hh as [-> | ->]; rewrite Ho; [reflexivity|].
      rewrite orb_true_r. reflexivity.
    + rewrite (proj2 (strip_prefix_spec "https://" _ (sub +:+ ".claude.ai")) eq_refl).
      rewrite (proj2 (any_then_spec ".claude.ai" _)) by (exists sub; auto).
      rewrite orb_true_r. reflexivity.
    + reflexivity.
Qed.

(** ** The Accept header *)

Lemma blank_no c s : is_ws c = false -> blank s = true -> mentions c s = false.
Proof.
  intros Hc. induction s as [|a s IH]; [reflexivity|].
  cbn [blank mentions]. intros [Ha Hs]%andb_prop.
  rewrite (IH Hs), orb_false_r.
  destruct (Ascii.eqb a c) eqn:E; [|reflexivity].
  apply Ascii.eqb_eq in E as ->. congruence.
Qed.

Lemma ltrim_blank_app l x : blank l = true -> ltrim (l +:+ x) = ltrim x.
Proof.
  induction l as [|c l IH]; [rewrite append_nil; reflexivity|].
  cbn [blank]. intros [Hc Hl]%andb_prop.
  rewrite append_cons. cbn [ltrim]. rewrite Hc. auto.
Qed.

Lemma ltrim_blank l : blank l = true -> ltrim l = "".
Proof.
  intros Hl. rewrite <- (append_empty l), ltrim_blank_app by assumption. reflexivity.
Qed.

Lemma rtrim_blank r : blank r = true -> rtrim r = "".
Proof.
  induction r as [|c r IH]; [reflexivity|].
  cbn [blank rtrim]. intros [Hc Hr]%andb_prop. rewrite (IH Hr), Hc. reflexivity.
Qed.

Lemma rtrim_app_blank x r : blank r = true -> rtrim (x +:+ r) = rtrim x.
Proof.
  intros Hr. induction x as [|c x IH].
  - rewrite append_nil. apply rtrim_blank. assumption.
  - rewrite append_cons. cbn [rtrim]. rewrite IH. reflexivity.
Qed.

Lemma rtrim_app x y : rtrim y <> "" -> rtrim (x +:+ y) = x +:+ rtrim y.
Proof.
  intros Hy. induction x as [|c x IH].
  - rewrite !append_nil. reflexivity.
  - rewrite !append_cons. cbn [rtrim]. rewrite IH.
    destruct (x +:+ rtrim y) eqn:E; [|reflexivity].
    destruct x; [rewrite append_nil in E; congruence|].
    rewrite append_cons in E. discriminate.
Qed.

Lemma ltrim_length s : (String.length (ltrim s) <= String.length s)%nat.
Proof.
  induction s as [|c s IH]; [reflexivity|].
  cbn [ltrim]. destruct (is_ws c); cbn [String.length] in *; lia.
Qed.

Lemma rtrim_length s : (String.length (rtrim s) <= String.length s)%nat.
Proof.
  induction s as [|c s IH]; [reflexivity|].
  cbn [rtrim]. destruct (rtrim s); [destruct (is_ws c)|]; cbn [String.length] in *; lia.
Qed.

Lemma rtrim_fixed s : String.length (rtrim s) = String.length s -> rtrim s = s.
Proof.
  induction s as [|c s IH]; [reflexivity|].
  cbn [rtrim]. pose proof (rtrim_length s) as Hl.
  destruct (rtrim s) as [|a r] eqn:E.
  - destruct (is_ws c); cbn [String.length] in *; intros Hlen.
    + lia.
    + destruct s; [reflexivity|]. cbn [String.length] in *. lia.
  - cbn [String.length] in *. intros Hlen. f_equal. apply IH. lia.
Qed.

Lemma trim_fixed t :
  trim t = t ->
  rtrim t = t /\ match t with EmptyString => True | String c _ => is_ws c = false end.
Proof.
  unfold trim. intros Ht.
  pose proof (ltrim_length t) as H1. pose proof (rtrim_length (ltrim t)) as H2.
  rewrite Ht in H2.
  assert (Hl : ltrim t = t).
  { destruct t as [|c t]; [reflexivity|]. cbn [ltrim] in *.
    destruct (is_ws c); [|reflexivity].
    pose proof (ltrim_length t). cbn [String.length] in *. lia. }
  rewrite Hl in Ht. split; [assumption|].
  destruct t as [|c t]; [exact I|]. cbn [ltrim] in Hl.
  destruct (is_ws c); [|reflexivity].
  pose proof (ltrim_length t) as H3. rewrite Hl in H3. cbn [String.length] in H3. lia.
Qed.

Lemma listed_type e :
  well_formed e = true -> (cut ";" (trim (listed e))).1 = media_type e.
Proof.
  unfold well_formed, listed. destruct e as [l t p r]. cbn [before media_type parameters after].
  intros H. repeat (apply andb_prop in H as [H ?]).
  match goal with Ht : String.eqb (trim t) t = true |- _ =>
    apply String.eqb_eq, trim_fixed in Ht as [Hrt Hfirst] end.
  match goal with Hc : negb (mentions ";" t) = true |- _ => apply negb_true_iff in Hc end.
  unfold trim. rewrite ltrim_blank_app by assumption.
  destruct p as [|c p].
  - rewrite append_nil.
    destruct t as [|a t].
    + rewrite append_nil, ltrim_blank by assumption. reflexivity.
    + rewrite append_cons. cbn [ltrim]. rewrite Hfirst. rewrite <- append_cons.
      rewrite rtrim_app_blank by assumption. rewrite Hrt.
      rewrite cut_no_sep by assumption. reflexivity.
  - match goal with Hp : _ && _ = true |- _ => apply andb_prop in Hp as [Hc _] end.
    apply Ascii.eqb_eq in Hc as ->.
    assert (Hl : ltrim (t +:+ String ";" p +:+ r) = t +:+ String ";" p +:+ r).
    { destruct t as [|a t]; [rewrite append_nil, append_cons; reflexivity|].
      rewrite append_cons. cbn [ltrim]. rewrite Hfirst. reflexivity. }
    rewrite Hl.
    assert (Hr : exists z, rtrim (String ";" p +:+ r) = String ";" z).
    { rewrite append_cons. cbn [rtrim]. destruct (rtrim (p +:+ r)); eauto. }
    destruct Hr as [z Hz].
    rewrite rtrim_app by (rewrite Hz; discriminate).
    rewrite Hz, cut_app by assumption. reflexivity.
Qed.

Lemma listed_no_comma e : well_formed e = true -> mentions "," (listed e) = false.
Proof.
  unfold well_formed, listed. destruct e as [l t p r]. cbn [before media_type parameters after].
  intros H. repeat (apply andb_prop in H as [H ?]).
  rewrite !mentions_app.
  rewrite (blank_no "," l), (blank_no "," r) by (assumption || reflexivity).
  match goal with Hc : negb (mentions "," t) = true |- _ =>
    apply negb_true_iff in Hc; rewrite Hc end.
  destruct p as [|c p]; [reflexivity|].
  match goal with Hp : _ && _ = true |- _ => apply andb_prop in Hp as [_ Hcomma] end.
  apply negb_true_iff in Hcomma. rewrite Hcomma. reflexivity.
Qed.

(** X4. An Accept header made of comma-separated entries, each a media
    type with optional parameters and white space around it, is accepted
    exactly when every required type is, letter for letter, one of the
    media types listed: parameters and white space are ignored, and nothing
    is matched by a wildcard.  An absent or empty header is refused. *)
Theorem accept_header_lists_types entries required :
  Forall (fun e => well_formed e = true) entries ->
  String.concat "," (map listed entries) <> "" ->
  Compliant.validateAcceptHeader (Some (String.concat "," (map listed entries))) required
  = forallb (fun type => existsb (String.eqb type) (map media_type entries)) required.
Proof.
  intros Hwf Hne. unfold Compliant.validateAcceptHeader.
  destruct (String.eqb _ "") eqn:E; [apply String.eqb_eq in E; contradiction|].
  rewrite split_concat.
  - rewrite map_map.
    replace (map (fun x => (cut ";" (trim (listed x))).1) entries)
      with (map media_type entries); [reflexivity|].
    apply map_ext_Forall. eapply Forall_impl; [exact Hwf|].
    intros e He. symmetry. apply listed_type. exact He.
  - destruct entries; [|discriminate]. cbn in Hne. congruence.
  - apply Forall_map. eapply Forall_impl; [exact Hwf|]. intros e. apply listed_no_comma.
Qed.

(** ** The checks before routing, and the requests no route serves *)

Module GatewayFacts.
Section WithPlatform.
Context `{Platform}.
Import Compliant.

Lemma origin_check req :
  nonempty (origin req) && negb (isAllowedOrigin (default "" (origin req)))
  = negb (origin_admitted req).
Proof.
  unfold origin_admitted, nonempty. destruct (origin req) as [o|]; [|reflexivity].
  cbn [default]. rewrite negb_orb. reflexivity.
Qed.

Lemma version_check req :
  nonempty (mcp_protocol_version req)
  && negb (bool_decide (is_Some (validateProtocolVersion (mcp_protocol_version req))))
  = negb (version_admitted req).
Proof.
  unfold version_admitted, nonempty, validateProtocolVersion.
  destruct (mcp_protocol_version req) as [v|]; [|reflexivity].
  cbn [existsb]. destruct (String.eqb v "") eqn:E; [reflexivity|].
  rewrite orb_false_r. cbn [negb andb orb].
  destruct (String.eqb v "2025-06-18"); [reflexivity|].
  destruct (String.eqb v "2025-03-26"); reflexivity.
Qed.

Lemma onRequest_refused req res b :
  origin_admitted req = false ->
  onRequest req res b = (b, respond res 403 (error_body "Forbidden origin")).
Proof. intros Ho. unfold onRequest. rewrite origin_check, Ho. reflexivity. Qed.

Lemma onRequest_preflight req res b :
  origin_admitted req = true -> preflight req = true ->
  onRequest req res b = (b, cors req res ++ [WriteHead res 200 []; End_ res None]).
Proof.
  intros Ho Hp. unfold onRequest. rewrite origin_check, Ho. unfold preflight in Hp.
  rewrite Hp. reflexivity.
Qed.

Lemma onRequest_admitted req res b :
  origin_admitted req = true -> preflight req = false ->
  onRequest req res b =
  ((handleHTTPRequest req res b).1, cors req res ++ (handleHTTPRequest req res b).2).
Proof.
  intros Ho Hp. unfold onRequest. rewrite origin_check, Ho. unfold preflight in Hp.
  rewrite Hp. cbn [negb]. destruct (handleHTTPRequest req res b). reflexivity.
Qed.

Lemma handleHTTPRequest_version req res b :
  version_admitted req = false ->
  handleHTTPRequest req res b =
  (b, respond res 400 (error_body "Invalid or unsupported MCP-Protocol-Version")).
Proof. intros Hv. unfold handleHTTPRequest. rewrite version_check, Hv. reflexivity. Qed.

Lemma handleHTTPRequest_routed req res b :
  version_admitted req = true ->
  handleHTTPRequest req res b =
  if String.eqb (route ["health"; "mcp"] (pathname req)) "/health" then (b, handleHealth res b)
  else if String.eqb (route ["health"; "mcp"] (pathname req)) "/mcp"
       then handleMCPEndpoint req res b
       else (b, respond res 404 (error_body "Not Found")).
Proof. intros Hv. unfold handleHTTPRequest. rewrite version_check, Hv. reflexivity. Qed.

Lemma turn_admitted req res b :
  listening b = true -> exited b = false ->
  origin_admitted req = true -> preflight req = false -> version_admitted req = true ->
  turn (EvRequest req res) b =
  Some (if String.eqb (route ["health"; "mcp"] (pathname req)) "/health"
        then (b, cors req res ++ handleHealth res b)
        else if String.eqb (route ["health"; "mcp"] (pathname req)) "/mcp"
             then ((handleMCPEndpoint req res b).1,
                   cors req res ++ (handleMCPEndpoint req res b).2)
             else (b, cors req res ++ respond res 404 (error_body "Not Found"))).
Proof.
  intros Hl He Ho Hp Hv. rewrite CompliantFacts.turn_request by assumption.
  rewrite onRequest_admitted, handleHTTPRequest_routed by assumption.
  destruct (String.eqb _ "/health"); [reflexivity|].
  destruct (String.eqb _ "/mcp"); reflexivity.
Qed.

Lemma to_mcp_admitted m req :
  to_mcp m req = true <->
  origin_admitted req = true /\ version_admitted req = true
  /\ route ["health"; "mcp"] (pathname req) = "/mcp" /\ method req = m.
Proof.
  unfold to_mcp. rewrite origin_check, version_check, !negb_involutive.
  rewrite !andb_true_iff, !String.eqb_eq. tauto.
Qed.

(** The health body. *)
Lemma handleHealth_body res b :
  exists body,
    handleHealth res b = respond res 200 body
    /\ field "status" (Some body) = Some (JStr "healthy")
    /\ field "mcp_initialized" (Some body) = Some (JBool (isInitialized b))
    /\ field "mcp_server" (Some body)
       = Some (if truthy (field "serverInfo" (mcpCapabilities b))
               then default JNull (field "serverInfo" (mcpCapabilities b)) else JNull).
Proof. eexists. split; [reflexivity|]. split; [|split]; reflexivity. Qed.

End WithPlatform.
End GatewayFacts.

Module SimpleGatewayFacts.
Section WithPlatform.
Context `{Platform}.
Import Simple.

Lemma simple_onRequest_preflight req res b :
  preflight req = true ->
  onRequest req res b = (b, cors res ++ [WriteHead res 200 []; End_ res None]).
Proof. unfold preflight, onRequest. intros ->. reflexivity. Qed.

Lemma simple_onRequest_routed req res b :
  preflight req = false ->
  onRequest req res b =
  ((handleHTTPRequest req res b).1, cors res ++ (handleHTTPRequest req res b).2).
Proof.
  unfold preflight, onRequest. intros ->. destruct (handleHTTPRequest req res b). reflexivity.
Qed.

(** A request whose handler settles no promise: the turn is the handler. *)
Lemma simple_turn_quiet req res b :
  listening b = true -> exited b = false ->
  omap settled (onRequest req res b).2 = [] ->
  turn (EvRequest req res) b = Some (onRequest req res b).
Proof.
  intros Hl He Hs. unfold turn, handle. rewrite He, Hl.
  destruct (onRequest req res b) as [b1 e1]. cbn [snd] in Hs. rewrite Hs.
  unfold runJobs. cbn [for_each]. rewrite app_nil_r. reflexivity.
Qed.

Lemma simple_handleHealth_body res b :
  exists body,
    handleHealth res b = respond res 200 body
    /\ field "status" (Some body) = Some (JStr "healthy")
    /\ field "mcp_initialized" (Some body) = Some (JBool (isInitialized b))
    /\ field "mcp_server" (Some body)
       = Some (if truthy (field "serverInfo" (mcpCapabilities b))
               then default JNull (field "serverInfo" (mcpCapabilities b)) else JNull).
Proof. eexists. split; [reflexivity|]. split; [|split]; reflexivity. Qed.

End WithPlatform.
End SimpleGatewayFacts.

Section Gateway.
Context `{Platform}.

(** X5. The checks of the compliant listener come before routing, in this
    order.  A request with a forbidden origin is answered 403, without CORS
    headers, whatever its method and path.  Otherwise an OPTIONS request is
    answered 200 with the CORS headers and no body, whatever its path and
    protocol version.  Otherwise a request with an unsupported protocol
    version is answered 400, whatever its path, [/health] included.  In each
    case the bridge is left as it was. *)
Theorem compliant_checks_come_first req res b :
  Compliant.listening b = true -> Compliant.exited b = false ->
  (origin_admitted req = false ->
   Compliant.turn (Compliant.EvRequest req res) b =
   Some (b, respond res 403 (error_body "Forbidden origin")))
  /\ (origin_admitted req = true -> preflight req = true ->
      Compliant.turn (Compliant.EvRequest req res) b =
      Some (b, Compliant.cors req res ++ [WriteHead res 200 []; End_ res None]))
  /\ (origin_admitted req = true -> preflight req = false ->
      version_admitted req = false ->
      Compliant.turn (Compliant.EvRequest req res) b =
      Some (b, Compliant.cors req res
               ++ respond res 400 (error_body "Invalid or unsupported MCP-Protocol-Version"))).
Proof.
  intros Hl He. rewrite CompliantFacts.turn_request by assumption.
  split; [|split].
  - intros Ho. rewrite GatewayFacts.onRequest_refused by assumption. reflexivity.
  - intros Ho Hp. rewrite GatewayFacts.onRequest_preflight by assumption. reflexivity.
  - intros Ho Hp Hv. rewrite GatewayFacts.onRequest_admitted by assumption.
    rewrite GatewayFacts.handleHTTPRequest_version by assumption. reflexivity.
Qed.

(** X6. Requests that no route serves.  In the compliant bridge a request
    past the checks whose path, after prefix stripping, is neither
    [/health] nor [/mcp] is answered 404, and one on [/mcp] whose method is
    not POST, GET or DELETE is answered 405.  In the simple bridge an
    OPTIONS request is answered 200 with the CORS headers whatever its
    path; any other request whose path is none of the four routes is
    answered 404, and one on [/mcp] whose method is not POST is answered
    405, its body unread.  The bridge is left as it was. *)
Theorem unserved_requests req res :
  (forall b,
     Compliant.listening b = true -> Compliant.exited b = false ->
     origin_admitted req = true -> preflight req = false -> version_admitted req = true ->
     (route ["health"; "mcp"] (pathname req) <> "/health" ->
      route ["health"; "mcp"] (pathname req) <> "/mcp" ->
      Compliant.turn (Compliant.EvRequest req res) b =
      Some (b, Compliant.cors req res ++ respond res 404 (error_body "Not Found")))
     /\ (route ["health"; "mcp"] (pathname req) = "/mcp" ->
         method req <> "POST" -> method req <> "GET" -> method req <> "DELETE" ->
         Compliant.turn (Compliant.EvRequest req res) b =
         Some (b, Compliant.cors req res
                  ++ respond res 405 (error_body "Method not allowed"))))
  /\ (forall b,
        Simple.listening b = true -> Simple.exited b = false ->
        (preflight req = true ->
         Simple.turn (Simple.EvRequest req res) b =
         Some (b, Simple.cors res ++ [WriteHead res 200 []; End_ res None]))
        /\ (preflight req = false ->
            ~ In (route ["health"; "mcp"; "sse"; "capabilities"] (pathname req))
                 ["/health"; "/mcp"; "/sse"; "/capabilities"] ->
            Simple.turn (Simple.EvRequest req res) b =
            Some (b, Simple.cors res ++ respond res 404 (error_body "Not Found")))
        /\ (preflight req = false ->
            route ["health"; "mcp"; "sse"; "capabilities"] (pathname req) = "/mcp" ->
            method req <> "POST" ->
            Simple.turn (Simple.EvRequest req res) b =
            Some (b, Simple.cors res ++ respond res 405 (error_body "Method not allowed")))).
Proof.
  split.
  - intros b Hl He Ho Hp Hv. rewrite GatewayFacts.turn_admitted by assumption. split.
    + intros H1%String.eqb_neq H2%String.eqb_neq. rewrite H1, H2. reflexivity.
    + intros -> H1%String.eqb_neq H2%String.eqb_neq H3%String.eqb_neq.
      change (String.eqb "/mcp" "/health") with false.
      change (String.eqb "/mcp" "/mcp") with true. cbn iota.
      unfold Compliant.handleMCPEndpoint. rewrite H1, H2, H3. reflexivity.
  - intros b Hl He. split; [|split].
    + intros Hp. rewrite SimpleGatewayFacts.simple_turn_quiet;
        rewrite ?SimpleGatewayFacts.simple_onRequest_preflight by assumption;
        try assumption; reflexivity.
    + intros Hp Hr.
      assert (Hh : Simple.handleHTTPRequest req res b
                   = (b, respond res 404 (error_body "Not Found"))).
      { unfold Simple.handleHTTPRequest.
        set (path := route _ _) in *.
        destruct (String.eqb path "/health") eqn:E1;
          [apply String.eqb_eq in E1; exfalso; apply Hr; rewrite E1; cbn [In]; tauto|].
        destruct (String.eqb path "/mcp") eqn:E2;
          [apply String.eqb_eq in E2; exfalso; apply Hr; rewrite E2; cbn [In]; tauto|].
        destruct (String.eqb path "/sse") eqn:E3;
          [apply String.eqb_eq in E3; exfalso; apply Hr; rewrite E3; cbn [In]; tauto|].
        destruct (String.eqb path "/capabilities") eqn:E4;
          [apply String.eqb_eq in E4; exfalso; apply Hr; rewrite E4; cbn [In]; tauto|].
        reflexivity. }
      rewrite SimpleGatewayFacts.simple_turn_quiet;
        rewrite ?SimpleGatewayFacts.simple_onRequest_routed, ?Hh by assumption;
        try assumption; reflexivity.
    + intros Hp Hr Hm%String.eqb_neq.
      assert (Hh : Simple.handleHTTPRequest req res b
                   = (b, respond res 405 (error_body "Method not allowed"))).
      { unfold Simple.handleHTTPRequest. rewrite Hr.
        change (String.eqb "/mcp" "/health") with false.
        change (String.eqb "/mcp" "/mcp") with true. cbn iota.
        unfold Simple.handleMCP. rewrite Hm. reflexivity. }
      rewrite SimpleGatewayFacts.simple_turn_quiet;
        rewrite ?SimpleGatewayFacts.simple_onRequest_routed, ?Hh by assumption;
        try assumption; reflexivity.
Qed.

(** X7. The health endpoint of either bridge answers 200 with status
    [healthy] to every request routed to it past the checks of the
    listener, whatever its method other than OPTIONS and whatever the state
    of the child: the body tells whether the handshake is in force
    ([mcp_initialized]) and gives the server information of the stored
    capabilities, or [null].  The bridge is left as it was. *)
Theorem health_is_always_healthy req res :
  (forall b,
     Compliant.listening b = true -> Compliant.exited b = false ->
     origin_admitted req = true -> preflight req = false -> version_admitted req = true ->
     route ["health"; "mcp"] (pathname req) = "/health" ->
     exists body,
       Compliant.turn (Compliant.EvRequest req res) b =
       Some (b, Compliant.cors req res ++ respond res 200 body)
       /\ field "status" (Some body) = Some (JStr "healthy")
       /\ field "mcp_initialized" (Some body) = Some (JBool (Compliant.isInitialized b))
       /\ field "mcp_server" (Some body)
          = Some (if truthy (field "serverInfo" (Compliant.mcpCapabilities b))
                  then default JNull (field "serverInfo" (Compliant.mcpCapabilities b))
                  else JNull))
  /\ (forall b,
        Simple.listening b = true -> Simple.exited b = false ->
        preflight req = false ->
        route ["health"; "mcp"; "sse"; "capabilities"] (pathname req) = "/health" ->
        exists body,
          Simple.turn (Simple.EvRequest req res) b =
          Some (b, Simple.cors res ++ respond res 200 body)
          /\ field "status" (Some body) = Some (JStr "healthy")
          /\ field "mcp_initialized" (Some body) = Some (JBool (Simple.isInitialized b))
          /\ field "mcp_server" (Some body)
             = Some (if truthy (field "serverInfo" (Simple.mcpCapabilities b))
                     then default JNull (field "serverInfo" (Simple.mcpCapabilities b))
                     else JNull)).
Proof.
  split.
  - intros b Hl He Ho Hp Hv Hr.
    destruct (GatewayFacts.handleHealth_body res b) as (body & Hb & Hfields).
    exists body. split; [|exact Hfields].
    rewrite GatewayFacts.turn_admitted by assumption. rewrite Hr, Hb. reflexivity.
  - intros b Hl He Hp Hr.
    destruct (SimpleGatewayFacts.simple_handleHealth_body res b) as (body & Hb & Hfields).
    exists body. split; [|exact Hfields].
    assert (Hh : Simple.handleHTTPRequest req res b = (b, respond res 200 body)).
    { unfold Simple.handleHTTPRequest. rewrite Hr, Hb. reflexivity. }
    rewrite SimpleGatewayFacts.simple_turn_quiet;
      rewrite ?SimpleGatewayFacts.simple_onRequest_routed, ?Hh by assumption;
      try assumption; reflexivity.
Qed.

End Gateway.

(** ** Refused requests *)

Section Validation.
Context `{Platform}.

(** X8. A POST on [/mcp] of the compliant bridge is validated before
    anything is done with it.  When its Accept header does not list both
    [application/json] and [text/event-stream] it is answered 400 with code
    -32600, whatever its body.  Otherwise, when its body is no JSON text, or
    is the text [null], it is answered 400 with code -32700.  In both cases
    the bridge is left as it was: no id is allocated, nothing is written to
    the child. *)
Theorem post_is_validated req res b :
  Compliant.listening b = true -> Compliant.exited b = false ->
  Compliant.to_mcp "POST" req = true ->
  (Compliant.validateAcceptHeader (accept req) ["application/json"; "text/event-stream"]
   = false ->
   Compliant.turn (Compliant.EvRequest req res) b =
   Some (b, Compliant.cors req res
            ++ respond res 400
                 (jsonrpc_error (Some JNull) (-32600)
                    "Accept header must include application/json and text/event-stream")))
  /\ (Compliant.validateAcceptHeader (accept req) ["application/json"; "text/event-stream"]
      = true ->
      JSON_parse (body req) = None \/ JSON_parse (body req) = Some JNull ->
      exists detail,
        Compliant.turn (Compliant.EvRequest req res) b =
        Some (b, Compliant.cors req res
                 ++ ConsoleError "MCP POST error:" detail
                    :: respond res 400 (jsonrpc_error (Some JNull) (-32700) "Parse error"))).
Proof.
  intros Hl He Hto. rewrite CompliantFacts.turn_request by assumption.
  rewrite CompliantFacts.onRequest_post by assumption.
  unfold Compliant.handleMCPPost. split.
  - intros ->. reflexivity.
  - intros -> [-> | ->]; eexists; reflexivity.
Qed.

(** X9. A session id that is not in the session table is refused.  In the
    compliant bridge a POST on [/mcp] whose message is not [initialize], and
    a GET on [/mcp] that accepts an event stream, are answered 404 when they
    carry a non-empty [Mcp-Session-Id] that is not registered: the POST with
    JSON-RPC code -32001 under the id of the message, the GET with a plain
    error.  Nothing is forwarded to the child, no id is allocated and no
    stream is opened. *)
Theorem stale_session_is_refused req res b sid :
  Compliant.listening b = true -> Compliant.exited b = false ->
  mcp_session_id req = Some sid -> sid <> "" ->
  Compliant.sessions b !! sid = None ->
  (forall message,
     Compliant.to_mcp "POST" req = true ->
     Compliant.validateAcceptHeader (accept req) ["application/json"; "text/event-stream"]
     = true ->
     JSON_parse (body req) = Some message ->
     nullish (Some message) = false ->
     field "method" (Some message) <> Some (JStr "initialize") ->
     Compliant.turn (Compliant.EvRequest req res) b =
     Some (b, Compliant.cors req res
              ++ respond res 404
                   (jsonrpc_error (field "id" (Some message)) (-32001) "Session not found")))
  /\ (forall a,
        Compliant.to_mcp "GET" req = true ->
        accept req = Some a -> includes "text/event-stream" a = true ->
        Compliant.turn (Compliant.EvRequest req res) b =
        Some (b, Compliant.cors req res ++ respond res 404 (error_body "Session not found"))).
Proof.
  intros Hl He Hs Hne Hsid.
  assert (Hu : Compliant.unknown_session (mcp_session_id req) b = true).
  { unfold Compliant.unknown_session. rewrite Hs, Hsid.
    apply String.eqb_neq in Hne. rewrite Hne. reflexivity. }
  rewrite CompliantFacts.turn_request by assumption. split.
  - intros message Hto Hacc Hp Hn Hm.
    rewrite CompliantFacts.onRequest_post by assumption.
    unfold Compliant.handleMCPPost. rewrite Hacc, Hp, Hn, Hu. cbn [negb].
    destruct (field "method" (Some message)) as [[| | |m| |]|]; try reflexivity.
    destruct (String.eqb m "initialize") eqn:E; [|reflexivity].
    apply String.eqb_eq in E. subst m. contradiction.
  - intros a Hto Ha Hinc.
    rewrite CompliantFacts.onRequest_get by assumption.
    unfold Compliant.handleMCPGet. rewrite Ha, Hinc, Hu.
    destruct (String.eqb a "") eqn:E; [|reflexivity].
    apply String.eqb_eq in E. subst a. discriminate.
Qed.

(** X10. What the simple bridge answers to a POST on [/mcp] that it cannot
    proxy.  A body that is no JSON text is answered 500 with code -32603
    and the message of the syntax error, and the text [null] likewise with
    the message of the TypeError.  While the bridge is not initialized (the
    handshake brought no capabilities, or the child has exited) every
    message is answered 500 with code -32603 and [MCP server not
    initialized].  In each case the bridge is left as it was: no id is
    allocated and nothing is written to the child. *)
Theorem simple_post_is_refused req res b :
  Simple.listening b = true -> Simple.exited b = false ->
  preflight req = false ->
  route ["health"; "mcp"; "sse"; "capabilities"] (pathname req) = "/mcp" ->
  method req = "POST" ->
  (JSON_parse (body req) = None ->
   Simple.turn (Simple.EvRequest req res) b =
   Some (b, Simple.cors res
            ++ respond res 500
                 (jsonrpc_error (Some JNull) (-32603) (syntax_error (body req)))))
  /\ (JSON_parse (body req) = Some JNull ->
      Simple.turn (Simple.EvRequest req res) b =
      Some (b, Simple.cors res
               ++ respond res 500
                    (jsonrpc_error (Some JNull) (-32603)
                       "Cannot read properties of null (reading 'method')")))
  /\ (forall request,
        JSON_parse (body req) = Some request -> nullish (Some request) = false ->
        Simple.isInitialized b = false ->
        Simple.turn (Simple.EvRequest req res) b =
        Some (b, Simple.cors res
                 ++ Threw (Simple.AwaitMCP request res) (Error "MCP server not initialized")
                    :: respond res 500
                         (jsonrpc_error (Some JNull) (-32603) "MCP server not initialized"))).
Proof.
  intros Hl He Hp Hr Hm.
  assert (Hh : Simple.handleHTTPRequest req res b = Simple.handleMCP req res b).
  { unfold Simple.handleHTTPRequest. rewrite Hr. reflexivity. }
  split; [|split].
  - intros Hparse.
    rewrite SimpleGatewayFacts.simple_turn_quiet;
      rewrite ?SimpleGatewayFacts.simple_onRequest_routed, ?Hh by assumption;
      unfold Simple.handleMCP; rewrite ?Hm, ?Hparse; try assumption; reflexivity.
  - intros Hparse.
    rewrite SimpleGatewayFacts.simple_turn_quiet;
      rewrite ?SimpleGatewayFacts.simple_onRequest_routed, ?Hh by assumption;
      unfold Simple.handleMCP; rewrite ?Hm, ?Hparse; try assumption; reflexivity.
  - intros request Hparse Hn Hi.
    unfold Simple.turn, Simple.handle. rewrite He, Hl.
    rewrite SimpleGatewayFacts.simple_onRequest_routed, Hh by assumption.
    unfold Simple.handleMCP, Simple.proxyToMCP. rewrite Hm, Hparse, Hn, Hi.
    reflexivity.
Qed.

End Validation.

(** ** Answers to settled calls *)

Lemma for_each_member {A S E : Type} (body : A -> S -> S * list E) items b x :
  x ∈ items ->
  exists b0, forall y, y ∈ (body x b0).2 -> y ∈ (for_each body items b).2.
Proof.
  revert b. induction items as [|a items IH]; intros b Hx.
  - apply elem_of_nil in Hx. contradiction.
  - cbn [for_each]. destruct (body a b) as [b1 e1] eqn:E1.
    destruct (for_each body items b1) as [b2 e2] eqn:E2. cbn [snd].
    apply elem_of_cons in Hx as [-> | Hx].
    + exists b. rewrite E1. cbn [snd]. intros y Hy. apply elem_of_app. left. exact Hy.
    + destruct (IH b1 Hx) as [b0 Hb0]. exists b0. intros y Hy.
      apply elem_of_app. right. specialize (Hb0 y Hy). rewrite E2 in Hb0. exact Hb0.
Qed.

Lemma settled_member {K : Type} (x : Effect K) k o (l : list (Effect K)) :
  x ∈ l -> settled x = Some (k, o) -> (k, o) ∈ omap settled l.
Proof. intros Hx Hs. apply list_elem_of_omap. exists x. auto. Qed.

Lemma forallb_concerns_app {K : Type} res (e1 e2 : list (Effect K)) :
  forallb (concerns res) (e1 ++ e2) = forallb (concerns res) e1 && forallb (concerns res) e2.
Proof. apply forallb_app. Qed.

Module AnswerFacts.
Section WithPlatform.
Context `{Platform}.

Lemma turn_job ev b b' e x k o :
  Compliant.turn ev b = Some (b', e) ->
  x ∈ e -> settled x = Some (k, o) ->
  exists b0, forall y, y ∈ (Compliant.resume k o b0).2 -> y ∈ e.
Proof.
  unfold Compliant.turn. destruct (Compliant.handle ev b) as [[b1 e1]|]; [|discriminate].
  pose proof (CompliantFacts.runJobs_quiet (omap settled e1) b1) as Hq.
  destruct (Compliant.runJobs (omap settled e1) b1) as [b2 e2] eqn:E.
  intros [= <- <-] Hx Hs. cbn [snd] in Hq.
  apply elem_of_app in Hx as [Hx|Hx].
  - pose proof (settled_member _ _ _ _ Hx Hs) as Hj.
    destruct (for_each_member (fun job => Compliant.resume job.1 job.2) _ b1 _ Hj)
      as [b0 Hb0].
    exists b0. intros y Hy. apply elem_of_app. right.
    specialize (Hb0 y Hy). unfold Compliant.runJobs in E. rewrite E in Hb0. exact Hb0.
  - pose proof (settled_member _ _ _ _ Hx Hs) as Hj. rewrite Hq in Hj.
    apply elem_of_nil in Hj. contradiction.
Qed.

Lemma simple_turn_job ev b b' e x k o :
  Simple.turn ev b = Some (b', e) ->
  x ∈ e -> settled x = Some (k, o) ->
  exists b0, forall y, y ∈ (Simple.resume k o b0).2 -> y ∈ e.
Proof.
  unfold Simple.turn. destruct (Simple.handle ev b) as [[b1 e1]|]; [|discriminate].
  pose proof (SimpleFacts.simple_runJobs_quiet (omap settled e1) b1) as Hq.
  destruct (Simple.runJobs (omap settled e1) b1) as [b2 e2] eqn:E.
  intros [= <- <-] Hx Hs. cbn [snd] in Hq.
  apply elem_of_app in Hx as [Hx|Hx].
  - pose proof (settled_member _ _ _ _ Hx Hs) as Hj.
    destruct (for_each_member (fun job => Simple.resume job.1 job.2) _ b1 _ Hj)
      as [b0 Hb0].
    exists b0. intros y Hy. apply elem_of_app. right.
    specialize (Hb0 y Hy). unfold Simple.runJobs in E. rewrite E in Hb0. exact Hb0.
  - pose proof (settled_member _ _ _ _ Hx Hs) as Hj. rewrite Hq in Hj.
    apply elem_of_nil in Hj. contradiction.
Qed.

(** The effects of a request's handler concern its own response. *)
Lemma sendToMCP_concerns res message b :
  forallb (concerns res) (Compliant.sendToMCP message b) = true.
Proof.
  unfold Compliant.sendToMCP. destruct (Compliant.mcpProcess b) as [[[]]|]; reflexivity.
Qed.

Lemma proxyToMCP_concerns res method params k b :
  forallb (concerns res) (Compliant.proxyToMCP method params k b).2 = true.
Proof. unfold Compliant.proxyToMCP. cbn [snd forallb]. apply sendToMCP_concerns. Qed.

Lemma onRequest_concerns req res b :
  forallb (concerns res) (Compliant.onRequest req res b).2 = true.
Proof.
  assert (Hrefl : Nat.eqb res res = true) by apply Nat.eqb_refl.
  unfold Compliant.onRequest.
  destruct (nonempty (origin req) && _); [cbn; rewrite Hrefl; reflexivity|].
  destruct (String.eqb (method req) "OPTIONS"); [cbn; rewrite Hrefl; reflexivity|].
  destruct (Compliant.handleHTTPRequest req res b) as [b' e] eqn:E. cbn [snd].
  rewrite forallb_concerns_app. apply andb_true_intro. split; [cbn; rewrite Hrefl; reflexivity|].
  change e with (b', e).2. rewrite <- E. clear E b' e.
  unfold Compliant.handleHTTPRequest, Compliant.handleMCPEndpoint.
  destruct (nonempty (mcp_protocol_version req) && _); [cbn; rewrite Hrefl; reflexivity|].
  destruct (String.eqb (route _ _) "/health"); [cbn; rewrite Hrefl; reflexivity|].
  destruct (String.eqb (route _ _) "/mcp"); [|cbn; rewrite Hrefl; reflexivity].
  destruct (String.eqb (method req) "POST").
  { unfold Compliant.handleMCPPost, Compliant.handleInitializeRequest.
    destruct (negb (Compliant.validateAcceptHeader _ _)); [cbn; rewrite Hrefl; reflexivity|].
    destruct (JSON_parse (body req)) as [message|]; [|cbn; rewrite Hrefl; reflexivity].
    destruct (nullish (Some message)); [cbn; rewrite Hrefl; reflexivity|].
    destruct (match field "method" (Some message) with
              | Some (JStr m) => String.eqb m "initialize"
              | _ => false
              end); [apply proxyToMCP_concerns|].
    destruct (Compliant.unknown_session _ b); [cbn; rewrite Hrefl; reflexivity|].
    destruct (truthy (field "id" (Some message))); [apply proxyToMCP_concerns|].
    cbn [snd]. rewrite forallb_concerns_app. apply andb_true_intro.
    split; [|cbn; rewrite Hrefl; reflexivity].
    destruct (truthy (field "method" (Some message))); [apply sendToMCP_concerns|reflexivity]. }
  destruct (String.eqb (method req) "GET").
  { unfold Compliant.handleMCPGet.
    destruct (negb _); [cbn; rewrite Hrefl; reflexivity|].
    destruct (Compliant.unknown_session _ b); [cbn; rewrite Hrefl; reflexivity|].
    cbn [snd Compliant.isInitialized Compliant.mcpCapabilities Compliant.set_intervals
             Compliant.set_sseConnections Compliant.set_uuids].
    destruct (Compliant.isInitialized b && truthy (Compliant.mcpCapabilities b));
      cbn; rewrite Hrefl; reflexivity. }
  destruct (String.eqb (method req) "DELETE"); [|cbn; rewrite Hrefl; reflexivity].
  unfold Compliant.handleMCPDelete.
  destruct (mcp_session_id req) as [s|]; [|cbn; rewrite Hrefl; reflexivity].
  destruct (String.eqb s ""); [cbn; rewrite Hrefl; reflexivity|].
  destruct (Compliant.sessions b !! s); cbn; rewrite Hrefl; reflexivity.
Qed.

Lemma simple_call_concerns res id request delay expired k b :
  forallb (concerns res) (Simple.call id request delay expired k b).2 = true.
Proof.
  unfold Simple.call, Simple.sendToMCP.
  destruct (Simple.mcpProcess b) as [[[]]|]; reflexivity.
Qed.

Ltac no_job :=
  cbn; intros ? ? Hjob; apply elem_of_nil in Hjob; contradiction.

Ltac one_job request :=
  cbn; intros ? ? Hjob; apply list_elem_of_singleton in Hjob;
  injection Hjob as -> _; exists request; reflexivity.

(** The request a continuation of the simple bridge answers. *)
Lemma simple_onRequest_concerns req res b :
  forallb (concerns res) (Simple.onRequest req res b).2 = true
  /\ forall k o, (k, o) ∈ omap settled (Simple.onRequest req res b).2 ->
                 exists request, k = Simple.AwaitMCP request res.
Proof.
  assert (Hrefl : Nat.eqb res res = true) by apply Nat.eqb_refl.
  unfold Simple.onRequest.
  destruct (String.eqb (method req) "OPTIONS").
  { split; [cbn; rewrite Hrefl; reflexivity|]. no_job. }
  destruct (Simple.handleHTTPRequest req res b) as [b' e] eqn:E. cbn [snd].
  rewrite forallb_concerns_app, omap_app.
  assert (Hcors : forallb (concerns res) (Simple.cors res) = true)
    by (cbn; rewrite Hrefl; reflexivity).
  rewrite Hcors. cbn [andb].
  change (omap settled (Simple.cors res)) with (@nil (Simple.Cont * Outcome)).
  cbn [app].
  change e with (b', e).2. rewrite <- E. clear E b' e.
  unfold Simple.handleHTTPRequest.
  destruct (String.eqb (route _ _) "/health").
  { split; [cbn; rewrite Hrefl; reflexivity|]. no_job. }
  destruct (String.eqb (route _ _) "/mcp").
  { unfold Simple.handleMCP.
    destruct (negb (String.eqb (method req) "POST")).
    { split; [cbn; rewrite Hrefl; reflexivity|]. no_job. }
    destruct (JSON_parse (body req)) as [request|].
    2:{ split; [cbn; rewrite Hrefl; reflexivity|]. no_job. }
    destruct (nullish (Some request)).
    { split; [cbn; rewrite Hrefl; reflexivity|]. no_job. }
    unfold Simple.proxyToMCP.
    destruct (negb (Simple.isInitialized b)).
    { split; [reflexivity|]. one_job request. }
    split; [apply simple_call_concerns|].
    unfold Simple.call, Simple.sendToMCP.
    destruct (Simple.mcpProcess _) as [[[]]|]; first [no_job | one_job request]. }
  destruct (String.eqb (route _ _) "/sse").
  { unfold Simple.handleSSE. cbn [snd].
    destruct (Simple.isInitialized b && truthy (Simple.mcpCapabilities b));
      (split; [cbn; rewrite Hrefl; reflexivity|]; no_job). }
  destruct (String.eqb (route _ _) "/capabilities").
  { unfold Simple.handleCapabilities. cbn [snd].
    destruct (negb (Simple.isInitialized b));
      (split; [cbn; rewrite Hrefl; reflexivity|]; no_job). }
  split; [cbn; rewrite Hrefl; reflexivity|]. no_job.
Qed.

Lemma simple_resume_concerns request res o b :
  forallb (concerns res) (Simple.resume (Simple.AwaitMCP request res) o b).2 = true.
Proof. destruct o; cbn; rewrite Nat.eqb_refl; reflexivity. Qed.

Lemma simple_runJobs_concerns res jobs b :
  (forall k o, (k, o) ∈ jobs -> exists request, k = Simple.AwaitMCP request res) ->
  forallb (concerns res) (Simple.runJobs jobs b).2 = true.
Proof.
  unfold Simple.runJobs. revert b. induction jobs as [|[k o] jobs IH]; intros b Hj; [reflexivity|].
  cbn [for_each fst snd].
  destruct (Hj k o) as [request ->]; [apply list_elem_of_here|].
  pose proof (simple_resume_concerns request res o b) as Hr.
  destruct (Simple.resume _ o b) as [b1 e1]. cbn [snd] in Hr.
  specialize (IH b1). destruct (for_each _ jobs b1) as [b2 e2]. cbn [snd] in *.
  rewrite forallb_concerns_app, Hr, IH; [reflexivity|].
  intros k' o' Hk. apply (Hj k' o'). apply list_elem_of_further. exact Hk.
Qed.

End WithPlatform.
End AnswerFacts.

Section Answers.
Context `{Platform}.

(** X11. A client whose call is settled is answered in the same turn of the
    event loop.  In the compliant bridge a proxied POST that is fulfilled is
    answered 200 with the result under the id of the client's message, not
    the id used toward the child; one that is rejected, by an error of the
    child or by its timer, is answered 400 with code -32700 and [Parse
    error], the reason being logged only; a rejected [initialize] is
    answered 500 with code -32603 and the reason.  In the simple bridge a
    fulfilled POST is answered 200 in the same way, and a rejected one 500
    with code -32603 and the reason. *)
Theorem settlement_is_answered :
  (forall ev b b' e n message res,
     Compliant.turn ev b = Some (b', e) ->
     (forall result,
        Resolve n (Compliant.AwaitPost message res) result ∈ e ->
        WriteHead res 200 json_headers ∈ e
        /\ End_ res (Some (Json (jsonrpc_result (field "id" (Some message)) result))) ∈ e)
     /\ (forall err,
           Reject n (Compliant.AwaitPost message res) err ∈ e ->
           ConsoleError "MCP POST error:" (message_of err) ∈ e
           /\ WriteHead res 400 json_headers ∈ e
           /\ End_ res (Some (Json (jsonrpc_error (Some JNull) (-32700) "Parse error"))) ∈ e)
     /\ (forall err,
           Reject n (Compliant.AwaitInitialize message res) err ∈ e ->
           WriteHead res 500 json_headers ∈ e
           /\ End_ res (Some (Json (jsonrpc_error (field "id" (Some message)) (-32603)
                                      (message_of err)))) ∈ e))
  /\ (forall ev b b' e n request res,
        Simple.turn ev b = Some (b', e) ->
        (forall result,
           Resolve n (Simple.AwaitMCP request res) result ∈ e ->
           WriteHead res 200 json_headers ∈ e
           /\ End_ res (Some (Json (jsonrpc_result (field "id" (Some request)) result))) ∈ e)
        /\ (forall err,
              Reject n (Simple.AwaitMCP request res) err ∈ e ->
              WriteHead res 500 json_headers ∈ e
              /\ End_ res (Some (Json (jsonrpc_error (Some JNull) (-32603)
                                         (message_of err)))) ∈ e)).
Proof.
  split.
  - intros ev b b' e n message res Ht. split; [|split].
    + intros result Hx.
      destruct (AnswerFacts.turn_job _ _ _ _ _ _ _ Ht Hx eq_refl) as [b0 Hb0].
      split; apply Hb0; cbn; set_solver.
    + intros err Hx.
      destruct (AnswerFacts.turn_job _ _ _ _ _ _ _ Ht Hx eq_refl) as [b0 Hb0].
      split; [|split]; apply Hb0; cbn; set_solver.
    + intros err Hx.
      destruct (AnswerFacts.turn_job _ _ _ _ _ _ _ Ht Hx eq_refl) as [b0 Hb0].
      split; apply Hb0; cbn; set_solver.
  - intros ev b b' e n request res Ht. split.
    + intros result Hx.
      destruct (AnswerFacts.simple_turn_job _ _ _ _ _ _ _ Ht Hx eq_refl) as [b0 Hb0].
      split; apply Hb0; cbn; set_solver.
    + intros err Hx.
      destruct (AnswerFacts.simple_turn_job _ _ _ _ _ _ _ Ht Hx eq_refl) as [b0 Hb0].
      split; apply Hb0; cbn; set_solver.
Qed.

(** X12. The turn of a request writes to the response of that request and
    to no other: every header, status line and body chunk written while a
    request is handled, the answers of the calls settled in the same turn
    included, goes to the response object of the request. *)
Theorem request_turn_is_isolated req res :
  (forall b b' e,
     Compliant.turn (Compliant.EvRequest req res) b = Some (b', e) ->
     forallb (concerns res) e = true)
  /\ (forall b b' e,
        Simple.turn (Simple.EvRequest req res) b = Some (b', e) ->
        forallb (concerns res) e = true).
Proof.
  split.
  - intros b b' e Ht.
    assert (Hl : Compliant.listening b = true /\ Compliant.exited b = false).
    { unfold Compliant.turn, Compliant.handle in Ht.
      destruct (Compliant.exited b); [discriminate|].
      destruct (Compliant.listening b); [auto|discriminate]. }
    destruct Hl as [Hl He].
    rewrite CompliantFacts.turn_request in Ht by assumption.
    pose proof (AnswerFacts.onRequest_concerns req res b) as Hc.
    injection Ht as Ht. rewrite Ht in Hc. exact Hc.
  - intros b b' e Ht.
    unfold Simple.turn, Simple.handle in Ht.
    destruct (Simple.exited b); [discriminate|].
    destruct (Simple.listening b); [|discriminate].
    destruct (AnswerFacts.simple_onRequest_concerns req res b) as [Hc Hj].
    destruct (Simple.onRequest req res b) as [b1 e1]. cbn [snd] in Hc, Hj.
    pose proof (AnswerFacts.simple_runJobs_concerns res _ b1 Hj) as Hc2.
    destruct (Simple.runJobs (omap settled e1) b1) as [b2 e2]. cbn [snd] in Hc2.
    injection Ht as <- <-.
    rewrite forallb_concerns_app, Hc, Hc2. reflexivity.
Qed.

End Answers.

(** ** Readiness and capabilities *)

Module ReadinessFacts.
Section WithPlatform.
Context `{Platform}.
Import Compliant CompliantReady.

Lemma steady_refl b : steady b b.
Proof. split; reflexivity. Qed.

Lemma steady_trans b b1 b2 : steady b b1 -> steady b1 b2 -> steady b b2.
Proof. intros [H1 H2] [H3 H4]. split; congruence. Qed.

Lemma learns_trans b b1 b2 : learns b b1 -> learns b1 b2 -> learns b b2.
Proof.
  intros [H1|H1] [H2|H2].
  - left. eapply steady_trans; eassumption.
  - right. exact H2.
  - right. destruct H2 as [Hc Hi]. rewrite Hc, Hi. exact H1.
  - right. exact H2.
Qed.

Lemma for_each_steady {A : Type} (body : A -> Bridge -> Bridge * list Effect) :
  (forall x b, steady b (body x b).1) ->
  forall items b, steady b (for_each body items b).1.
Proof.
  intros Hb items. induction items as [|x items IH]; intros b; [apply steady_refl|].
  cbn [for_each]. specialize (Hb x b). destruct (body x b) as [b1 e1].
  specialize (IH b1). destruct (for_each body items b1) as [b2 e2]. cbn [fst] in *.
  eapply steady_trans; eassumption.
Qed.

Lemma for_each_learns {A : Type} (body : A -> Bridge -> Bridge * list Effect) :
  (forall x b, learns b (body x b).1) ->
  forall items b, learns b (for_each body items b).1.
Proof.
  intros Hb items. induction items as [|x items IH]; intros b; [left; apply steady_refl|].
  cbn [for_each]. specialize (Hb x b). destruct (body x b) as [b1 e1].
  specialize (IH b1). destruct (for_each body items b1) as [b2 e2]. cbn [fst] in *.
  eapply learns_trans; eassumption.
Qed.

Lemma proxyToMCP_steady method params k b : steady b (proxyToMCP method params k b).1.
Proof. split; reflexivity. Qed.

Lemma onRequest_steady req res b : steady b (onRequest req res b).1.
Proof.
  unfold onRequest.
  destruct (nonempty (origin req) && _); [apply steady_refl|].
  destruct (String.eqb (method req) "OPTIONS"); [apply steady_refl|].
  destruct (handleHTTPRequest req res b) as [b' e] eqn:E. cbn [fst].
  change b' with (b', e).1. rewrite <- E. clear E b' e.
  unfold handleHTTPRequest, handleMCPEndpoint.
  destruct (nonempty (mcp_protocol_version req) && _); [apply steady_refl|].
  destruct (String.eqb (route _ _) "/health"); [apply steady_refl|].
  destruct (String.eqb (route _ _) "/mcp"); [|apply steady_refl].
  destruct (String.eqb (method req) "POST").
  { unfold handleMCPPost, handleInitializeRequest.
    destruct (negb (validateAcceptHeader _ _)); [apply steady_refl|].
    destruct (JSON_parse (body req)) as [message|]; [|apply steady_refl].
    destruct (nullish (Some message)); [apply steady_refl|].
    destruct (match field "method" (Some message) with
              | Some (JStr m) => String.eqb m "initialize"
              | _ => false
              end); [apply proxyToMCP_steady|].
    destruct (unknown_session _ b); [apply steady_refl|].
    destruct (truthy (field "id" (Some message))); [apply proxyToMCP_steady|].
    apply steady_refl. }
  destruct (String.eqb (method req) "GET").
  { unfold handleMCPGet.
    destruct (negb _); [apply steady_refl|].
    destruct (unknown_session _ b); [apply steady_refl|].
    split; reflexivity. }
  destruct (String.eqb (method req) "DELETE"); [|apply steady_refl].
  unfold handleMCPDelete.
  destruct (mcp_session_id req) as [s|]; [|apply steady_refl].
  destruct (String.eqb s ""); [apply steady_refl|].
  destruct (sessions b !! s); [split; reflexivity|apply steady_refl].
Qed.

Lemma onTimeout_steady id b : steady b (onTimeout id b).1.
Proof. unfold onTimeout. destruct (pendingRequests b !! id); split; reflexivity. Qed.

Lemma resume_steady k o b :
  steady b (resume k o b).1.
Proof.
  destruct k as [|message res|message res], o as [v|e]; cbn [resume];
    try (split; reflexivity).
  destruct (nullish (field "params" (Some message))); split; reflexivity.
Qed.

Lemma runJobs_steady jobs b : steady b (runJobs jobs b).1.
Proof. apply for_each_steady. intros [k o] b'. apply resume_steady. Qed.

Lemma handleMCPResponse_learns response b b' e :
  handleMCPResponse response b = Some (b', e) -> learns b b'.
Proof.
  unfold handleMCPResponse.
  destruct (nullish (Some response)); [discriminate|].
  destruct (if truthy _ then _ else _) as [[n k]|]; [|intros [= <- <-]; left; apply steady_refl].
  destruct (truthy (field "error" (Some response)));
    [intros [= <- <-]; left; split; reflexivity|].
  destruct (truthy (field "result" (Some response)) && _) eqn:E;
    intros [= <- <-]; [|left; split; reflexivity].
  right. split; [exact E|reflexivity].
Qed.

Lemma onLine_learns line b : learns b (onLine line b).1.
Proof.
  unfold onLine.
  destruct (String.eqb (trim line) ""); [left; apply steady_refl|].
  destruct (JSON_parse line) as [response|]; [|left; apply steady_refl].
  destruct (handleMCPResponse response b) as [[b' e]|] eqn:E; [|left; apply steady_refl].
  eapply handleMCPResponse_learns. exact E.
Qed.

Lemma onStdout_learns data b : learns b (onStdout data b).1.
Proof.
  unfold onStdout. destruct (cut newline _) as [h t]. destruct (pop h t) as [lines fragment].
  apply (learns_trans b (set_buffer fragment b)); [left; split; reflexivity|].
  apply (for_each_learns onLine). intros; apply onLine_learns.
Qed.

(** What a turn does to the capabilities and the readiness. *)
Lemma turn_readiness ev b b' e :
  turn ev b = Some (b', e) ->
  match ev with
  | EvStdout _ => learns b b'
  | EvExit => mcpCapabilities b' = mcpCapabilities b /\ isInitialized b' = false
  | _ => steady b b'
  end.
Proof.
  unfold turn. destruct (handle ev b) as [[b1 e1]|] eqn:Eh; [|discriminate].
  pose proof (runJobs_steady (omap settled e1) b1) as Hj.
  destruct (runJobs (omap settled e1) b1) as [b2 e2]. cbn [fst] in Hj.
  intros [= <- <-]. unfold handle in Eh.
  destruct (exited b); [discriminate|].
  destruct ev as [req res|data| | |id|cid res|cid res].
  - destruct (listening b); [|discriminate]. injection Eh as Eh.
    pose proof (onRequest_steady req res b) as Hr. rewrite Eh in Hr.
    eapply steady_trans; eassumption.
  - injection Eh as Eh. pose proof (onStdout_learns data b) as Hr. rewrite Eh in Hr.
    eapply learns_trans; [exact Hr|left; exact Hj].
  - destruct (mcpProcess b); [|discriminate]. injection Eh as <- <-.
    destruct Hj as [Hc Hi]. rewrite Hc, Hi. split; reflexivity.
  - destruct (mcpProcess b); [|discriminate]. injection Eh as <- <-.
    eapply steady_trans; [|exact Hj]. split; reflexivity.
  - destruct (timeouts b !! id); [|discriminate]. injection Eh as Eh.
    pose proof (onTimeout_steady id (set_timeouts (delete id (timeouts b)) b)) as Hr.
    rewrite Eh in Hr. eapply steady_trans; [|exact Hj].
    eapply steady_trans; [|exact Hr]. split; reflexivity.
  - destruct (existsb _ _); [|discriminate].
    destruct (sseConnections b !! cid); injection Eh as <- <-;
      (eapply steady_trans; [|exact Hj]); split; reflexivity.
  - injection Eh as <- <-. eapply steady_trans; [|exact Hj]. split; reflexivity.
Qed.



End WithPlatform.
End ReadinessFacts.

Module SimpleReadinessFacts.
Section WithPlatform.
Context `{Platform}.
Import Simple SimpleReady.

Lemma simple_steady_refl b : steady b b.
Proof. split; reflexivity. Qed.

Lemma simple_steady_trans b b1 b2 : steady b b1 -> steady b1 b2 -> steady b b2.
Proof. intros [H1 H2] [H3 H4]. split; congruence. Qed.

Lemma simple_learns_trans b b1 b2 : learns b b1 -> learns b1 b2 -> learns b b2.
Proof.
  intros [H1|H1] [H2|H2].
  - left. eapply simple_steady_trans; eassumption.
  - right. exact H2.
  - right. destruct H2 as [Hc Hi]. rewrite Hc, Hi. exact H1.
  - right. exact H2.
Qed.

Lemma simple_for_each_steady {A : Type} (body : A -> Bridge -> Bridge * list Effect) :
  (forall x b, steady b (body x b).1) ->
  forall items b, steady b (for_each body items b).1.
Proof.
  intros Hb items. induction items as [|x items IH]; intros b; [apply simple_steady_refl|].
  cbn [for_each]. specialize (Hb x b). destruct (body x b) as [b1 e1].
  specialize (IH b1). destruct (for_each body items b1) as [b2 e2]. cbn [fst] in *.
  eapply simple_steady_trans; eassumption.
Qed.

Lemma simple_for_each_learns {A : Type} (body : A -> Bridge -> Bridge * list Effect) :
  (forall x b, learns b (body x b).1) ->
  forall items b, learns b (for_each body items b).1.
Proof.
  intros Hb items. induction items as [|x items IH]; intros b;
    [left; apply simple_steady_refl|].
  cbn [for_each]. specialize (Hb x b). destruct (body x b) as [b1 e1].
  specialize (IH b1). destruct (for_each body items b1) as [b2 e2]. cbn [fst] in *.
  eapply simple_learns_trans; eassumption.
Qed.

Lemma call_steady id request delay expired k b :
  steady b (call id request delay expired k b).1.
Proof. unfold call. destruct (sendToMCP request b); split; reflexivity. Qed.

Lemma simple_proxyToMCP_steady method params k b : steady b (proxyToMCP method params k b).1.
Proof.
  unfold proxyToMCP. destruct (negb (isInitialized b)); [apply simple_steady_refl|].
  eapply simple_steady_trans; [|apply call_steady]. split; reflexivity.
Qed.

Lemma simple_onRequest_steady req res b : steady b (onRequest req res b).1.
Proof.
  unfold onRequest.
  destruct (String.eqb (method req) "OPTIONS"); [apply simple_steady_refl|].
  destruct (handleHTTPRequest req res b) as [b' e] eqn:E. cbn [fst].
  change b' with (b', e).1. rewrite <- E. clear E b' e.
  unfold handleHTTPRequest.
  destruct (String.eqb (route _ _) "/health"); [apply simple_steady_refl|].
  destruct (String.eqb (route _ _) "/mcp").
  { unfold handleMCP.
    destruct (negb (String.eqb (method req) "POST")); [apply simple_steady_refl|].
    destruct (JSON_parse (body req)) as [request|]; [|apply simple_steady_refl].
    destruct (nullish (Some request)); [apply simple_steady_refl|].
    apply simple_proxyToMCP_steady. }
  destruct (String.eqb (route _ _) "/sse"); [split; reflexivity|].
  destruct (String.eqb (route _ _) "/capabilities"); apply simple_steady_refl.
Qed.

Lemma simple_onTimeout_steady id expired b : steady b (onTimeout id expired b).1.
Proof. unfold onTimeout. destruct (pendingRequests b !! id); split; reflexivity. Qed.

Lemma simple_resume_steady k o b : steady b (resume k o b).1.
Proof. destruct k, o; split; reflexivity. Qed.

Lemma simple_runJobs_steady jobs b : steady b (runJobs jobs b).1.
Proof. apply simple_for_each_steady. intros [k o] b'. apply simple_resume_steady. Qed.

Lemma simple_handleMCPResponse_learns response b b' e :
  handleMCPResponse response b = Some (b', e) -> learns b b'.
Proof.
  unfold handleMCPResponse.
  destruct (nullish (Some response)); [discriminate|].
  destruct (if truthy _ then _ else _) as [[n k]|];
    [|intros [= <- <-]; left; apply simple_steady_refl].
  destruct (truthy (field "error" (Some response)));
    [intros [= <- <-]; left; split; reflexivity|].
  destruct (truthy (field "result" (Some response)) && _) eqn:E;
    intros [= <- <-]; [|left; split; reflexivity].
  right. split; [exact E|reflexivity].
Qed.

Lemma simple_onLine_learns line b : learns b (onLine line b).1.
Proof.
  unfold onLine.
  destruct (String.eqb (trim line) ""); [left; apply simple_steady_refl|].
  destruct (JSON_parse line) as [response|]; [|left; apply simple_steady_refl].
  destruct (handleMCPResponse response b) as [[b' e]|] eqn:E;
    [|left; apply simple_steady_refl].
  eapply simple_handleMCPResponse_learns. exact E.
Qed.

Lemma simple_onStdout_learns data b : learns b (onStdout data b).1.
Proof.
  unfold onStdout. destruct (cut newline _) as [h t]. destruct (pop h t) as [lines fragment].
  apply (simple_learns_trans b (set_buffer fragment b)); [left; split; reflexivity|].
  apply (simple_for_each_learns onLine). intros; apply simple_onLine_learns.
Qed.

Lemma simple_turn_readiness ev b b' e :
  turn ev b = Some (b', e) ->
  match ev with
  | EvStdout _ => learns b b'
  | EvExit => mcpCapabilities b' = mcpCapabilities b /\ isInitialized b' = false
  | _ => steady b b'
  end.
Proof.
  unfold turn. destruct (handle ev b) as [[b1 e1]|] eqn:Eh; [|discriminate].
  pose proof (simple_runJobs_steady (omap settled e1) b1) as Hj.
  destruct (runJobs (omap settled e1) b1) as [b2 e2]. cbn [fst] in Hj.
  intros [= <- <-]. unfold handle in Eh.
  destruct (exited b); [discriminate|].
  destruct ev as [req res|data| | |id|res|res].
  - destruct (listening b); [|discriminate]. injection Eh as Eh.
    pose proof (simple_onRequest_steady req res b) as Hr. rewrite Eh in Hr.
    eapply simple_steady_trans; eassumption.
  - injection Eh as Eh. pose proof (simple_onStdout_learns data b) as Hr. rewrite Eh in Hr.
    eapply simple_learns_trans; [exact Hr|left; exact Hj].
  - destruct (mcpProcess b); [|discriminate]. injection Eh as <- <-.
    destruct Hj as [Hc Hi]. rewrite Hc, Hi. split; reflexivity.
  - destruct (mcpProcess b); [|discriminate]. injection Eh as <- <-.
    eapply simple_steady_trans; [|exact Hj]. split; reflexivity.
  - destruct (timeouts b !! id) as [[d expired]|]; [|discriminate]. injection Eh as Eh.
    pose proof (simple_onTimeout_steady id expired
                  (set_timeouts (delete id (timeouts b)) b)) as Hr.
    rewrite Eh in Hr. eapply simple_steady_trans; [|exact Hj].
    eapply simple_steady_trans; [|exact Hr]. split; reflexivity.
  - destruct (existsb _ _); [|discriminate]. injection Eh as <- <-. exact Hj.
  - injection Eh as <- <-. eapply simple_steady_trans; [|exact Hj]. split; reflexivity.
Qed.

Lemma simple_turn_sound ev b b' e : sound b -> turn ev b = Some (b', e) -> sound b'.
Proof.
  intros Hs Ht. apply simple_turn_readiness in Ht.
  assert (Hsteady : steady b b' -> sound b').
  { intros [Hc Hi]. unfold sound. rewrite Hc, Hi. exact Hs. }
  destruct ev; try (apply Hsteady; exact Ht).
  - destruct Ht as [Ht|[Ht _]]; [apply Hsteady; exact Ht|right; exact Ht].
  - destruct Ht as [Hc Hi]. unfold sound. rewrite Hc, Hi.
    destruct Hs as [[Hs _]|Hs]; [left; auto|right; exact Hs].
Qed.

Lemma simple_run_sound evs b b' e : sound b -> run evs b = Some (b', e) -> sound b'.
Proof.
  revert b e. induction evs as [|ev evs IH]; intros b e Hs; cbn [run].
  - intros [= <- _]. exact Hs.
  - destruct (turn ev b) as [[b1 e1]|] eqn:Et; [|discriminate].
    destruct (run evs b1) as [[b2 e2]|] eqn:Er; [|discriminate].
    intros [= <- _]. eapply IH; [|exact Er]. eapply simple_turn_sound; eassumption.
Qed.

End WithPlatform.
End SimpleReadinessFacts.

Section Readiness.
Context `{Platform}.


(** X14. What changes the readiness.  In either bridge only a chunk of the
    child's output can mark the bridge initialized or change the stored
    capabilities, and it does so only by storing a capable result; only the
    exit of the child, apart from such a chunk, can change the readiness at
    all, and it sets it to false.  No HTTP request, timer, keep-alive or
    closed stream touches either. *)
Theorem readiness_changes :
  (forall ev b b' e,
     Compliant.turn ev b = Some (b', e) ->
     (Compliant.mcpCapabilities b' <> Compliant.mcpCapabilities b
      \/ (Compliant.isInitialized b = false /\ Compliant.isInitialized b' = true) ->
      (exists data, ev = Compliant.EvStdout data)
      /\ capable (Compliant.mcpCapabilities b') = true
      /\ Compliant.isInitialized b' = true)
     /\ (Compliant.isInitialized b = true -> Compliant.isInitialized b' = false ->
         ev = Compliant.EvExit))
  /\ (forall ev b b' e,
        Simple.turn ev b = Some (b', e) ->
        (Simple.mcpCapabilities b' <> Simple.mcpCapabilities b
         \/ (Simple.isInitialized b = false /\ Simple.isInitialized b' = true) ->
         (exists data, ev = Simple.EvStdout data)
         /\ capable (Simple.mcpCapabilities b') = true
         /\ Simple.isInitialized b' = true)
        /\ (Simple.isInitialized b = true -> Simple.isInitialized b' = false ->
            ev = Simple.EvExit)).
Proof.
  split.
  - intros ev b b' e Ht. apply ReadinessFacts.turn_readiness in Ht.
    unfold CompliantReady.learns, CompliantReady.steady in Ht. split.
    + intros Hch. destruct ev; try (destruct Ht as [Hc Hi]; destruct Hch as [Hch|[H0 H1]];
        [contradiction|congruence]).
      destruct Ht as [[Hc Hi]|[Hc Hi]].
      * destruct Hch as [Hch|[H0 H1]]; [contradiction|congruence].
      * split; [eexists; reflexivity|]. split; assumption.
    + intros H1 H0. destruct ev; try reflexivity;
        try (destruct Ht as [Hc Hi]; congruence).
      destruct Ht as [[Hc Hi]|[Hc Hi]]; congruence.
  - intros ev b b' e Ht. apply SimpleReadinessFacts.simple_turn_readiness in Ht.
    unfold SimpleReady.learns, SimpleReady.steady in Ht. split.
    + intros Hch. destruct ev; try (destruct Ht as [Hc Hi]; destruct Hch as [Hch|[H0 H1]];
        [contradiction|congruence]).
      destruct Ht as [[Hc Hi]|[Hc Hi]].
      * destruct Hch as [Hch|[H0 H1]]; [contradiction|congruence].
      * split; [eexists; reflexivity|]. split; assumption.
    + intros H1 H0. destruct ev; try reflexivity;
        try (destruct Ht as [Hc Hi]; congruence).
      destruct Ht as [[Hc Hi]|[Hc Hi]]; congruence.
Qed.

End Readiness.

(** ** The session table *)

Lemma issued_app {K : Type} (e1 e2 : list (Effect K)) :
  issued (e1 ++ e2) = issued e1 ++ issued e2.
Proof. unfold issued. apply flat_map_app. Qed.

Module SessionFacts.
Section WithPlatform.
Context `{Platform}.
Import Compliant.

Lemma sendToMCP_issued message b : issued (sendToMCP message b) = [].
Proof. unfold sendToMCP. destruct (mcpProcess b) as [[[]]|]; reflexivity. Qed.

Lemma proxyToMCP_issued method params k b : issued (proxyToMCP method params k b).2 = [].
Proof. unfold proxyToMCP. cbn [snd]. apply (sendToMCP_issued _ _). Qed.

Lemma proxyToMCP_sessions method params k b :
  sessions (proxyToMCP method params k b).1 = sessions b.
Proof. reflexivity. Qed.

(** A request hands out no session id; it leaves the sessions alone, or
    it is a DELETE and removes the session it names. *)
Lemma handleHTTPRequest_sessions req res b :
  issued (handleHTTPRequest req res b).2 = []
  /\ (sessions (handleHTTPRequest req res b).1 = sessions b
      \/ (method req = "DELETE"
          /\ exists s, mcp_session_id req = Some s
                       /\ sessions (handleHTTPRequest req res b).1 = delete s (sessions b))).
Proof.
  unfold handleHTTPRequest, handleMCPEndpoint.
  destruct (nonempty (mcp_protocol_version req) && _);
    [split; [reflexivity|left; reflexivity]|].
  destruct (String.eqb (route _ _) "/health"); [split; [reflexivity|left; reflexivity]|].
  destruct (String.eqb (route _ _) "/mcp"); [|split; [reflexivity|left; reflexivity]].
  destruct (String.eqb (method req) "POST").
  { unfold handleMCPPost, handleInitializeRequest.
    destruct (negb (validateAcceptHeader _ _)); [split; [reflexivity|left; reflexivity]|].
    destruct (JSON_parse (body req)) as [message|];
      [|split; [reflexivity|left; reflexivity]].
    destruct (nullish (Some message)); [split; [reflexivity|left; reflexivity]|].
    destruct (match field "method" (Some message) with
              | Some (JStr m) => String.eqb m "initialize"
              | _ => false
              end); [split; [apply proxyToMCP_issued|left; reflexivity]|].
    destruct (unknown_session _ b); [split; [reflexivity|left; reflexivity]|].
    destruct (truthy (field "id" (Some message)));
      [split; [apply proxyToMCP_issued|left; reflexivity]|].
    split; [|left; reflexivity]. cbn [snd]. rewrite issued_app.
    destruct (truthy (field "method" (Some message)));
      [rewrite sendToMCP_issued|]; reflexivity. }
  destruct (String.eqb (method req) "GET").
  { unfold handleMCPGet.
    destruct (negb _); [split; [reflexivity|left; reflexivity]|].
    destruct (unknown_session _ b); [split; [reflexivity|left; reflexivity]|].
    split; [|left; reflexivity].
    cbn [snd isInitialized mcpCapabilities set_intervals set_sseConnections set_uuids].
    destruct (isInitialized b && truthy (mcpCapabilities b)); reflexivity. }
  destruct (String.eqb (method req) "DELETE") eqn:Em;
    [|split; [reflexivity|left; reflexivity]].
  apply String.eqb_eq in Em.
  unfold handleMCPDelete.
  destruct (mcp_session_id req) as [s|]; [|split; [reflexivity|left; reflexivity]].
  destruct (String.eqb s ""); [split; [reflexivity|left; reflexivity]|].
  destruct (sessions b !! s); [|split; [reflexivity|left; reflexivity]].
  split; [reflexivity|]. right. split; [exact Em|]. exists s. split; reflexivity.
Qed.

Lemma onRequest_sessions req res b :
  issued (onRequest req res b).2 = []
  /\ (sessions (onRequest req res b).1 = sessions b
      \/ (method req = "DELETE"
          /\ exists s, mcp_session_id req = Some s
                       /\ sessions (onRequest req res b).1 = delete s (sessions b))).
Proof.
  unfold onRequest.
  destruct (nonempty (origin req) && _); [split; [reflexivity|left; reflexivity]|].
  destruct (String.eqb (method req) "OPTIONS"); [split; [reflexivity|left; reflexivity]|].
  pose proof (handleHTTPRequest_sessions req res b) as [Hi Hs].
  destruct (handleHTTPRequest req res b) as [b' e]. cbn [fst snd] in *.
  rewrite issued_app, Hi. split; [reflexivity|exact Hs].
Qed.

Lemma handleMCPResponse_sessions response b b' e :
  handleMCPResponse response b = Some (b', e) ->
  issued e = [] /\ sessions b' = sessions b.
Proof.
  unfold handleMCPResponse.
  destruct (nullish (Some response)); [discriminate|].
  destruct (if truthy _ then _ else _) as [[n k]|]; [|intros [= <- <-]; split; reflexivity].
  destruct (truthy (field "error" (Some response))); [intros [= <- <-]; split; reflexivity|].
  destruct (truthy (field "result" (Some response)) && _);
    intros [= <- <-]; split; reflexivity.
Qed.

Lemma onLine_sessions line b :
  issued (onLine line b).2 = [] /\ sessions (onLine line b).1 = sessions b.
Proof.
  unfold onLine.
  destruct (String.eqb (trim line) ""); [split; reflexivity|].
  destruct (JSON_parse line) as [response|]; [|split; reflexivity].
  destruct (handleMCPResponse response b) as [[b' e]|] eqn:E; [|split; reflexivity].
  eapply handleMCPResponse_sessions. exact E.
Qed.

Lemma onLines_sessions lines b :
  issued (onLines lines b).2 = [] /\ sessions (onLines lines b).1 = sessions b.
Proof.
  unfold onLines. revert b. induction lines as [|l lines IH]; intros b; [split; reflexivity|].
  cbn [for_each]. destruct (onLine_sessions l b) as [H1 H2].
  destruct (onLine l b) as [b1 e1]. destruct (IH b1) as [H3 H4].
  destruct (for_each onLine lines b1) as [b2 e2]. cbn [fst snd] in *.
  rewrite issued_app, H1, H3, H4, H2. split; reflexivity.
Qed.

Lemma onStdout_sessions data b :
  issued (onStdout data b).2 = [] /\ sessions (onStdout data b).1 = sessions b.
Proof.
  unfold onStdout. destruct (cut newline _) as [h t]. destruct (pop h t) as [lines fragment].
  apply (onLines_sessions lines (set_buffer fragment b)).
Qed.

Lemma onTimeout_sessions id b :
  issued (onTimeout id b).2 = [] /\ sessions (onTimeout id b).1 = sessions b.
Proof. unfold onTimeout. destruct (pendingRequests b !! id); split; reflexivity. Qed.

(** The code resumed after a call registers every session id it hands
    out, and removes no session. *)
Lemma resume_sessions k o b :
  (forall sid, sid ∈ issued (resume k o b).2 -> is_Some (sessions (resume k o b).1 !! sid))
  /\ (forall sid, is_Some (sessions b !! sid) -> is_Some (sessions (resume k o b).1 !! sid)).
Proof.
  destruct k as [|message res|message res], o as [v|e]; cbn [resume];
    try (split; [cbn; intros sid Hs; apply elem_of_nil in Hs; contradiction|auto]).
  destruct (nullish (field "params" (Some message)));
    [split; [cbn; intros sid Hs; apply elem_of_nil in Hs; contradiction|auto]|].
  cbn [fst snd sessions set_sessions]. split.
  - cbn. intros sid Hs. apply list_elem_of_singleton in Hs as ->.
    rewrite lookup_insert_eq. eauto.
  - intros sid Hs. destruct (decide (randomUUID (uuids b) = sid)) as [<-|Hne].
    + rewrite lookup_insert_eq. eauto.
    + rewrite lookup_insert_ne by exact Hne. exact Hs.
Qed.

Lemma runJobs_sessions jobs b :
  (forall sid, sid ∈ issued (runJobs jobs b).2 -> is_Some (sessions (runJobs jobs b).1 !! sid))
  /\ (forall sid, is_Some (sessions b !! sid) -> is_Some (sessions (runJobs jobs b).1 !! sid)).
Proof.
  unfold runJobs. revert b. induction jobs as [|[k o] jobs IH]; intros b.
  - split; [cbn; intros sid Hs; apply elem_of_nil in Hs; contradiction|auto].
  - cbn [for_each fst snd]. destruct (resume_sessions k o b) as [H1 H2].
    destruct (resume k o b) as [b1 e1]. destruct (IH b1) as [H3 H4].
    destruct (for_each _ jobs b1) as [b2 e2]. cbn [fst snd] in *. split.
    + intros sid Hs. rewrite issued_app in Hs. apply elem_of_app in Hs as [Hs|Hs]; auto.
    + auto.
Qed.

(** What the handler of an event does to the sessions. *)
Lemma handle_sessions ev b b1 e1 :
  handle ev b = Some (b1, e1) ->
  issued e1 = []
  /\ forall sid, terminates sid ev = false ->
                 is_Some (sessions b !! sid) -> is_Some (sessions b1 !! sid).
Proof.
  unfold handle. destruct (exited b); [discriminate|].
  destruct ev as [req res|data| | |id|cid res|cid res].
  - destruct (listening b); [|discriminate]. intros [= Heq].
    destruct (onRequest_sessions req res b) as [Hi Hs]. rewrite Heq in Hi, Hs.
    cbn [fst snd] in *. split; [exact Hi|]. intros sid Ht Hsid.
    destruct Hs as [-> | (Hm & s & Hs & ->)]; [exact Hsid|].
    cbn [terminates] in Ht. rewrite Hm, Hs in Ht. cbn in Ht.
    rewrite lookup_delete_ne; [exact Hsid|].
    intros ->. rewrite String.eqb_refl in Ht. discriminate.
  - intros [= Heq]. destruct (onStdout_sessions data b) as [Hi Hs].
    rewrite Heq in Hi, Hs. cbn [fst snd] in *. rewrite Hs. auto.
  - destruct (mcpProcess b); [|discriminate]. intros [= <- <-]. auto.
  - destruct (mcpProcess b); [|discriminate]. intros [= <- <-]. auto.
  - destruct (timeouts b !! id); [|discriminate]. intros [= Heq].
    destruct (onTimeout_sessions id (set_timeouts (delete id (timeouts b)) b)) as [Hi Hs].
    rewrite Heq in Hi, Hs. cbn [fst snd] in *. rewrite Hs. auto.
  - destruct (existsb _ _); [|discriminate].
    destruct (sseConnections b !! cid); intros [= <- <-]; auto.
  - intros [= <- <-]. auto.
Qed.

Lemma turn_sessions ev b b' e :
  turn ev b = Some (b', e) ->
  (forall sid, sid ∈ issued e -> is_Some (sessions b' !! sid))
  /\ (forall sid, terminates sid ev = false ->
                  is_Some (sessions b !! sid) -> is_Some (sessions b' !! sid)).
Proof.
  unfold turn. destruct (handle ev b) as [[b1 e1]|] eqn:Eh; [|discriminate].
  destruct (handle_sessions _ _ _ _ Eh) as [Hi Hk].
  destruct (runJobs_sessions (omap settled e1) b1) as [H1 H2].
  destruct (runJobs (omap settled e1) b1) as [b2 e2]. cbn [fst snd] in *.
  intros [= <- <-]. split.
  - intros sid Hs. rewrite issued_app, Hi in Hs. auto.
  - auto.
Qed.

End WithPlatform.
End SessionFacts.

Section Sessions.
Context `{Platform}.

(** X15. Every session id the compliant bridge hands out is registered: at
    the end of a turn of the event loop, each value of an [Mcp-Session-Id]
    header written during the turn is a key of the session table. *)
Theorem issued_sessions_are_registered ev b b' e sid :
  Compliant.turn ev b = Some (b', e) ->
  sid ∈ issued e ->
  is_Some (Compliant.sessions b' !! sid).
Proof. intros Ht. apply (proj1 (SessionFacts.turn_sessions _ _ _ _ Ht)). Qed.


End Sessions.

(** ** Round trips *)

Lemma framed_one_line line :
  has_newline line = false -> framed (line +:+ nl) = ([line], "").
Proof.
  intros Hn. rewrite <- (append_empty (line +:+ nl)), <- append_assoc.
  rewrite framed_line by exact Hn. rewrite framed_empty. reflexivity.
Qed.

Section RoundTrips.
Context `{Platform}.

(** X17. The round trip of a request through the compliant bridge.  In a
    state reached from the start where the server listens, the child is
    writable and no partial line is buffered, a POST on [/mcp] with a
    truthy id, followed by a line of the child that answers the id given to
    it with no error, goes as follows: the message is registered under the
    next request id and written to the child with that id in place of the
    client's, its method and params unchanged; the answer resolves the
    call; and the client is answered 200 with the child's result under the
    client's own id.  Afterwards the pending map is as before and the
    counter is one higher. *)
Theorem post_round_trip evs e0 b req res message line response :
  Compliant.run evs Compliant.start.1 = Some (b, e0) ->
  Compliant.listening b = true -> Compliant.exited b = false ->
  Compliant.mcpProcess b = Some {| stdin_writable := true |} ->
  Compliant.buffer b = "" ->
  Compliant.to_mcp "POST" req = true ->
  Compliant.validateAcceptHeader (accept req) ["application/json"; "text/event-stream"]
  = true ->
  JSON_parse (body req) = Some message ->
  field "method" (Some message) <> Some (JStr "initialize") ->
  Compliant.unknown_session (mcp_session_id req) b = false ->
  truthy (field "id" (Some message)) = true ->
  has_newline line = false -> trim line <> "" ->
  JSON_parse line = Some response ->
  field "id" (Some response) = Some (JNum (Compliant.requestId b)) ->
  truthy (field "error" (Some response)) = false ->
  exists b',
    Compliant.run [Compliant.EvRequest req res; Compliant.EvStdout (line +:+ nl)] b =
    Some (b',
          Compliant.cors req res
          ++ [PendingSet (Compliant.requestId b) (Compliant.AwaitPost message res);
              StdinWrite (jsonrpc_request (Compliant.requestId b)
                            (field "method" (Some message))
                            (field "params" (Some message)))]
          ++ (if capable (field "result" (Some response))
              then [ConsoleLog "MCP server initialized successfully"] else [])
          ++ [Resolve (Compliant.requestId b) (Compliant.AwaitPost message res)
                (field "result" (Some response))]
          ++ respond res 200
               (jsonrpc_result (field "id" (Some message))
                  (field "result" (Some response))))
    /\ Compliant.requestId b' = Compliant.requestId b + 1
    /\ Compliant.pendingRequests b' = Compliant.pendingRequests b
    /\ Compliant.buffer b' = "".
Proof.
  intros Hrun Hl He Hproc Hbuf Hto Hacc Hparse Hmeth Hsess Hid Hnl Htrim Hline Hrid Herr.
  apply CompliantFacts.run_counts in Hrun as (Hr & _ & Hp & _).
  change (Compliant.requestId Compliant.start.1) with 2 in *.
  set (n := Compliant.requestId b) in *.
  assert (Hfresh : Compliant.pendingRequests b !! n = None).
  { destruct (Compliant.pendingRequests b !! n) eqn:E; [|reflexivity].
    destruct (Hp n) as [[k Hk]|Hk]; [eauto| |unfold n in Hk; lia].
    change (Compliant.pendingRequests Compliant.start.1)
      with (<[1 := Compliant.AwaitStart]> (∅ : gmap Z Compliant.Cont)) in Hk.
    rewrite lookup_insert_ne, lookup_empty in Hk by lia. discriminate. }
  assert (Hmnull : nullish (Some message) = false).
  { destruct message; try reflexivity. discriminate. }
  assert (Hrnull : nullish (Some response) = false).
  { destruct response; try reflexivity. discriminate. }
  cbn [Compliant.run].
  rewrite CompliantFacts.turn_request by assumption.
  rewrite CompliantFacts.onRequest_post by assumption.
  unfold Compliant.handleMCPPost. rewrite Hacc, Hparse, Hmnull, Hsess, Hid. cbn [negb].
  replace (match field "method" (Some message) with
           | Some (JStr m) => String.eqb m "initialize"
           | _ => false
           end) with false.
  2:{ destruct (field "method" (Some message)) as [[| | |m| |]|]; try reflexivity.
      destruct (String.eqb m "initialize") eqn:E; [|reflexivity].
      apply String.eqb_eq in E. subst m. contradiction. }
  unfold Compliant.proxyToMCP. fold n. cbn [fst snd].
  set (k := Compliant.AwaitPost message res).
  set (b1 := Compliant.set_timeouts _ _).
  assert (Hsent : Compliant.sendToMCP
                    (jsonrpc_request n (field "method" (Some message))
                       (field "params" (Some message)))
                    (Compliant.set_pendingRequests
                       (<[n:=k]> (Compliant.pendingRequests
                                    (Compliant.set_requestId (n + 1) b)))
                       (Compliant.set_requestId (n + 1) b))
                  = [StdinWrite (jsonrpc_request n (field "method" (Some message))
                                   (field "params" (Some message)))]).
  { unfold Compliant.sendToMCP.
    change (Compliant.mcpProcess _) with (Compliant.mcpProcess b). rewrite Hproc.
    reflexivity. }
  rewrite Hsent.
  unfold Compliant.turn, Compliant.handle.
  change (Compliant.exited b1) with (Compliant.exited b). rewrite He.
  unfold Compliant.onStdout.
  change (Compliant.buffer b1) with (Compliant.buffer b). rewrite Hbuf, append_nil.
  pose proof (framed_one_line line Hnl) as Hf. unfold framed in Hf.
  destruct (cut newline (line +:+ nl)) as [h t]. rewrite Hf.
  unfold Compliant.onLines. cbn [for_each]. unfold Compliant.onLine.
  apply String.eqb_neq in Htrim. rewrite Htrim, Hline.
  unfold Compliant.handleMCPResponse, Compliant.pending_entry.
  rewrite Hrnull, Hrid. cbn [truthy numeric_key mbind option_bind].
  replace (Z.eqb n 0) with false by (symmetry; apply Z.eqb_neq; unfold n; lia).
  cbn [negb].
  change (Compliant.pendingRequests (Compliant.set_buffer "" b1))
    with (<[n:=k]> (Compliant.pendingRequests b)).
  rewrite lookup_insert_eq. cbn [mbind option_bind].
  rewrite Herr, delete_insert_id by exact Hfresh. unfold capable.
  destruct (truthy (field "result" (Some response)) && _);
    (eexists; split; [reflexivity|]); repeat split.
Qed.

(** X18. The round trip of a request through the simple bridge.  In a state
    reached from the start where the server listens, the bridge is
    initialized, the child is writable and no partial line is buffered, a
    POST on [/mcp], followed by a line of the child that answers the id
    given to it with no error, goes as follows: the message is registered
    under the next request id and written to the child with that id in
    place of the client's, its method unchanged and its params replaced by
    an empty object when it has none; the answer resolves the call; and the
    client is answered 200 with the child's result under the client's own
    id.  Afterwards the pending map is as before and the counter is one
    higher. *)
Theorem simple_post_round_trip evs e0 b req res request line response :
  Simple.run evs Simple.start.1 = Some (b, e0) ->
  Simple.listening b = true -> Simple.exited b = false ->
  Simple.isInitialized b = true ->
  Simple.mcpProcess b = Some {| stdin_writable := true |} ->
  Simple.buffer b = "" ->
  preflight req = false ->
  route ["health"; "mcp"; "sse"; "capabilities"] (pathname req) = "/mcp" ->
  method req = "POST" ->
  JSON_parse (body req) = Some request ->
  nullish (Some request) = false ->
  has_newline line = false -> trim line <> "" ->
  JSON_parse line = Some response ->
  field "id" (Some response) = Some (JNum (Simple.requestId b)) ->
  truthy (field "error" (Some response)) = false ->
  exists b',
    Simple.run [Simple.EvRequest req res; Simple.EvStdout (line +:+ nl)] b =
    Some (b',
          Simple.cors res
          ++ [PendingSet (Simple.requestId b) (Simple.AwaitMCP request res);
              StdinWrite (jsonrpc_request (Simple.requestId b)
                            (field "method" (Some request))
                            (match field "params" (Some request) with
                             | None => Some (JObj [])
                             | Some params => Some params
                             end))]
          ++ (if capable (field "result" (Some response))
              then [ConsoleLog "MCP initialized:"] else [])
          ++ [Resolve (Simple.requestId b) (Simple.AwaitMCP request res)
                (field "result" (Some response))]
          ++ respond res 200
               (jsonrpc_result (field "id" (Some request))
                  (field "result" (Some response))))
    /\ Simple.requestId b' = Simple.requestId b + 1
    /\ Simple.pendingRequests b' = Simple.pendingRequests b
    /\ Simple.buffer b' = "".
Proof.
  intros Hrun Hl He Hinit Hproc Hbuf Hpre Hroute Hm Hparse Hnull Hnl Htrim Hline Hrid Herr.
  apply SimpleFacts.simple_run_counts in Hrun as (Hr & _ & Hp & _).
  change (Simple.requestId Simple.start.1) with 2 in *.
  set (n := Simple.requestId b) in *.
  assert (Hfresh : Simple.pendingRequests b !! n = None).
  { destruct (Simple.pendingRequests b !! n) eqn:E; [|reflexivity].
    destruct (Hp n) as [[k Hk]|Hk]; [eauto| |unfold n in Hk; lia].
    change (Simple.pendingRequests Simple.start.1)
      with (<[1 := {| Simple.awaiting := Simple.AwaitStart;
                      Simple.alreadyResolved := false |}]>
              (∅ : gmap Z Simple.Entry)) in Hk.
    rewrite lookup_insert_ne, lookup_empty in Hk by lia. discriminate. }
  assert (Hrnull : nullish (Some response) = false).
  { destruct response; try reflexivity. discriminate. }
  cbn [Simple.run].
  unfold Simple.turn at 1, Simple.handle at 1. rewrite He, Hl.
  rewrite SimpleGatewayFacts.simple_onRequest_routed by assumption.
  unfold Simple.handleHTTPRequest. rewrite Hroute.
  change (String.eqb "/mcp" "/health") with false.
  change (String.eqb "/mcp" "/mcp") with true. cbn iota.
  unfold Simple.handleMCP. rewrite Hm.
  change (String.eqb "POST" "POST") with true. cbn [negb]. rewrite Hparse, Hnull.
  unfold Simple.proxyToMCP. rewrite Hinit. cbn [negb]. fold n.
  set (k := Simple.AwaitMCP request res).
  set (params := match field "params" (Some request) with
                 | Some _ => field "params" (Some request)
                 | None => Some (JObj [])
                 end).
  assert (Hparams : params = match field "params" (Some request) with
                             | None => Some (JObj [])
                             | Some p => Some p
                             end).
  { unfold params. destruct (field "params" (Some request)); reflexivity. }
  rewrite <- Hparams.
  unfold Simple.call, Simple.sendToMCP.
  change (Simple.mcpProcess (Simple.set_requestId (n + 1) b)) with (Simple.mcpProcess b).
  rewrite Hproc. cbn [stdin_writable fst snd].
  set (b1 := Simple.set_timeouts _ _).
  cbn [omap list_omap settled app Simple.cors]. unfold Simple.runJobs at 1.
  cbn [list_omap settled for_each].
  unfold Simple.turn, Simple.handle.
  change (Simple.exited b1) with (Simple.exited b). rewrite He.
  unfold Simple.onStdout.
  change (Simple.buffer b1) with (Simple.buffer b). rewrite Hbuf, append_nil.
  pose proof (framed_one_line line Hnl) as Hf. unfold framed in Hf.
  destruct (cut newline (line +:+ nl)) as [h t]. rewrite Hf.
  unfold Simple.onLines. cbn [for_each]. unfold Simple.onLine.
  apply String.eqb_neq in Htrim. rewrite Htrim, Hline.
  unfold Simple.handleMCPResponse, Simple.pending_entry.
  rewrite Hrnull, Hrid. cbn [truthy numeric_key mbind option_bind].
  replace (Z.eqb n 0) with false by (symmetry; apply Z.eqb_neq; unfold n; lia).
  cbn [negb].
  change (Simple.pendingRequests (Simple.set_buffer "" b1))
    with (<[n:={| Simple.awaiting := k; Simple.alreadyResolved := false |}]>
            (Simple.pendingRequests b)).
  rewrite lookup_insert_eq. cbn [mbind option_bind].
  rewrite Herr, delete_insert_id by exact Hfresh. unfold capable.
  destruct (truthy (field "result" (Some response)) && _);
    (eexists; split; [reflexivity|]); repeat split.
Qed.

End RoundTrips.

(** ** Capabilities and event streams *)

Section Streams.
Context `{Platform}.

(** X19. The capabilities endpoint of the simple bridge.  Along every run
    from the start, a request routed to [/capabilities], whatever its
    method other than OPTIONS, is answered 503 while the bridge is not
    initialized, and otherwise 200 with the stored capabilities, which are
    then a truthy value with a truthy [capabilities] member, never [null].
    The bridge is left as it was. *)
Theorem capabilities_endpoint evs e0 b req res :
  Simple.run evs Simple.start.1 = Some (b, e0) ->
  Simple.listening b = true -> Simple.exited b = false ->
  preflight req = false ->
  route ["health"; "mcp"; "sse"; "capabilities"] (pathname req) = "/capabilities" ->
  (Simple.isInitialized b = false ->
   Simple.turn (Simple.EvRequest req res) b =
   Some (b, Simple.cors res ++ respond res 503 (error_body "MCP server not initialized")))
  /\ (Simple.isInitialized b = true ->
      exists capabilities,
        Simple.mcpCapabilities b = Some capabilities
        /\ capable (Some capabilities) = true
        /\ Simple.turn (Simple.EvRequest req res) b =
           Some (b, Simple.cors res
                    ++ [WriteHead res 200 json_headers;
                        End_ res (Some (Json capabilities))])).
Proof.
  intros Hrun Hl He Hp Hr.
  assert (Hh : Simple.handleHTTPRequest req res b = (b, Simple.handleCapabilities res b)).
  { unfold Simple.handleHTTPRequest. rewrite Hr. reflexivity. }
  assert (Hs : SimpleReady.sound b).
  { eapply SimpleReadinessFacts.simple_run_sound; [|exact Hrun]. left.
    unfold Simple.start, Simple.initializeMCP, Simple.call. cbn. split; reflexivity. }
  split.
  - intros Hi.
    rewrite SimpleGatewayFacts.simple_turn_quiet;
      rewrite ?SimpleGatewayFacts.simple_onRequest_routed, ?Hh by assumption;
      unfold Simple.handleCapabilities; rewrite ?Hi; try assumption; reflexivity.
  - intros Hi. destruct Hs as [[_ Hn]|Hc]; [congruence|].
    destruct (Simple.mcpCapabilities b) as [capabilities|] eqn:Ec; [|discriminate].
    exists capabilities. split; [reflexivity|]. split; [exact Hc|].
    rewrite SimpleGatewayFacts.simple_turn_quiet;
      rewrite ?SimpleGatewayFacts.simple_onRequest_routed, ?Hh by assumption;
      unfold Simple.handleCapabilities; rewrite ?Hi, ?Ec; try assumption; reflexivity.
Qed.

(** X20. The life of an event stream of the compliant bridge.  A GET on
    [/mcp] that accepts [text/event-stream], under no session id or a
    registered one, is answered 200 with the event-stream headers and left
    open; the stream is registered under a newly generated connection id,
    one no keep-alive of this response runs under yet, and, when the bridge
    is initialized, starts with an event that carries the stored
    capabilities.  As long as the stream is registered each tick of its
    keep-alive writes a comment line to it; when the request closes, the
    connection is removed and the keep-alive is stopped, so that no tick
    follows. *)
Theorem stream_lifecycle req res b a :
  Compliant.listening b = true -> Compliant.exited b = false ->
  Compliant.to_mcp "GET" req = true ->
  accept req = Some a -> includes "text/event-stream" a = true ->
  Compliant.unknown_session (mcp_session_id req) b = false ->
  existsb (fun i => String.eqb i.1 (randomUUID (Compliant.uuids b)) && Nat.eqb i.2 res)
          (Compliant.intervals b) = false ->
  exists b1 b2,
    Compliant.turn (Compliant.EvRequest req res) b =
    Some (b1,
          Compliant.cors req res
          ++ WriteHead res 200
               [("Content-Type", "text/event-stream"); ("Cache-Control", "no-cache");
                ("Connection", "keep-alive");
                ("Access-Control-Allow-Origin",
                 if nonempty (origin req) then default "" (origin req) else "*")]
             :: (if Compliant.isInitialized b && truthy (Compliant.mcpCapabilities b)
                 then [Write res (Text ("id: " +:+ randomUUID (Compliant.uuids b)
                                        +:+ "-1" +:+ nl));
                       Write res (SseData
                         (object [("jsonrpc", Some (JStr "2.0"));
                                  ("method", Some (JStr "notification/capabilities"));
                                  ("params",
                                   Some (object [("capabilities",
                                                  Compliant.mcpCapabilities b)]))]))]
                 else []))
    /\ Compliant.sseConnections b1
       = <[randomUUID (Compliant.uuids b) := res]> (Compliant.sseConnections b)
    /\ Compliant.turn (Compliant.EvKeepAlive (randomUUID (Compliant.uuids b)) res) b1
       = Some (b1, [Write res (Text (": keepalive" +:+ nl +:+ nl))])
    /\ Compliant.turn (Compliant.EvClose (randomUUID (Compliant.uuids b)) res) b1
       = Some (b2, [])
    /\ Compliant.sseConnections b2
       = delete (randomUUID (Compliant.uuids b)) (Compliant.sseConnections b)
    /\ Compliant.intervals b2 = Compliant.intervals b
    /\ Compliant.turn (Compliant.EvKeepAlive (randomUUID (Compliant.uuids b)) res) b2 = None.
Proof.
  intros Hl He Hto Ha Hinc Hs Hfresh.
  set (cid := randomUUID (Compliant.uuids b)) in *.
  assert (Hane : String.eqb a "" = false).
  { destruct (String.eqb a "") eqn:E; [|reflexivity].
    apply String.eqb_eq in E. subst a. discriminate. }
  assert (Hfilter : filter (fun i : string * Res => negb (String.eqb i.1 cid && Nat.eqb i.2 res))
                      (Compliant.intervals b ++ [(cid, res)]) = Compliant.intervals b).
  { rewrite filter_app, filter_cons_False, filter_nil, app_nil_r.
    - clear -Hfresh. induction (Compliant.intervals b) as [|i l IH]; [reflexivity|].
      cbn [existsb] in Hfresh. apply orb_false_elim in Hfresh as [Hi Hl].
      rewrite filter_cons_True by (apply Is_true_true, negb_true_iff; exact Hi).
      rewrite IH by exact Hl. reflexivity.
    - cbn [fst snd]. rewrite String.eqb_refl, Nat.eqb_refl. intros Hf. exact Hf. }
  rewrite CompliantFacts.turn_request by assumption.
  rewrite CompliantFacts.onRequest_get by assumption.
  unfold Compliant.handleMCPGet. rewrite Ha, Hinc, Hane, Hs. cbn [negb andb fst snd].
  fold cid.
  eexists _, _. split; [reflexivity|].
  split; [reflexivity|]. split; [|split; [|split; [|split]]].
  - unfold Compliant.turn, Compliant.handle.
    cbn [Compliant.exited Compliant.intervals Compliant.sseConnections
         Compliant.set_intervals Compliant.set_sseConnections Compliant.set_uuids].
    rewrite He, existsb_app. cbn [existsb fst snd].
    rewrite String.eqb_refl, Nat.eqb_refl, orb_true_r, lookup_insert_eq. reflexivity.
  - unfold Compliant.turn, Compliant.handle.
    cbn [Compliant.exited Compliant.intervals Compliant.sseConnections
         Compliant.set_intervals Compliant.set_sseConnections Compliant.set_uuids].
    rewrite He. reflexivity.
  - cbn [Compliant.sseConnections Compliant.set_intervals Compliant.set_sseConnections
         Compliant.set_uuids]. apply delete_insert_eq.
  - cbn [Compliant.intervals Compliant.sseConnections Compliant.set_intervals
         Compliant.set_sseConnections Compliant.set_uuids]. exact Hfilter.
  - unfold Compliant.turn, Compliant.handle.
    cbn [Compliant.exited Compliant.intervals Compliant.sseConnections
         Compliant.set_intervals Compliant.set_sseConnections Compliant.set_uuids].
    unfold Res in *. rewrite He, Hfilter, Hfresh. reflexivity.
Qed.

(** X21. The life of an event stream of the simple bridge.  Every request
    routed to [/sse], whatever its method other than OPTIONS and whatever
    its headers, on a response object that has no interval yet, is answered
    200 with the event-stream headers and left open; when the bridge is
    initialized the stream starts with an event that carries the stored
    capabilities.  Each tick of its interval writes a ping event to it;
    when the request closes the interval is cleared, so that no ping
    follows. *)
Theorem simple_stream_lifecycle req res b :
  Simple.listening b = true -> Simple.exited b = false ->
  preflight req = false ->
  route ["health"; "mcp"; "sse"; "capabilities"] (pathname req) = "/sse" ->
  existsb (Nat.eqb res) (Simple.intervals b) = false ->
  exists b1 b2,
    Simple.turn (Simple.EvRequest req res) b =
    Some (b1,
          Simple.cors res
          ++ WriteHead res 200
               [("Content-Type", "text/event-stream"); ("Cache-Control", "no-cache");
                ("Connection", "keep-alive")]
             :: (if Simple.isInitialized b && truthy (Simple.mcpCapabilities b)
                 then [Write res (SseData (object [("type", Some (JStr "capabilities"));
                                                   ("data", Simple.mcpCapabilities b)]))]
                 else []))
    /\ Simple.turn (Simple.EvPing res) b1
       = Some (b1, [Write res (SseData (JObj [("type", JStr "ping")]))])
    /\ Simple.turn (Simple.EvClose res) b1 = Some (b2, [])
    /\ Simple.intervals b2 = Simple.intervals b
    /\ Simple.turn (Simple.EvPing res) b2 = None.
Proof.
  intros Hl He Hp Hr Hfresh.
  assert (Hfilter : filter (fun r : Res => negb (Nat.eqb r res))
                      (Simple.intervals b ++ [res]) = Simple.intervals b).
  { rewrite filter_app, filter_cons_False, filter_nil, app_nil_r.
    - clear -Hfresh. induction (Simple.intervals b) as [|i l IH]; [reflexivity|].
      cbn [existsb] in Hfresh. apply orb_false_elim in Hfresh as [Hi Hl].
      rewrite filter_cons_True.
      + rewrite IH by exact Hl. reflexivity.
      + apply Is_true_true, negb_true_iff. rewrite Nat.eqb_sym. exact Hi.
    - rewrite Nat.eqb_refl. intros Hf. exact Hf. }
  assert (Hh : Simple.handleHTTPRequest req res b = Simple.handleSSE res b).
  { unfold Simple.handleHTTPRequest. rewrite Hr. reflexivity. }
  assert (Hq : omap settled (Simple.onRequest req res b).2 = []).
  { rewrite SimpleGatewayFacts.simple_onRequest_routed, Hh by assumption.
    unfold Simple.handleSSE. cbn [snd].
    destruct (Simple.isInitialized b && truthy (Simple.mcpCapabilities b)); reflexivity. }
  rewrite SimpleGatewayFacts.simple_turn_quiet by assumption.
  rewrite SimpleGatewayFacts.simple_onRequest_routed, Hh by assumption.
  unfold Simple.handleSSE. cbn [fst snd].
  eexists _, _. split; [reflexivity|]. split; [|split; [|split]].
  - unfold Simple.turn, Simple.handle. cbn [Simple.exited Simple.intervals Simple.set_intervals].
    rewrite He, existsb_app. cbn [existsb]. rewrite Nat.eqb_refl, orb_true_r. reflexivity.
  - unfold Simple.turn, Simple.handle. cbn [Simple.exited Simple.intervals Simple.set_intervals].
    rewrite He. reflexivity.
  - cbn [Simple.intervals Simple.set_intervals]. exact Hfilter.
  - unfold Simple.turn, Simple.handle. cbn [Simple.exited Simple.intervals Simple.set_intervals].
    unfold Res in *. rewrite He, Hfilter, Hfresh. reflexivity.
Qed.

End Streams.

(** ** The health check *)

Module HealthFacts.
Section WithPlatform.
Context `{Platform}.
Import Health.

Lemma joined_cons chunk chunks : joined (chunk :: chunks) = chunk +:+ joined chunks.
Proof. reflexivity. Qed.

(** A response is healthy when its status is 200 and its body parses to a
    value whose [status] is the string [healthy]. *)
Lemma onEnd_resolved statusCode text health :
  (onEnd statusCode text).2 = Resolved health <->
  statusCode = 200 /\ JSON_parse text = Some health
  /\ field "status" (Some health) = Some (JStr "healthy").
Proof.
  unfold onEnd. split.
  - destruct (JSON_parse text) as [h|]; [|discriminate].
    destruct (Z.eqb statusCode 200) eqn:E; [|discriminate].
    apply Z.eqb_eq in E.
    destruct (nullish (Some h)); [discriminate|].
    destruct (field "status" (Some h)) as [[| | |s| |]|] eqn:Ef; try discriminate.
    destruct (String.eqb s "healthy") eqn:Es; [|discriminate].
    apply String.eqb_eq in Es. subst s. cbn [snd]. intros [= <-].
    split; [exact E|split; [reflexivity|exact Ef]].
  - intros (-> & -> & Hs). change (Z.eqb 200 200) with true. cbn iota.
    assert (Hn : nullish (Some health) = false).
    { destruct health; try reflexivity. discriminate. }
    rewrite Hn, Hs. reflexivity.
Qed.

Lemma onEnd_prints statusCode text health :
  (onEnd statusCode text).2 = Resolved health -> (onEnd statusCode text).1 = [Passed health].
Proof.
  unfold onEnd.
  destruct (JSON_parse text) as [h|]; [|discriminate].
  destruct (Z.eqb statusCode 200); [|discriminate].
  destruct (nullish (Some h)); [discriminate|].
  destruct (field "status" (Some h)) as [[| | |s| |]|]; try discriminate.
  destruct (String.eqb s "healthy"); [|discriminate].
  cbn [fst snd]. intros [= ->]. reflexivity.
Qed.

Lemma run_settled evs c :
  settlement c <> None -> evs <> [] -> run evs c = None.
Proof.
  intros Hs Hevs. destruct evs as [|ev evs]; [congruence|].
  cbn [run]. unfold handle. destruct (settlement c); [reflexivity|congruence].
Qed.

(** The check while the body is being received. *)
Lemma run_receiving evs statusCode text c out health :
  run evs {| response := Some statusCode; data := text; settlement := None |} = Some (c, out) ->
  settlement c = Some (Resolved health) <->
  exists chunks,
    evs = map EvData chunks ++ [EvEnd]
    /\ statusCode = 200 /\ JSON_parse (text +:+ joined chunks) = Some health
    /\ field "status" (Some health) = Some (JStr "healthy").
Proof.
  revert text c out. induction evs as [|ev evs IH]; intros text c out.
  - cbn [run]. intros [= <- <-]. cbn [settlement]. split; [discriminate|].
    intros (chunks & Hevs & _). destruct chunks; discriminate.
  - cbn [run]. unfold handle. cbn [settlement response data].
    destruct ev as [st|chunk| |e|].
    + discriminate.
    + destruct (run evs _) as [[c2 p2]|] eqn:Er; [|discriminate].
      intros [= <- <-]. rewrite (IH _ _ _ Er). split.
      * intros (chunks & -> & Hst & Hp & Hs). exists (chunk :: chunks).
        rewrite joined_cons, append_assoc. auto.
      * intros (chunks & Hevs & Hst & Hp & Hs).
        destruct chunks as [|chunk' chunks]; [discriminate|].
        cbn [map app] in Hevs. injection Hevs as <- ->.
        exists chunks. rewrite joined_cons, append_assoc in Hp. auto.
    + destruct (onEnd statusCode text) as [prints outcome] eqn:Eo.
      destruct evs as [|ev' evs'].
      * cbn [run]. intros [= <- <-]. cbn [settlement]. split.
        -- intros [= ->].
           assert (He : (onEnd statusCode text).2 = Resolved health) by (rewrite Eo; reflexivity).
           apply onEnd_resolved in He as (Hst & Hp & Hs).
           exists []. cbn [joined foldr]. rewrite append_empty. auto.
        -- intros (chunks & Hevs & Hst & Hp & Hs).
           destruct chunks as [|chunk chunks].
           ++ cbn [joined foldr] in Hp. rewrite append_empty in Hp.
              assert (He : (onEnd statusCode text).2 = Resolved health)
                by (apply onEnd_resolved; auto).
              rewrite Eo in He. cbn [snd] in He. rewrite He. reflexivity.
           ++ discriminate.
      * rewrite run_settled by (cbn; congruence). discriminate.
    + destruct evs as [|ev' evs'].
      * cbn [run]. intros [= <- <-]. cbn [settlement]. split; [discriminate|].
        intros (chunks & Hevs & _). destruct chunks; [discriminate|discriminate].
      * rewrite run_settled by (cbn; congruence). discriminate.
    + destruct evs as [|ev' evs'].
      * cbn [run]. intros [= <- <-]. cbn [settlement]. split; [discriminate|].
        intros (chunks & Hevs & _). destruct chunks; [discriminate|discriminate].
      * rewrite run_settled by (cbn; congruence). discriminate.
Qed.

(** A healthy response, received in any number of chunks, passes. *)
Lemma run_healthy chunks text health :
  JSON_parse (text +:+ joined chunks) = Some health ->
  field "status" (Some health) = Some (JStr "healthy") ->
  run (map EvData chunks ++ [EvEnd])
      {| response := Some 200; data := text; settlement := None |}
  = Some ({| response := Some 200; data := text +:+ joined chunks;
             settlement := Some (Resolved health) |}, [Passed health]).
Proof.
  revert text. induction chunks as [|chunk chunks IH]; intros text Hp Hs.
  - cbn [map app run joined foldr] in *. rewrite append_empty in *.
    unfold handle. cbn [settlement response data].
    assert (He : (onEnd 200 text).2 = Resolved health) by (apply onEnd_resolved; auto).
    pose proof (onEnd_prints _ _ _ He) as Hprints.
    destruct (onEnd 200 text) as [prints outcome]. cbn [fst snd] in *. subst.
    reflexivity.
  - cbn [map app run]. unfold handle at 1. cbn [settlement response data].
    rewrite joined_cons, append_assoc in *.
    rewrite (IH _ Hp Hs). reflexivity.
Qed.

End WithPlatform.
End HealthFacts.

Section HealthChecks.
Context `{Platform}.

(** X22. The verdict of the health check.  The script exits with code 0
    exactly when the server answered with status 200 and the body it sent,
    its chunks put end to end, parses to a value whose [status] is the
    string [healthy]; the promise is then resolved with that value.  A
    connection error, the timeout, another status code, a body that does
    not parse, or one without that status, gives another outcome. *)
Theorem health_check_verdict evs c out health :
  Health.run evs Health.initial = Some (c, out) ->
  Health.settlement c = Some (Health.Resolved health) <->
  exists chunks,
    evs = Health.EvResponse 200 :: map Health.EvData chunks ++ [Health.EvEnd]
    /\ JSON_parse (joined chunks) = Some health
    /\ field "status" (Some health) = Some (JStr "healthy").
Proof.
  destruct evs as [|ev evs].
  - cbn [Health.run]. intros [= <- <-]. split; [discriminate|].
    intros (chunks & Hevs & _). discriminate.
  - cbn [Health.run]. unfold Health.handle at 1.
    cbn [Health.settlement Health.response Health.initial].
    destruct ev as [st|chunk| |e|]; try discriminate.
    + destruct (Health.run evs _) as [[c2 p2]|] eqn:Er; [|discriminate].
      intros [= <- <-]. rewrite (HealthFacts.run_receiving _ _ _ _ _ _ Er). split.
      * intros (chunks & -> & -> & Hp & Hs). exists chunks.
        rewrite append_nil in Hp. auto.
      * intros (chunks & Hevs & Hp & Hs). injection Hevs as -> ->.
        exists chunks. rewrite append_nil. auto.
    + destruct evs as [|ev' evs'].
      * cbn [Health.run]. intros [= <- <-]. split; [discriminate|].
        intros (chunks & Hevs & _). discriminate.
      * rewrite HealthFacts.run_settled by (cbn; congruence). discriminate.
    + destruct evs as [|ev' evs'].
      * cbn [Health.run]. intros [= <- <-]. split; [discriminate|].
        intros (chunks & Hevs & _). discriminate.
      * rewrite HealthFacts.run_settled by (cbn; congruence). discriminate.
Qed.

(** X23. The health check passes on a bridge that listens.  The request the
    script sends is answered 200 by either bridge, whatever the state of
    the child; and whenever the text received, in any number of chunks,
    parses to a value with the [status] member of the body the bridge
    sent, the check prints that it passed, resolves with that value and
    exits with code 0. *)
Theorem health_check_passes_on_a_bridge res :
  (forall b,
     Compliant.listening b = true -> Compliant.exited b = false ->
     exists body,
       Compliant.turn (Compliant.EvRequest Health.request res) b =
       Some (b, Compliant.cors Health.request res ++ respond res 200 body)
       /\ forall chunks health,
            JSON_parse (joined chunks) = Some health ->
            field "status" (Some health) = field "status" (Some body) ->
            exists c,
              Health.run (Health.EvResponse 200 :: map Health.EvData chunks
                          ++ [Health.EvEnd]) Health.initial
              = Some (c, [Health.Passed health])
              /\ Health.settlement c = Some (Health.Resolved health)
              /\ Health.exit_code c = Some 0)
  /\ (forall b,
        Simple.listening b = true -> Simple.exited b = false ->
        exists body,
          Simple.turn (Simple.EvRequest Health.request res) b =
          Some (b, Simple.cors res ++ respond res 200 body)
          /\ forall chunks health,
               JSON_parse (joined chunks) = Some health ->
               field "status" (Some health) = field "status" (Some body) ->
               exists c,
                 Health.run (Health.EvResponse 200 :: map Health.EvData chunks
                             ++ [Health.EvEnd]) Health.initial
                 = Some (c, [Health.Passed health])
                 /\ Health.settlement c = Some (Health.Resolved health)
                 /\ Health.exit_code c = Some 0).
Proof.
  assert (Hpass : forall body chunks health,
            field "status" (Some body) = Some (JStr "healthy") ->
            JSON_parse (joined chunks) = Some health ->
            field "status" (Some health) = field "status" (Some body) ->
            exists c,
              Health.run (Health.EvResponse 200 :: map Health.EvData chunks
                          ++ [Health.EvEnd]) Health.initial
              = Some (c, [Health.Passed health])
              /\ Health.settlement c = Some (Health.Resolved health)
              /\ Health.exit_code c = Some 0).
  { intros body chunks health Hb Hp Hs. rewrite Hb in Hs.
    cbn [Health.run]. unfold Health.handle at 1.
    cbn [Health.settlement Health.response Health.initial].
    rewrite (HealthFacts.run_healthy chunks "" health)
      by (rewrite ?append_nil; assumption).
    eexists. split; [reflexivity|]. split; reflexivity. }
  split.
  - intros b Hl He.
    destruct (GatewayFacts.handleHealth_body res b) as (body & Hb & Hst & _).
    exists body. split; [|intros chunks health; apply Hpass; exact Hst].
    rewrite (GatewayFacts.turn_admitted Health.request res b Hl He eq_refl eq_refl eq_refl).
    change (route ["health"; "mcp"] (pathname Health.request)) with "/health".
    rewrite Hb. reflexivity.
  - intros b Hl He.
    destruct (SimpleGatewayFacts.simple_handleHealth_body res b) as (body & Hb & Hst & _).
    exists body. split; [|intros chunks health; apply Hpass; exact Hst].
    rewrite SimpleGatewayFacts.simple_turn_quiet;
      rewrite ?SimpleGatewayFacts.simple_onRequest_routed by reflexivity;
      try assumption.
    + unfold Simple.handleHTTPRequest.
      change (route ["health"; "mcp"; "sse"; "capabilities"] (pathname Health.request))
        with "/health".
      rewrite Hb. reflexivity.
    + reflexivity.
Qed.

End HealthChecks.

(** ** The start of the compliant bridge *)


Module StartupFacts.
Section WithPlatform.
Context `{Platform}.
Import Compliant CompliantStartup.




















End WithPlatform.
End StartupFacts.

Section Startup.
Context `{Platform}.


End Startup.

(** ** The start of the simple bridge *)

Module SimpleStartupFacts.
Section WithPlatform.
Context `{Platform}.
Import Simple SimpleStartup.



























End WithPlatform.
End SimpleStartupFacts.

Section SimpleStart.
Context `{Platform}.


End SimpleStart.

(** ** The further properties on the example platform *)

Module Witnesses.
Import Sample Scenario Cases.

Lemma route_strips_prefix_witness :
  route ["health"; "mcp"] "/api/v1/mcp" = "/mcp"
  /\ route ["health"; "mcp"] "/mcp" = "/mcp"
  /\ route ["health"; "mcp"] "/api/sse" = "/api/sse".
Proof.
  split; [|split].
  - refine (route_strips_prefix ["health"; "mcp"] ["api"; "v1"] "mcp" _ _);
      [repeat constructor|reflexivity].
  - refine (route_strips_prefix ["health"; "mcp"] [] "mcp" _ _);
      [repeat constructor|reflexivity].
  - refine (route_strips_prefix ["health"; "mcp"] ["api"] "sse" _ _);
      [repeat constructor|reflexivity].
Defined.

Lemma accept_header_witness :
  Compliant.validateAcceptHeader (Some "application/json;q=0.9, text/event-stream ")
    ["application/json"; "text/event-stream"] = true
  /\ Compliant.validateAcceptHeader (Some "application/json;q=0.9, text/event-stream ")
       ["application/json"; "text/html"] = false.
Proof.
  split.
  - refine (accept_header_lists_types accept_entries
              ["application/json"; "text/event-stream"] _ _);
      [repeat constructor|discriminate].
  - refine (accept_header_lists_types accept_entries
              ["application/json"; "text/html"] _ _);
      [repeat constructor|discriminate].
Defined.

Lemma forbidden_origin_witness :
  Compliant.turn (Compliant.EvRequest foreign 3%nat) compliant_busy =
  Some (compliant_busy, respond 3%nat 403 (error_body "Forbidden origin")).
Proof.
  apply (proj1 (compliant_checks_come_first foreign 3%nat compliant_busy eq_refl eq_refl)).
  reflexivity.
Defined.

Lemma unserved_witness :
  Compliant.turn (Compliant.EvRequest nowhere 3%nat) compliant_busy =
  Some (compliant_busy,
        Compliant.cors nowhere 3%nat ++ respond 3%nat 404 (error_body "Not Found")).
Proof.
  apply (proj1 (proj1 (unserved_requests nowhere 3%nat) compliant_busy
                  eq_refl eq_refl eq_refl eq_refl eq_refl)); discriminate.
Defined.

Lemma health_witness :
  exists body,
    Compliant.turn (Compliant.EvRequest any_health 3%nat) exit_after_handshake =
    Some (exit_after_handshake, Compliant.cors any_health 3%nat ++ respond 3%nat 200 body)
    /\ field "status" (Some body) = Some (JStr "healthy")
    /\ field "mcp_initialized" (Some body) = Some (JBool false)
    /\ field "mcp_server" (Some body) = Some (JObj [("name", JStr "t")]).
Proof.
  exact (proj1 (health_is_always_healthy any_health 3%nat) exit_after_handshake
           eq_refl eq_refl eq_refl eq_refl eq_refl eq_refl).
Defined.

Lemma post_is_validated_witness :
  Compliant.turn (Compliant.EvRequest json_only 3%nat) compliant_busy =
  Some (compliant_busy,
        Compliant.cors json_only 3%nat
        ++ respond 3%nat 400
             (jsonrpc_error (Some JNull) (-32600)
                "Accept header must include application/json and text/event-stream")).
Proof.
  exact (proj1 (post_is_validated json_only 3%nat compliant_busy eq_refl eq_refl eq_refl)
           eq_refl).
Defined.

Lemma stale_session_witness :
  Compliant.turn (Compliant.EvRequest stale 3%nat) compliant_busy =
  Some (compliant_busy,
        Compliant.cors stale 3%nat
        ++ respond 3%nat 404
             (jsonrpc_error (Some (JNum 7)) (-32001) "Session not found")).
Proof.
  refine (proj1 (stale_session_is_refused stale 3%nat compliant_busy "bogus"
                   eq_refl eq_refl eq_refl _ _) stale_message eq_refl eq_refl _ eq_refl _).
  - discriminate.
  - vm_compute; reflexivity.
  - vm_compute; reflexivity.
  - discriminate.
Defined.

Lemma simple_post_is_refused_witness :
  Simple.turn (Simple.EvRequest simple_post 3%nat) simple_exit_after_handshake =
  Some (simple_exit_after_handshake,
        Simple.cors 3%nat
        ++ Threw (Simple.AwaitMCP list5 3%nat) (Error "MCP server not initialized")
           :: respond 3%nat 500
                (jsonrpc_error (Some JNull) (-32603) "MCP server not initialized")).
Proof.
  refine (proj2 (proj2 (simple_post_is_refused simple_post 3%nat simple_exit_after_handshake
                          eq_refl eq_refl eq_refl eq_refl eq_refl)) list5 _ eq_refl eq_refl).
  vm_compute; reflexivity.
Defined.

Lemma settlement_witness :
  WriteHead 1%nat 400 json_headers
    ∈ default [] (option_map snd (Compliant.turn (Compliant.EvTimeout 2) compliant_busy))
  /\ End_ 1%nat (Some (Json (jsonrpc_error (Some JNull) (-32700) "Parse error")))
      ∈ default [] (option_map snd (Compliant.turn (Compliant.EvTimeout 2) compliant_busy)).
Proof.
  destruct (Compliant.turn (Compliant.EvTimeout 2) compliant_busy) as [[b' e]|] eqn:Ht;
    [|vm_compute in Ht; discriminate].
  refine (proj2 (proj1 (proj2 (proj1 settlement_is_answered _ _ b' e 2 list5 1%nat Ht))
                   (Error "Request timeout") _)).
  vm_compute in Ht. injection Ht as _ <-. apply list_elem_of_here.
Defined.

Lemma isolated_witness :
  forallb (concerns 3%nat)
    (default [] (option_map snd
       (Compliant.turn (Compliant.EvRequest list_tools 3%nat) compliant_busy))) = true.
Proof.
  destruct (Compliant.turn (Compliant.EvRequest list_tools 3%nat) compliant_busy)
    as [[b' e]|] eqn:Ht; [|vm_compute in Ht; discriminate].
  exact (proj1 (request_turn_is_isolated list_tools 3%nat) compliant_busy b' e Ht).
Defined.


Lemma readiness_witness :
  (exists data, Compliant.EvStdout (initialized 1 +:+ nl) = Compliant.EvStdout data)
  /\ capable (Some init_result) = true.
Proof.
  destruct (Compliant.turn (Compliant.EvStdout (initialized 1 +:+ nl)) Compliant.start.1)
    as [[b' e]|] eqn:Ht; [|vm_compute in Ht; discriminate].
  assert (Hc : Compliant.mcpCapabilities b' = Some init_result)
    by (vm_compute in Ht; injection Ht as <- _; reflexivity).
  rewrite <- Hc.
  refine (let H := proj1 (proj1 readiness_changes _ _ b' e Ht) _ in
          conj (proj1 H) (proj1 (proj2 H))).
  left. rewrite Hc. discriminate.
Defined.

Lemma issued_witness :
  is_Some (Compliant.sessions
             (state_after Compliant.constructor
                (Compliant.turn (Compliant.EvStdout (initialized 4 +:+ nl)) initializing))
           !! randomUUID 0).
Proof.
  destruct (Compliant.turn (Compliant.EvStdout (initialized 4 +:+ nl)) initializing)
    as [[b' e]|] eqn:Ht; [|vm_compute in Ht; discriminate].
  refine (issued_sessions_are_registered _ _ b' e (randomUUID 0) Ht _).
  vm_compute in Ht. injection Ht as _ <-. vm_compute. apply list_elem_of_here.
Defined.


Lemma post_round_trip_witness :
  exists b',
    Compliant.run [Compliant.EvRequest list_tools 3%nat;
                   Compliant.EvStdout (answer 4 "[]" +:+ nl)] compliant_busy =
    Some (b',
          Compliant.cors list_tools 3%nat
          ++ [PendingSet 4 (Compliant.AwaitPost list5 3%nat);
              StdinWrite (jsonrpc_request 4 (Some (JStr "tools/list")) (Some (JObj [])))]
          ++ []
          ++ [Resolve 4 (Compliant.AwaitPost list5 3%nat)
                (Some (JObj [("tools", JArr [])]))]
          ++ respond 3%nat 200
               (jsonrpc_result (Some (JNum 5)) (Some (JObj [("tools", JArr [])]))))
    /\ Compliant.requestId b' = 5
    /\ Compliant.pendingRequests b' = Compliant.pendingRequests compliant_busy
    /\ Compliant.buffer b' = "".
Proof.
  destruct (Compliant.run two_in_flight Compliant.start.1) as [[b e]|] eqn:Hr;
    [|vm_compute in Hr; discriminate].
  assert (Hb : b = compliant_busy)
    by (unfold compliant_busy; rewrite Hr; reflexivity).
  rewrite Hb in Hr.
  refine (post_round_trip two_in_flight e compliant_busy list_tools 3%nat list5
            (answer 4 "[]") answer4 Hr eq_refl eq_refl eq_refl eq_refl eq_refl eq_refl
            _ _ eq_refl eq_refl _ _ _ eq_refl eq_refl).
  - vm_compute; reflexivity.
  - discriminate.
  - vm_compute; reflexivity.
  - vm_compute; discriminate.
  - vm_compute; reflexivity.
Defined.

Lemma simple_post_round_trip_witness :
  exists b',
    Simple.run [Simple.EvRequest simple_post 3%nat;
                Simple.EvStdout (answer 2 "[]" +:+ nl)] simple_ready =
    Some (b',
          Simple.cors 3%nat
          ++ [PendingSet 2 (Simple.AwaitMCP list5 3%nat);
              StdinWrite (jsonrpc_request 2 (Some (JStr "tools/list")) (Some (JObj [])))]
          ++ []
          ++ [Resolve 2 (Simple.AwaitMCP list5 3%nat) (Some (JObj [("tools", JArr [])]))]
          ++ respond 3%nat 200
               (jsonrpc_result (Some (JNum 5)) (Some (JObj [("tools", JArr [])]))))
    /\ Simple.requestId b' = 3
    /\ Simple.pendingRequests b' = Simple.pendingRequests simple_ready
    /\ Simple.buffer b' = "".
Proof.
  destruct (Simple.run [Simple.EvStdout (initialized 1 +:+ nl)] Simple.start.1)
    as [[b e]|] eqn:Hr; [|vm_compute in Hr; discriminate].
  assert (Hb : b = simple_ready)
    by (unfold simple_ready; rewrite Hr; reflexivity).
  rewrite Hb in Hr.
  refine (simple_post_round_trip _ e simple_ready simple_post 3%nat list5
            (answer 2 "[]") answer2 Hr eq_refl eq_refl eq_refl eq_refl eq_refl eq_refl
            eq_refl eq_refl _ eq_refl _ _ _ eq_refl eq_refl).
  - vm_compute; reflexivity.
  - vm_compute; reflexivity.
  - vm_compute; discriminate.
  - vm_compute; reflexivity.
Defined.

Lemma capabilities_endpoint_witness :
  exists capabilities,
    Simple.mcpCapabilities simple_ready = Some capabilities
    /\ capable (Some capabilities) = true
    /\ Simple.turn (Simple.EvRequest get_capabilities 3%nat) simple_ready =
       Some (simple_ready,
             Simple.cors 3%nat
             ++ [WriteHead 3%nat 200 json_headers; End_ 3%nat (Some (Json capabilities))]).
Proof.
  destruct (Simple.run [Simple.EvStdout (initialized 1 +:+ nl)] Simple.start.1)
    as [[b e]|] eqn:Hr; [|vm_compute in Hr; discriminate].
  assert (Hb : b = simple_ready)
    by (unfold simple_ready; rewrite Hr; reflexivity).
  rewrite Hb in Hr.
  exact (proj2 (capabilities_endpoint _ e simple_ready get_capabilities 3%nat Hr
                  eq_refl eq_refl eq_refl eq_refl) eq_refl).
Defined.

Lemma stream_lifecycle_witness :
  exists b1 b2,
    Compliant.turn (Compliant.EvRequest get_stream 3%nat) compliant_busy
    = Some (b1,
            Compliant.cors get_stream 3%nat
            ++ [WriteHead 3%nat 200
                  [("Content-Type", "text/event-stream"); ("Cache-Control", "no-cache");
                   ("Connection", "keep-alive"); ("Access-Control-Allow-Origin", "*")];
                Write 3%nat (Text ("id: " +:+ randomUUID 0 +:+ "-1" +:+ nl));
                Write 3%nat (SseData
                  (object [("jsonrpc", Some (JStr "2.0"));
                           ("method", Some (JStr "notification/capabilities"));
                           ("params",
                            Some (object [("capabilities", Some init_result)]))]))])
    /\ Compliant.turn (Compliant.EvKeepAlive (randomUUID 0) 3%nat) b1
       = Some (b1, [Write 3%nat (Text (": keepalive" +:+ nl +:+ nl))])
    /\ Compliant.turn (Compliant.EvClose (randomUUID 0) 3%nat) b1 = Some (b2, [])
    /\ Compliant.turn (Compliant.EvKeepAlive (randomUUID 0) 3%nat) b2 = None.
Proof.
  destruct (stream_lifecycle get_stream 3%nat compliant_busy "text/event-stream"
              eq_refl eq_refl eq_refl eq_refl eq_refl eq_refl eq_refl)
    as (b1 & b2 & H1 & _ & H2 & H3 & _ & _ & H4).
  exists b1, b2. repeat split; assumption.
Defined.

Lemma simple_stream_lifecycle_witness :
  exists b1 b2,
    Simple.turn (Simple.EvRequest get_sse 3%nat) simple_ready
    = Some (b1,
            Simple.cors 3%nat
            ++ [WriteHead 3%nat 200
                  [("Content-Type", "text/event-stream"); ("Cache-Control", "no-cache");
                   ("Connection", "keep-alive")];
                Write 3%nat (SseData (object [("type", Some (JStr "capabilities"));
                                              ("data", Some init_result)]))])
    /\ Simple.turn (Simple.EvPing 3%nat) b1
       = Some (b1, [Write 3%nat (SseData (JObj [("type", JStr "ping")]))])
    /\ Simple.turn (Simple.EvClose 3%nat) b1 = Some (b2, [])
    /\ Simple.turn (Simple.EvPing 3%nat) b2 = None.
Proof.
  destruct (simple_stream_lifecycle get_sse 3%nat simple_ready
              eq_refl eq_refl eq_refl eq_refl eq_refl)
    as (b1 & b2 & H1 & H2 & H3 & _ & H4).
  exists b1, b2. repeat split; assumption.
Defined.

Lemma health_check_verdict_witness :
  Health.settlement
    (state_after Health.initial
       (Health.run (Health.EvResponse 200 :: map Health.EvData health_chunks
                    ++ [Health.EvEnd]) Health.initial))
  = Some (Health.Resolved health_value).
Proof.
  destruct (Health.run (Health.EvResponse 200 :: map Health.EvData health_chunks
                        ++ [Health.EvEnd]) Health.initial) as [[c out]|] eqn:Hr;
    [|vm_compute in Hr; discriminate].
  apply (proj2 (health_check_verdict _ c out health_value Hr)).
  exists health_chunks. split; [reflexivity|]. split; vm_compute; reflexivity.
Defined.

Lemma health_check_passes_witness :
  exists body,
    Compliant.turn (Compliant.EvRequest Health.request 3%nat) exit_after_handshake =
    Some (exit_after_handshake,
          Compliant.cors Health.request 3%nat ++ respond 3%nat 200 body)
    /\ forall chunks health,
         JSON_parse (joined chunks) = Some health ->
         field "status" (Some health) = field "status" (Some body) ->
         exists c,
           Health.run (Health.EvResponse 200 :: map Health.EvData chunks
                       ++ [Health.EvEnd]) Health.initial
           = Some (c, [Health.Passed health])
           /\ Health.settlement c = Some (Health.Resolved health)
           /\ Health.exit_code c = Some 0.
Proof.
  exact (proj1 (health_check_passes_on_a_bridge 3%nat) exit_after_handshake
           eq_refl eq_refl).
Defined.

End Witnesses.
